(** * Subscription lifecycle and gated notification delivery of kanvas-api

    A shallow embedding of
      - src/controllers/subscription.controller.ts (verify, cancel, webhook)
      - the GooglePlayService (verifySubscription, getSubscriptionTier,
        acknowledgeSubscription)
      - src/utils/timeUtils.ts (isWithinQuietHours)
      - the NotificationService (sendMulticastNotification,
        sendNotificationToUser)
    and of the Mongoose models ISubscription, IDeviceToken and
    INotificationPreferences that they read and write.

    Conventions of the embedding.
      - A [Date] is its time value in milliseconds; an Invalid Date (time
        value NaN) is [None].  The process runs with the UTC system zone,
        so the local fields of a JS Date are the UTC fields.
      - A collection is the list of its documents in natural order;
        [findOne] returns the first match.  A document is identified by
        its position, which never changes because nothing is deleted.
        Mongoose's bookkeeping fields (_id, __v, createdAt, updatedAt) are
        not part of the documents.  Reads succeed.  A write is refused
        where the schema says so: doc.save() runs the validators of
        subscriptionSchema, and the two unique indexes of that schema
        (orderId, purchaseToken) refuse a duplicate key.
      - The external collaborators (Google Play, Firebase, the zone table
        of date-fns-tz, the base64/JSON decoder) are the fields of [Env].
      - An async function is a computation [M A]: it threads the [World]
        and either returns or throws; every console line and every external
        call is appended to the world's trace. *)

From Stdlib Require Import String Ascii List ZArith Bool Lia DecimalString.
Import ListNotations.
Local Open Scope string_scope.
Local Open Scope Z_scope.

Set Implicit Arguments.

(** ** Data model *)

Definition Date := option Z.

(** The largest time value of a Date, 8.64e15 ms either side of the epoch. *)
Definition maxTime : Z := 8640000000000000.

(** new Date(t) on an integer: beyond the range the Date is invalid. *)
Definition newDate (t : Z) : Date :=
  if Z.abs t <=? maxTime then Some t else None.

(** The values found in the [tier] field.  The schema admits 'basic' and
    'premium'; [inherited m] is what the lookup of getSubscriptionTier
    yields for a subscriptionId that names the member [m] of
    Object.prototype, a function or an object and no tier. *)
Inductive Tier := basic | premium | inherited (member : string).

Inductive Status := active | expired | cancelled | paused | pending | failed.

Inductive PurchaseType := pt_subscription | pt_one_time.

(** ISubscription (models/subscription.model.ts).  The fields that the
    schema marks required but that an update with upsert never writes are
    optional here: validators do not run on findOneAndUpdate, so a
    document can lack them; they do run on doc.save(). *)
Record ISubscription := mkSubscription {
  userId : string;
  subscriptionId : string;
  productId : string;
  purchaseToken : string;
  tier : Tier;
  status : Status;
  startDate : Date;
  expiryDate : Date;
  autoRenewing : bool;
  paymentState : option Z;
  priceAmount : option Z;
  priceCurrency : option string;
  countryCode : option string;
  developerPayload : option string;
  orderId : option string;
  purchaseType : PurchaseType;
  gracePeriodEndDate : option Date;
  trialEndDate : option Date
}.

Inductive DeviceType := android | ios | web.

(** IDeviceToken (models/deviceToken.model.ts). *)
Record IDeviceToken := mkDeviceToken {
  dt_userId : string;
  token : string;
  deviceType : DeviceType;
  deviceId : string;
  isActive : bool;
  lastUsed : Date
}.

(** The QuietHours interface of timeUtils.ts. *)
Record QuietHours := mkQuietHours {
  enabled : bool;
  startTime : string;
  endTime : string;
  timezone : string
}.

(** INotificationPreferences (models/notificationPreferences.model.ts). *)
Record INotificationPreferences := mkPreferences {
  np_userId : string;
  newWallpapers : bool;
  trendingWallpapers : bool;
  subscriptionUpdates : bool;
  systemUpdates : bool;
  marketingUpdates : bool;
  quietHours : QuietHours
}.

(** The [type] argument of sendNotificationToUser. *)
Inductive NotificationType :=
  | NewWallpapers | TrendingWallpapers | SubscriptionUpdates
  | SystemUpdates | MarketingUpdates.

Inductive NotificationPriority := high | normal.

Inductive AndroidPriority := ap_default | ap_min | ap_max | ap_high | ap_low.

(** The optional [options] argument of the send functions. *)
Record SendOptions := mkOptions {
  priority : option NotificationPriority;
  ttl : option Z;
  collapseKey : option string;
  badge : option Z;
  sound : option string
}.

(** admin.messaging.MulticastMessage as sendMulticastNotification builds
    it (the constant channel id and the two [true] flags are left out). *)
Record MulticastMessage := mkMulticast {
  tokens : list string;
  title : string;
  body : string;
  data : option (list (string * string));
  android_priority : NotificationPriority;
  android_ttl : option Z;
  android_collapseKey : option string;
  android_notification_priority : AndroidPriority;
  android_sound : option string;
  apns_sound : string;
  apns_badge : Z;
  apns_priority : string;
  apns_expiration : Z
}.

(** One success flag per token, in the order of [tokens]. *)
Record BatchResponse := mkBatch { responses : list bool }.

(** ** External collaborators *)

(** The relevant fields of the body of purchases.subscriptions.get;
    [expiryTimeMillis] is [Number(subscription.expiryTimeMillis)] when
    the field is there: the API sends an int64 in decimal digits, and a
    string that Number would read as NaN or as a fraction is outside the
    embedding. *)
Record PlaySubscription := mkPlay {
  play_paymentState : option Z;
  play_expiryTimeMillis : option Z
}.

Inductive ApiReply :=
  | ApiRejects
  | ApiResolves (response_data : option PlaySubscription).

(** The decoded webhook payload. *)
Record WebhookData := mkWebhookData {
  notificationType : string;
  wd_subscriptionId : string;
  wd_purchaseToken : string;
  wd_packageName : string
}.

Record Env := mkEnv {
  (** androidPublisher.purchases.subscriptions.get, after auth.getClient *)
  subscriptionsGet : string -> string -> string -> ApiReply;
  (** androidPublisher.purchases.subscriptions.acknowledge: [true] when
      the promise resolves *)
  subscriptionsAcknowledge : string -> string -> string -> bool;
  (** JSON.parse(Buffer.from(data, 'base64').toString()): [None] when it
      throws or yields null, whose fields cannot be read *)
  parseEnvelope : string -> option WebhookData;
  (** offset in milliseconds of an IANA zone at an instant: [None] for a
      zone that date-fns-tz does not know *)
  zoneOffset : string -> Z -> option Z;
  (** admin.messaging().sendEachForMulticast: [None] when it throws *)
  sendEachForMulticast : MulticastMessage -> option BatchResponse
}.

(** ** Effects *)

Inductive Exn :=
  | CustomError (message : string) (statusCode : Z)
  | JsError (description : string).

Inductive Event :=
  | EvLog (line : string)
  | EvVerify (packageName subscriptionId purchaseToken : string)
  | EvAcknowledge (packageName subscriptionId purchaseToken : string)
  | EvPush (message : MulticastMessage).

Record World := mkWorld {
  subscriptions : list ISubscription;
  preferences : list INotificationPreferences;
  deviceTokens : list IDeviceToken;
  trace : list Event
}.

Definition M (A : Type) : Type := World -> (Exn + A) * World.

Definition ret {A} (a : A) : M A := fun w => (inr a, w).

Definition throw {A} (e : Exn) : M A := fun w => (inl e, w).

Definition bind {A B} (c : M A) (k : A -> M B) : M B :=
  fun w => match c w with
           | (inl e, w') => (inl e, w')
           | (inr a, w') => k a w'
           end.

(** try { c } catch (error) { h error } *)
Definition tryCatch {A} (c : M A) (h : Exn -> M A) : M A :=
  fun w => match c w with
           | (inl e, w') => h e w'
           | (inr a, w') => (inr a, w')
           end.

Notation "x <- c ;; k" := (bind c (fun x => k))
  (at level 61, c at next level, right associativity).
Notation "c ;;; k" := (bind c (fun _ => k))
  (at level 61, right associativity).

Definition emit (e : Event) : M unit :=
  fun w => (inr tt, mkWorld (subscriptions w) (preferences w)
                            (deviceTokens w) (trace w ++ [e])).

Definition getSubscriptions : M (list ISubscription) :=
  fun w => (inr (subscriptions w), w).

Definition putSubscriptions (l : list ISubscription) : M unit :=
  fun w => (inr tt, mkWorld l (preferences w) (deviceTokens w) (trace w)).

(** ** The Subscription collection *)

(** Model.findOne(filter): position and contents of the first match. *)
Fixpoint findOne {A} (filter : A -> bool) (l : list A) : option (nat * A) :=
  match l with
  | [] => None
  | d :: r =>
      if filter d then Some (O, d)
      else match findOne filter r with
           | Some (i, x) => Some (S i, x)
           | None => None
           end
  end.

(** doc.save() of the document loaded from position [i]. *)
Fixpoint save {A} (i : nat) (d : A) (l : list A) : list A :=
  match l, i with
  | [], _ => []
  | _ :: r, O => d :: r
  | x :: r, S j => x :: save j d r
  end.

Definition Subscription_findOne (filter : ISubscription -> bool)
  : M (option (nat * ISubscription)) :=
  l <- getSubscriptions ;; ret (findOne filter l).

(** The validators of subscriptionSchema.  A required path fails on a
    missing value and, for a String, on the empty string; a Date must be
    a valid one; tier must be one of its enum.  userId is an ObjectId,
    and status, autoRenewing and purchaseType hold a value of their type
    in every document of the embedding. *)
Definition present {A} (x : option A) : bool :=
  match x with
  | Some _ => true
  | None => false
  end.

Definition nonEmpty (s : string) : bool := negb (s =? "")%string.

Definition presentString (x : option string) : bool :=
  match x with
  | Some s => nonEmpty s
  | None => false
  end.

Definition isTier (t : Tier) : bool :=
  match t with
  | basic | premium => true
  | inherited _ => false
  end.

Definition passesValidation (d : ISubscription) : bool :=
  nonEmpty (subscriptionId d)
  && nonEmpty (productId d)
  && nonEmpty (purchaseToken d)
  && isTier (tier d)
  && present (startDate d)
  && present (expiryDate d)
  && present (paymentState d)
  && present (priceAmount d)
  && presentString (priceCurrency d)
  && presentString (countryCode d)
  && presentString (orderId d).

(** doc.save() of the document loaded from position [i]: validation
    first, and no write when it fails.  The handlers assign status,
    expiryDate and autoRenewing only, so no index key changes. *)
Definition Subscription_save (i : nat) (d : ISubscription) : M unit :=
  if passesValidation d
  then l <- getSubscriptions ;; putSubscriptions (save i d l)
  else throw (JsError "ValidationError").

Definition set_status (s : Status) (d : ISubscription) : ISubscription :=
  mkSubscription (userId d) (subscriptionId d) (productId d) (purchaseToken d)
    (tier d) s (startDate d) (expiryDate d) (autoRenewing d) (paymentState d)
    (priceAmount d) (priceCurrency d) (countryCode d) (developerPayload d)
    (orderId d) (purchaseType d) (gracePeriodEndDate d) (trialEndDate d).

Definition set_expiryDate (e : Date) (d : ISubscription) : ISubscription :=
  mkSubscription (userId d) (subscriptionId d) (productId d) (purchaseToken d)
    (tier d) (status d) (startDate d) e (autoRenewing d) (paymentState d)
    (priceAmount d) (priceCurrency d) (countryCode d) (developerPayload d)
    (orderId d) (purchaseType d) (gracePeriodEndDate d) (trialEndDate d).

Definition set_autoRenewing (b : bool) (d : ISubscription) : ISubscription :=
  mkSubscription (userId d) (subscriptionId d) (productId d) (purchaseToken d)
    (tier d) (status d) (startDate d) (expiryDate d) b (paymentState d)
    (priceAmount d) (priceCurrency d) (countryCode d) (developerPayload d)
    (orderId d) (purchaseType d) (gracePeriodEndDate d) (trialEndDate d).

Definition Status_eqb (a b : Status) : bool :=
  match a, b with
  | active, active | expired, expired | cancelled, cancelled
  | paused, paused | pending, pending | failed, failed => true
  | _, _ => false
  end.

Definition Tier_eqb (a b : Tier) : bool :=
  match a, b with
  | basic, basic | premium, premium => true
  | inherited m, inherited n => (m =? n)%string
  | _, _ => false
  end.

(** ** HTTP responses *)

Inductive Payload :=
  | Text (s : string)
  | JsonData (d : ISubscription)
  | JsonMessage (m : string).

Record Response := mkResponse { res_status : Z; res_payload : Payload }.

Section Controllers.

Variable E : Env.
(** The reading of the clock (Date.now(), new Date()) during the request. *)
Variable now : Z.

(** ** GooglePlayService (services/googlePlay.service.ts) *)

Record SubscriptionVerificationResult := mkVerification {
  isValid : bool;
  vr_tier : Tier;
  vr_expiryDate : Date
}.

(** The names that every plain object inherits from Object.prototype;
    the value of each is a function or, for __proto__, the prototype
    itself, so all of them are truthy. *)
Definition objectPrototypeMember (name : string) : bool :=
  existsb (String.eqb name)
    ["constructor"; "__defineGetter__"; "__defineSetter__"; "hasOwnProperty";
     "__lookupGetter__"; "__lookupSetter__"; "isPrototypeOf";
     "propertyIsEnumerable"; "toString"; "valueOf"; "__proto__";
     "toLocaleString"].

(** subscriptionTiers[subscriptionId] || 'basic': the two own keys of the
    table, then what the table inherits, then the fallback. *)
Definition getSubscriptionTier (subscriptionId : string) : Tier :=
  if (subscriptionId =? "com.yourapp.subscription.basic")%string then basic
  else if (subscriptionId =? "com.yourapp.subscription.premium")%string then premium
  else if objectPrototypeMember subscriptionId then inherited subscriptionId
  else basic.

Definition rethrowCustom {A} (message : string) (e : Exn) : M A :=
  match e with
  | CustomError _ _ => throw e
  | JsError _ => throw (CustomError message 500)
  end.

Definition verifySubscription (packageName subscriptionId purchaseToken : string)
  : M SubscriptionVerificationResult :=
  tryCatch
    (emit (EvVerify packageName subscriptionId purchaseToken) ;;;
     match subscriptionsGet E packageName subscriptionId purchaseToken with
     | ApiRejects => throw (JsError "purchases.subscriptions.get rejected")
     | ApiResolves None => throw (CustomError "Invalid subscription" 400)
     | ApiResolves (Some subscription) =>
         let expiryTimeMillis :=
           match play_expiryTimeMillis subscription with
           | Some n => n
           | None => 0
           end in
         let isValid :=
           match play_paymentState subscription with
           | Some s => (s =? 1) && (now <? expiryTimeMillis)
           | None => false
           end in
         let tier := getSubscriptionTier subscriptionId in
         ret (mkVerification isValid tier (newDate expiryTimeMillis))
     end)
    (rethrowCustom "Error verifying subscription").

Definition acknowledgeSubscription (packageName subscriptionId purchaseToken : string)
  : M unit :=
  emit (EvAcknowledge packageName subscriptionId purchaseToken) ;;;
  if subscriptionsAcknowledge E packageName subscriptionId purchaseToken
  then ret tt
  else throw (CustomError "Error acknowledging subscription" 500).

(** ** Subscription controller (src/controllers/subscription.controller.ts) *)

Record VerifyBody := mkVerifyBody {
  vb_packageName : string;
  vb_subscriptionId : string;
  vb_purchaseToken : string
}.

(** [user] is req.user?._id. *)
Record VerifyRequest := mkVerifyRequest {
  vq_user : option string;
  vq_body : VerifyBody
}.

Definition verifyFilter (uid sid : string) (d : ISubscription) : bool :=
  (userId d =? uid)%string && (subscriptionId d =? sid)%string.

(** The update document of verifyAndSaveSubscription applied to a match. *)
Definition verifyUpdate (uid sid tok : string) (t : Tier) (expiry : Date)
  (d : ISubscription) : ISubscription :=
  mkSubscription uid sid sid tok t active (Some now) expiry true
    (paymentState d) (priceAmount d) (priceCurrency d) (countryCode d)
    (developerPayload d) (orderId d) (purchaseType d)
    (gracePeriodEndDate d) (trialEndDate d).

(** The document an upsert inserts: filter and update fields, the schema
    default of purchaseType, nothing else. *)
Definition verifyInsert (uid sid tok : string) (t : Tier) (expiry : Date)
  : ISubscription :=
  mkSubscription uid sid sid tok t active (Some now) expiry true
    None None None None None None pt_subscription None None.

(** The error with which the upsert is refused, if it is.  An invalid
    expiry date cannot be cast.  The unique index on purchaseToken refuses
    a token that another document holds: on the update of a match when the
    token of the match changes, on an insert always.  The unique index on
    orderId is not sparse, so a missing orderId is indexed as null: the
    inserted document has none and is refused when a stored document has
    none either.  The update of a match leaves its orderId as it is. *)
Definition upsertError (uid sid tok : string) (expiry : Date)
  (l : list ISubscription) : option string :=
  match expiry with
  | None => Some "CastError"
  | Some _ =>
      match findOne (verifyFilter uid sid) l with
      | Some (_, d) =>
          if negb (purchaseToken d =? tok)%string
             && existsb (fun x => (purchaseToken x =? tok)%string) l
          then Some "E11000 duplicate key"
          else None
      | None =>
          if existsb (fun x => (purchaseToken x =? tok)%string
                               || negb (present (orderId x))) l
          then Some "E11000 duplicate key"
          else None
      end
  end.

(** Subscription.findOneAndUpdate(filter, update, {upsert, new}). *)
Definition Subscription_findOneAndUpdate_upsert (uid sid tok : string)
  (t : Tier) (expiry : Date) : M ISubscription :=
  l <- getSubscriptions ;;
  match upsertError uid sid tok expiry l with
  | Some error => throw (JsError error)
  | None =>
      match findOne (verifyFilter uid sid) l with
      | Some (i, d) =>
          let d' := verifyUpdate uid sid tok t expiry d in
          putSubscriptions (save i d' l) ;;; ret d'
      | None =>
          let d' := verifyInsert uid sid tok t expiry in
          putSubscriptions (l ++ [d']) ;;; ret d'
      end
  end.

Definition verifyAndSaveSubscription (req : VerifyRequest) : M Response :=
  tryCatch
    (let packageName := vb_packageName (vq_body req) in
     let subscriptionId := vb_subscriptionId (vq_body req) in
     let purchaseToken := vb_purchaseToken (vq_body req) in
     match vq_user req with
     | None => throw (CustomError "User not authenticated" 401)
     | Some userId =>
         verificationResult <-
           verifySubscription packageName subscriptionId purchaseToken ;;
         if negb (isValid verificationResult)
         then throw (CustomError "Invalid subscription" 400)
         else
           subscription <-
             Subscription_findOneAndUpdate_upsert userId subscriptionId
               purchaseToken (vr_tier verificationResult)
               (vr_expiryDate verificationResult) ;;
           acknowledgeSubscription packageName subscriptionId purchaseToken ;;;
           ret (mkResponse 200 (JsonData subscription))
     end)
    (rethrowCustom "Error processing subscription").

Definition activeOf (uid : string) (d : ISubscription) : bool :=
  (userId d =? uid)%string && Status_eqb (status d) active.

Definition cancelSubscription (user : option string) : M Response :=
  tryCatch
    (match user with
     | None => throw (CustomError "User not authenticated" 401)
     | Some userId =>
         found <- Subscription_findOne (activeOf userId) ;;
         match found with
         | None => throw (CustomError "No active subscription found" 404)
         | Some (i, subscription) =>
             let subscription := set_status cancelled subscription in
             let subscription := set_autoRenewing false subscription in
             Subscription_save i subscription ;;;
             ret (mkResponse 200 (JsonMessage "Subscription cancelled successfully"))
         end
     end)
    (rethrowCustom "Error cancelling subscription").

Definition bySubscriptionId (sid : string) (d : ISubscription) : bool :=
  (subscriptionId d =? sid)%string.

Definition handleSubscriptionRenewal (data : WebhookData) : M unit :=
  found <- Subscription_findOne (bySubscriptionId (wd_subscriptionId data)) ;;
  match found with
  | None => ret tt
  | Some (i, subscription) =>
      verificationResult <-
        verifySubscription (wd_packageName data) (wd_subscriptionId data)
          (wd_purchaseToken data) ;;
      if isValid verificationResult then
        let subscription := set_status active subscription in
        let subscription :=
          set_expiryDate (vr_expiryDate verificationResult) subscription in
        let subscription := set_autoRenewing true subscription in
        Subscription_save i subscription
      else ret tt
  end.

Definition handleSubscriptionExpiry (data : WebhookData) : M unit :=
  found <- Subscription_findOne (bySubscriptionId (wd_subscriptionId data)) ;;
  match found with
  | None => ret tt
  | Some (i, subscription) =>
      let subscription := set_status expired subscription in
      let subscription := set_autoRenewing false subscription in
      Subscription_save i subscription
  end.

Definition handleSubscriptionRecovery (data : WebhookData) : M unit :=
  found <- Subscription_findOne (bySubscriptionId (wd_subscriptionId data)) ;;
  match found with
  | None => ret tt
  | Some (i, subscription) =>
      verificationResult <-
        verifySubscription (wd_packageName data) (wd_subscriptionId data)
          (wd_purchaseToken data) ;;
      if isValid verificationResult then
        let subscription := set_status active subscription in
        let subscription :=
          set_expiryDate (vr_expiryDate verificationResult) subscription in
        Subscription_save i subscription
      else ret tt
  end.

Definition handleSubscriptionPause (data : WebhookData) : M unit :=
  found <- Subscription_findOne (bySubscriptionId (wd_subscriptionId data)) ;;
  match found with
  | None => ret tt
  | Some (i, subscription) =>
      let subscription := set_status paused subscription in
      Subscription_save i subscription
  end.

Definition handleSubscriptionRestart (data : WebhookData) : M unit :=
  found <- Subscription_findOne (bySubscriptionId (wd_subscriptionId data)) ;;
  match found with
  | None => ret tt
  | Some (i, subscription) =>
      verificationResult <-
        verifySubscription (wd_packageName data) (wd_subscriptionId data)
          (wd_purchaseToken data) ;;
      if isValid verificationResult then
        let subscription := set_status active subscription in
        let subscription :=
          set_expiryDate (vr_expiryDate verificationResult) subscription in
        Subscription_save i subscription
      else ret tt
  end.

Definition handleSubscriptionProration (data : WebhookData) : M unit :=
  found <- Subscription_findOne (bySubscriptionId (wd_subscriptionId data)) ;;
  match found with
  | None => ret tt
  | Some (i, subscription) =>
      verificationResult <-
        verifySubscription (wd_packageName data) (wd_subscriptionId data)
          (wd_purchaseToken data) ;;
      if isValid verificationResult then
        let subscription :=
          set_expiryDate (vr_expiryDate verificationResult) subscription in
        Subscription_save i subscription
      else ret tt
  end.

Definition handleSubscriptionDeferral (data : WebhookData) : M unit :=
  found <- Subscription_findOne (bySubscriptionId (wd_subscriptionId data)) ;;
  match found with
  | None => ret tt
  | Some (i, subscription) =>
      verificationResult <-
        verifySubscription (wd_packageName data) (wd_subscriptionId data)
          (wd_purchaseToken data) ;;
      if isValid verificationResult then
        let subscription :=
          set_expiryDate (vr_expiryDate verificationResult) subscription in
        Subscription_save i subscription
      else ret tt
  end.

(** The switch on data.notificationType. *)
Definition dispatchNotification (data : WebhookData) : M unit :=
  let t := notificationType data in
  if (t =? "SUBSCRIPTION_PURCHASED")%string
     || (t =? "SUBSCRIPTION_RENEWED")%string
  then handleSubscriptionRenewal data
  else if (t =? "SUBSCRIPTION_EXPIRED")%string
          || (t =? "SUBSCRIPTION_CANCELED")%string
  then handleSubscriptionExpiry data
  else if (t =? "SUBSCRIPTION_RECOVERED")%string
  then handleSubscriptionRecovery data
  else if (t =? "SUBSCRIPTION_PAUSED")%string
  then handleSubscriptionPause data
  else if (t =? "SUBSCRIPTION_RESTARTED")%string
  then handleSubscriptionRestart data
  else if (t =? "SUBSCRIPTION_PRORATED")%string
  then handleSubscriptionProration data
  else if (t =? "SUBSCRIPTION_DEFERRED")%string
  then handleSubscriptionDeferral data
  else emit (EvLog ("Unhandled notification type: " ++ t)).

(** [message_data] is req.body.message.data; [None] when [message] or its
    [data] is missing, which makes the first two statements throw. *)
Definition handleSubscriptionWebhook (message_data : option string) : M Response :=
  tryCatch
    (match message_data with
     | None => throw (JsError "TypeError")
     | Some encoded =>
         match parseEnvelope E encoded with
         | None => throw (JsError "SyntaxError")
         | Some data =>
             dispatchNotification data ;;;
             ret (mkResponse 200 (Text "OK"))
         end
     end)
    (fun error =>
       emit (EvLog "Webhook error:") ;;;
       ret (mkResponse 500 (Text "Error processing webhook"))).

End Controllers.

(** ** Time utilities (src/utils/timeUtils.ts) *)

Definition msPerMinute : Z := 60000.
Definition msPerHour : Z := 3600000.
Definition msPerDay : Z := 86400000.

(** String.prototype.split(':'). *)
Fixpoint split_colon (s : string) : list string :=
  match s with
  | EmptyString => [EmptyString]
  | String c r =>
      if (c =? ":")%char then EmptyString :: split_colon r
      else match split_colon r with
           | h :: t => String c h :: t
           | [] => [String c EmptyString]
           end
  end.

Definition digitValue (c : ascii) : option Z :=
  let n := Z.of_nat (nat_of_ascii c) in
  if (48 <=? n) && (n <=? 57) then Some (n - 48) else None.

Fixpoint digitsValue (acc : Z) (s : string) : option Z :=
  match s with
  | EmptyString => Some acc
  | String c r =>
      match digitValue c with
      | Some d => digitsValue (10 * acc + d) r
      | None => None
      end
  end.

(** Number(s) on a string of decimal digits, which is what the time
    pattern of quietHoursSchema lets through: the number read.  [None]
    stands for NaN, which is right for a string with a letter that no
    numeric literal has; JavaScript also reads signs, blanks, fractions,
    exponents and hex literals, which this function does not, and no
    statement below relies on [None] for such a string. *)
Definition Number (s : string) : option Z := digitsValue 0 s.

(** const [a, b] = parts.map(Number): a missing element is undefined,
    which setHours turns into NaN. *)
Definition destructure2 (l : list (option Z)) : option Z * option Z :=
  match l with
  | [] => (None, None)
  | [a] => (a, None)
  | a :: b :: _ => (a, b)
  end.

(** date.setHours(h, m, 0, 0) with UTC as the local zone. *)
Definition setHours (d : Date) (h m : option Z) : Date :=
  match d, h, m with
  | Some t, Some h, Some m =>
      Some (t / msPerDay * msPerDay + h * msPerHour + m * msPerMinute)
  | _, _, _ => None
  end.

(** date.setDate(date.getDate() + 1). *)
Definition addOneDay (d : Date) : Date :=
  match d with
  | Some t => Some (t + msPerDay)
  | None => None
  end.

(** a < b, a >= b, a <= b on Dates: false as soon as one is invalid. *)
Definition date_lt (a b : Date) : bool :=
  match a, b with
  | Some x, Some y => x <? y
  | _, _ => false
  end.

Definition date_ge (a b : Date) : bool :=
  match a, b with
  | Some x, Some y => y <=? x
  | _, _ => false
  end.

Definition date_le (a b : Date) : bool :=
  match a, b with
  | Some x, Some y => x <=? y
  | _, _ => false
  end.

Section Notifications.

Variable E : Env.
Variable now : Z.

(** toZonedTime(new Date(), timezone) of date-fns-tz. *)
Definition toZonedTime (timezone : string) : Date :=
  match zoneOffset E timezone now with
  | Some offset => Some (now + offset)
  | None => None
  end.

Definition isWithinQuietHours (quietHours : QuietHours) : bool :=
  if negb (enabled quietHours) then false
  else
    let userTime := toZonedTime (timezone quietHours) in
    let '(startHour, startMinute) :=
      destructure2 (map Number (split_colon (startTime quietHours))) in
    let '(endHour, endMinute) :=
      destructure2 (map Number (split_colon (endTime quietHours))) in
    let startTime := setHours userTime startHour startMinute in
    let endTime := setHours userTime endHour endMinute in
    let endTime :=
      if date_lt endTime startTime then addOneDay endTime else endTime in
    date_ge userTime startTime && date_le userTime endTime.

(** ** NotificationService (services/notification.service.ts) *)

Definition mapPriority (priority : NotificationPriority) : AndroidPriority :=
  match priority with
  | normal => ap_default
  | high => ap_high
  end.

(** options?.field *)
Definition opt {A} (options : option SendOptions)
  (field : SendOptions -> option A) : option A :=
  match options with
  | Some o => field o
  | None => None
  end.

(** x || fallback *)
Definition orElse {A} (x : option A) (falsy : A -> bool) (fallback : A) : A :=
  match x with
  | Some v => if falsy v then fallback else v
  | None => fallback
  end.

Definition multicastMessage (tokens : list string) (title body : string)
  (data : option (list (string * string))) (options : option SendOptions)
  : MulticastMessage :=
  let truthyTtl :=
    match opt options ttl with
    | Some n => if n =? 0 then None else Some n
    | None => None
    end in
  mkMulticast tokens title body data
    (orElse (opt options priority) (fun _ => false) high)
    (option_map (fun n => n * 1000) truthyTtl)
    (opt options collapseKey)
    (mapPriority (orElse (opt options priority) (fun _ => false) high))
    (opt options sound)
    (orElse (opt options sound) (fun s => (s =? "")%string) "default")
    (orElse (opt options badge) (fun n => n =? 0) 1)
    (match opt options priority with Some high => "10" | _ => "5" end)
    (match truthyTtl with Some n => n | None => 0 end).

(** initialize() only sets the two flags of the service and logs; it has
    its own try/catch and does not change what follows. *)
Definition sendMulticastNotification (tokens : list string) (title body : string)
  (data : option (list (string * string))) (options : option SendOptions)
  : M BatchResponse :=
  tryCatch
    (let message := multicastMessage tokens title body data options in
     emit (EvPush message) ;;;
     match sendEachForMulticast E message with
     | Some response => ret response
     | None => throw (JsError "sendEachForMulticast rejected")
     end)
    (fun error =>
       emit (EvLog "Error sending multicast notification:") ;;;
       throw (CustomError "Failed to send notifications" 500)).

Definition typeName (type : NotificationType) : string :=
  match type with
  | NewWallpapers => "newWallpapers"
  | TrendingWallpapers => "trendingWallpapers"
  | SubscriptionUpdates => "subscriptionUpdates"
  | SystemUpdates => "systemUpdates"
  | MarketingUpdates => "marketingUpdates"
  end.

(** preferences[type] *)
Definition switchOf (p : INotificationPreferences) (type : NotificationType)
  : bool :=
  match type with
  | NewWallpapers => newWallpapers p
  | TrendingWallpapers => trendingWallpapers p
  | SubscriptionUpdates => subscriptionUpdates p
  | SystemUpdates => systemUpdates p
  | MarketingUpdates => marketingUpdates p
  end.

Definition NotificationPreferences_findOne (userId : string)
  : M (option INotificationPreferences) :=
  fun w =>
    (inr (option_map snd
            (findOne (fun p => (np_userId p =? userId)%string) (preferences w))),
     w).

(** DeviceToken.find({ userId, isActive: true }) *)
Definition DeviceToken_find (userId : string) : M (list IDeviceToken) :=
  fun w =>
    (inr (filter (fun d => (dt_userId d =? userId)%string && isActive d)
            (deviceTokens w)),
     w).

Definition sendNotificationToUser (userId title body : string)
  (type : NotificationType) (data : option (list (string * string)))
  (options : option SendOptions) : M (option BatchResponse) :=
  tryCatch
    (preferences <- NotificationPreferences_findOne userId ;;
     match preferences with
     | None =>
         emit (EvLog ("No notification preferences found for user " ++ userId)) ;;;
         ret None
     | Some preferences =>
         if negb (switchOf preferences type) then
           emit (EvLog ("User " ++ userId ++ " has disabled "
                          ++ typeName type ++ " notifications")) ;;;
           ret None
         else if enabled (quietHours preferences)
                 && isWithinQuietHours (quietHours preferences) then
           emit (EvLog ("User " ++ userId ++ " is in quiet hours")) ;;;
           ret None
         else
           deviceTokens <- DeviceToken_find userId ;;
           if (length deviceTokens =? 0)%nat then ret None
           else
             let tokens := map token deviceTokens in
             response <-
               sendMulticastNotification tokens title body data options ;;
             ret (Some response)
     end)
    (fun error =>
       emit (EvLog "Error sending notification to user:") ;;;
       ret None).

End Notifications.

(** ** Vocabulary of the statements *)

(** The world after some more lines of trace. *)
Definition logged (w : World) (evs : list Event) : World :=
  mkWorld (subscriptions w) (preferences w) (deviceTokens w) (trace w ++ evs).

(** The world after the Subscription collection became [l]. *)
Definition stored (w : World) (l : list ISubscription) : World :=
  mkWorld l (preferences w) (deviceTokens w) (trace w).

(** The identity of a Subscription document. *)
Definition keyOf (d : ISubscription) : string * string :=
  (userId d, subscriptionId d).

Definition set_startDate (t : Date) (d : ISubscription) : ISubscription :=
  mkSubscription (userId d) (subscriptionId d) (productId d) (purchaseToken d)
    (tier d) (status d) t (expiryDate d) (autoRenewing d) (paymentState d)
    (priceAmount d) (priceCurrency d) (countryCode d) (developerPayload d)
    (orderId d) (purchaseType d) (gracePeriodEndDate d) (trialEndDate d).

(** The notification types whose handler calls verifySubscription. *)
Definition reverifies (t : string) : bool :=
  (t =? "SUBSCRIPTION_PURCHASED")%string || (t =? "SUBSCRIPTION_RENEWED")%string
  || (t =? "SUBSCRIPTION_RECOVERED")%string || (t =? "SUBSCRIPTION_RESTARTED")%string
  || (t =? "SUBSCRIPTION_PRORATED")%string || (t =? "SUBSCRIPTION_DEFERRED")%string.

(** The result of verifySubscription for a subscription resource. *)
Definition verificationOf (now : Z) (sid : string) (p : PlaySubscription)
  : SubscriptionVerificationResult :=
  let expiry := match play_expiryTimeMillis p with
                | Some n => n
                | None => 0
                end in
  mkVerification
    match play_paymentState p with
    | Some s => (s =? 1) && (now <? expiry)
    | None => false
    end
    (getSubscriptionTier sid) (newDate expiry).

(** The assignments that the handler of a notification type makes to the
    matched document once the re-verification [r] is valid, for the types
    that verify again. *)
Definition reverifyUpdate (t : string) (r : SubscriptionVerificationResult)
  (s : ISubscription) : ISubscription :=
  if (t =? "SUBSCRIPTION_PURCHASED")%string || (t =? "SUBSCRIPTION_RENEWED")%string
  then set_autoRenewing true
         (set_expiryDate (vr_expiryDate r) (set_status active s))
  else if (t =? "SUBSCRIPTION_RECOVERED")%string
          || (t =? "SUBSCRIPTION_RESTARTED")%string
  then set_expiryDate (vr_expiryDate r) (set_status active s)
  else set_expiryDate (vr_expiryDate r) s.

(** Whether a webhook delivery runs to the end of the try block: the
    envelope decodes and, when a subscription matches, the provider
    answers a re-verification with a subscription resource and the store
    accepts the document that the handler saves.  A re-verification that
    is not valid saves nothing, and neither does a type without
    handler. *)
Definition webhookCompletes (E : Env) (now : Z) (message_data : option string)
  (w : World) : bool :=
  match message_data with
  | None => false
  | Some encoded =>
      match parseEnvelope E encoded with
      | None => false
      | Some d =>
          let t := notificationType d in
          match findOne (bySubscriptionId (wd_subscriptionId d))
                  (subscriptions w) with
          | None => true
          | Some (_, s) =>
              if reverifies t then
                match subscriptionsGet E (wd_packageName d)
                        (wd_subscriptionId d) (wd_purchaseToken d) with
                | ApiResolves (Some p) =>
                    let r := verificationOf now (wd_subscriptionId d) p in
                    if isValid r then passesValidation (reverifyUpdate t r s)
                    else true
                | _ => false
                end
              else if (t =? "SUBSCRIPTION_EXPIRED")%string
                      || (t =? "SUBSCRIPTION_CANCELED")%string
              then passesValidation
                     (set_autoRenewing false (set_status expired s))
              else if (t =? "SUBSCRIPTION_PAUSED")%string
              then passesValidation (set_status paused s)
              else true
          end
      end
  end.

(** A document that lacks one of the fields which the schema requires and
    verify never writes. *)
Definition lacksRequiredField (d : ISubscription) : Prop :=
  paymentState d = None \/ priceAmount d = None \/ priceCurrency d = None
  \/ countryCode d = None \/ orderId d = None.

(** A store whose unique indexes admit the upsert of verify for a user,
    a subscription and a purchase token: the user has at most one
    document for the subscription, and no other document holds the token
    or lacks an orderId. *)
Definition indexesAdmit (uid sid tok : string) (l : list ISubscription)
  : Prop :=
  (length (filter (verifyFilter uid sid) l) <= 1)%nat
  /\ forall d, In d l -> purchaseToken d = tok \/ orderId d = None ->
               keyOf d = (uid, sid).

(** The gates of sendNotificationToUser, in the order the code tries them. *)
Inductive Gate := NoPreferences | SwitchOff | InQuietHours | NoActiveTokens.

Definition activeTokensOf (userId : string) (w : World) : list IDeviceToken :=
  filter (fun d => (dt_userId d =? userId)%string && isActive d) (deviceTokens w).

Definition preferencesOf (userId : string) (w : World)
  : option INotificationPreferences :=
  option_map snd
    (findOne (fun p => (np_userId p =? userId)%string) (preferences w)).

(** The gate that stops a notification, if any. *)
Definition suppressedBy (E : Env) (now : Z) (userId : string)
  (type : NotificationType) (w : World) : option Gate :=
  match preferencesOf userId w with
  | None => Some NoPreferences
  | Some p =>
      if negb (switchOf p type) then Some SwitchOff
      else if enabled (quietHours p) && isWithinQuietHours E now (quietHours p)
      then Some InQuietHours
      else match activeTokensOf userId w with
           | [] => Some NoActiveTokens
           | _ :: _ => None
           end
  end.

(** The console line a gate leaves, if it leaves one. *)
Definition gateLog (userId : string) (type : NotificationType) (g : Gate)
  : list Event :=
  match g with
  | NoPreferences =>
      [EvLog ("No notification preferences found for user " ++ userId)]
  | SwitchOff =>
      [EvLog ("User " ++ userId ++ " has disabled "
                ++ typeName type ++ " notifications")]
  | InQuietHours => [EvLog ("User " ++ userId ++ " is in quiet hours")]
  | NoActiveTokens => []
  end.

(** The quiet-hours window in the words of the specification: start and
    end are built on the calendar day of the local time, end is advanced
    one day when it is before start, and the local time is suppressed when
    it is in [start, end], both bounds included. *)
Definition quietWindow (userTime startHour startMinute endHour endMinute : Z)
  : bool :=
  let midnight := userTime / msPerDay * msPerDay in
  let startTime := midnight + startHour * msPerHour + startMinute * msPerMinute in
  let endTime := midnight + endHour * msPerHour + endMinute * msPerMinute in
  let endTime := if endTime <? startTime then endTime + msPerDay else endTime in
  (startTime <=? userTime) && (userTime <=? endTime).

(** ** Sample data *)

Module Sample.

(** A document as verify creates it. *)
Definition sub (uid sid tok : string) (st : Status) : ISubscription :=
  mkSubscription uid sid sid tok basic st (Some 1000) (Some 900000) true
    None None None None None None pt_subscription None None.

(** A document with every field that the schema requires. *)
Definition full (uid sid tok order : string) (st : Status) : ISubscription :=
  mkSubscription uid sid sid tok basic st (Some 1000) (Some 900000) true
    (Some 1) (Some 499) (Some "USD") (Some "US") None (Some order)
    pt_subscription None None.

Definition world (l : list ISubscription) : World := mkWorld l [] [] [].

Definition event (t : string) : WebhookData :=
  mkWebhookData t "gold" "tok-1" "com.kanvas".

(** Decoder that reads the notification type off the envelope itself. *)
Definition decode (s : string) : option WebhookData :=
  if (s =? "garbage")%string then None else Some (event s).

Definition env (reply : ApiReply) : Env :=
  mkEnv (fun _ _ _ => reply) (fun _ _ _ => true) decode
        (fun z _ => if (z =? "UTC")%string then Some 0 else None)
        (fun m => Some (mkBatch (map (fun _ => true) (tokens m)))).

(** The same collaborators with a push client that is down. *)
Definition offline : Env :=
  mkEnv (fun _ _ _ => ApiRejects) (fun _ _ _ => true) decode
        (fun z _ => if (z =? "UTC")%string then Some 0 else None)
        (fun _ => None).

Definition paid (expiry : Z) : ApiReply :=
  ApiResolves (Some (mkPlay (Some 1) (Some expiry))).

Definition request : VerifyRequest :=
  mkVerifyRequest (Some "alice") (mkVerifyBody "com.kanvas" "gold" "tok-1").

Definition prefs (uid : string) (marketing : bool) (q : QuietHours)
  : INotificationPreferences :=
  mkPreferences uid true true true true marketing q.

Definition night : QuietHours := mkQuietHours true "22:00" "08:00" "UTC".

Definition noQuiet : QuietHours := mkQuietHours false "22:00" "08:00" "UTC".

Definition phone (uid tok : string) (on : bool) : IDeviceToken :=
  mkDeviceToken uid tok android "device" on (Some 0).

Definition notifyWorld (ps : list INotificationPreferences)
  (ts : list IDeviceToken) : World := mkWorld [] ps ts [].

End Sample.

(** * The rest of the controllers, middlewares and utilities *)

Definition getPreferences : M (list INotificationPreferences) :=
  fun w => (inr (preferences w), w).

Definition putPreferences (l : list INotificationPreferences) : M unit :=
  fun w => (inr tt, mkWorld (subscriptions w) l (deviceTokens w) (trace w)).

Definition getDeviceTokens : M (list IDeviceToken) :=
  fun w => (inr (deviceTokens w), w).

Definition putDeviceTokens (l : list IDeviceToken) : M unit :=
  fun w => (inr tt, mkWorld (subscriptions w) (preferences w) l (trace w)).

(** a > b on Dates. *)
Definition date_gt (a b : Date) : bool :=
  match a, b with
  | Some x, Some y => y <? x
  | _, _ => false
  end.

(** next() and next(error) of an Express middleware. *)
Inductive Passed (A : Type) :=
  | Next (attached : A)
  | NextError (error : Exn).

Arguments Next {A} attached.
Arguments NextError {A} error.

(** The data of getSubscriptionStatus; [None] as tier is 'free'. *)
Record SubscriptionStatus := mkStatus {
  isSubscribed : bool;
  ss_tier : option Tier;
  ss_expiryDate : option Date
}.

Section Entitlement.

Variable now : Z.

(** { userId, status: 'active', expiryDate: { $gt: new Date() } } *)
Definition entitled (uid : string) (d : ISubscription) : bool :=
  (userId d =? uid)%string && Status_eqb (status d) active
  && date_gt (expiryDate d) (Some now).

(** getSubscriptionStatus of the subscription controller; the result is
    the data of the 200 answer. *)
Definition getSubscriptionStatus (user : option string) : M SubscriptionStatus :=
  tryCatch
    (match user with
     | None => throw (CustomError "User not authenticated" 401)
     | Some userId =>
         found <- Subscription_findOne (entitled userId) ;;
         match found with
         | Some (_, subscription) =>
             ret (mkStatus true (Some (tier subscription))
                    (Some (expiryDate subscription)))
         | None => ret (mkStatus false None None)
         end
     end)
    (rethrowCustom "Error fetching subscription status").

(** checkSubscription(requiredTier) of the subscription middleware; what
    is attached is req.subscription. *)
Definition checkSubscription (requiredTier : Tier) (user : option string)
  : M (Passed ISubscription) :=
  tryCatch
    (match user with
     | None => throw (CustomError "User not authenticated" 401)
     | Some userId =>
         found <- Subscription_findOne (entitled userId) ;;
         match found with
         | None => throw (CustomError "Subscription required" 403)
         | Some (_, subscription) =>
             if Tier_eqb requiredTier premium
                && negb (Tier_eqb (tier subscription) premium)
             then throw (CustomError "Premium subscription required" 403)
             else ret (Next subscription)
         end
     end)
    (fun error => ret (NextError error)).

(** hasActiveSubscription of the same file; what is attached is
    req.hasActiveSubscription. *)
Definition hasActiveSubscription (user : option string) : M (Passed bool) :=
  tryCatch
    (match user with
     | None => throw (CustomError "User not authenticated" 401)
     | Some userId =>
         found <- Subscription_findOne (entitled userId) ;;
         ret (Next match found with Some _ => true | None => false end)
     end)
    (fun error => ret (NextError error)).

End Entitlement.

(** ** Device token controller *)

Module DeviceTokens.


Section Controller.

Variable E : Env.
Variable now : Z.


Definition byTokenAndUser (tok uid : string) (d : IDeviceToken) : bool :=
  (token d =? tok)%string && (dt_userId d =? uid)%string.


Definition deactivate (d : IDeviceToken) : IDeviceToken :=
  mkDeviceToken (dt_userId d) (token d) (deviceType d) (deviceId d) false
    (lastUsed d).

Definition unregisterDeviceToken (user : option string) (tok : string)
  : M string :=
  tryCatch
    (match user with
     | None => throw (CustomError "User not authenticated" 401)
     | Some userId =>
         l <- getDeviceTokens ;;
         match findOne (byTokenAndUser tok userId) l with
         | None => throw (CustomError "Device token not found" 404)
         | Some (i, deviceToken) =>
             putDeviceTokens (save i (deactivate deviceToken) l) ;;;
             ret "Device token unregistered successfully"
         end
     end)
    (rethrowCustom "Error unregistering device token").

(** The helper of the controller file: no preferences, no quiet hours,
    no options. *)
Definition sendNotificationToUser (userId title body : string)
  (data : option (list (string * string))) : M (option BatchResponse) :=
  tryCatch
    (deviceTokens <- DeviceToken_find userId ;;
     if (length deviceTokens =? 0)%nat then ret None
     else
       let tokens := map token deviceTokens in
       response <- sendMulticastNotification E tokens title body data None ;;
       ret (Some response))
    (fun error =>
       emit (EvLog "Error sending notification to user:") ;;;
       ret None).

End Controller.

End DeviceTokens.

(** ** Notification preferences controller *)

Module Preferences.

(** The body of updateNotificationPreferences as
    notificationPreferencesSchema admits it: each switch is optional. *)
Record Updates := mkUpdates {
  u_newWallpapers : option bool;
  u_trendingWallpapers : option bool;
  u_subscriptionUpdates : option bool;
  u_systemUpdates : option bool;
  u_marketingUpdates : option bool
}.

(** The schema defaults of a new document. *)
Definition defaults (uid : string) : INotificationPreferences :=
  mkPreferences uid true true true true false
    (mkQuietHours false "22:00" "08:00" "UTC").

Definition byUser (uid : string) (p : INotificationPreferences) : bool :=
  (np_userId p =? uid)%string.

Definition getNotificationPreferences (user : option string)
  : M INotificationPreferences :=
  tryCatch
    (match user with
     | None => throw (CustomError "User not authenticated" 401)
     | Some userId =>
         l <- getPreferences ;;
         match findOne (byUser userId) l with
         | Some (_, preferences) => ret preferences
         | None =>
             let preferences := defaults userId in
             putPreferences (l ++ [preferences]) ;;;
             ret preferences
         end
     end)
    (rethrowCustom "Error fetching notification preferences").

Definition orKeep (update : option bool) (old : bool) : bool :=
  match update with
  | Some b => b
  | None => old
  end.

(** { $set: updates } *)
Definition setSwitches (updates : Updates) (p : INotificationPreferences)
  : INotificationPreferences :=
  mkPreferences (np_userId p)
    (orKeep (u_newWallpapers updates) (newWallpapers p))
    (orKeep (u_trendingWallpapers updates) (trendingWallpapers p))
    (orKeep (u_subscriptionUpdates updates) (subscriptionUpdates p))
    (orKeep (u_systemUpdates updates) (systemUpdates p))
    (orKeep (u_marketingUpdates updates) (marketingUpdates p))
    (quietHours p).

(** { $set: { 'quietHours.enabled': enabled, ... } } *)
Definition setQuietHours (q : QuietHours) (p : INotificationPreferences)
  : INotificationPreferences :=
  mkPreferences (np_userId p) (newWallpapers p) (trendingWallpapers p)
    (subscriptionUpdates p) (systemUpdates p) (marketingUpdates p) q.

(** NotificationPreferences.findOneAndUpdate({ userId }, { $set },
    { new: true, upsert: true }): the inserted document has the filter,
    the update and the schema defaults. *)
Definition findOneAndUpdate_upsert (uid : string)
  (update : INotificationPreferences -> INotificationPreferences)
  : M INotificationPreferences :=
  l <- getPreferences ;;
  match findOne (byUser uid) l with
  | Some (i, p) =>
      putPreferences (save i (update p) l) ;;; ret (update p)
  | None =>
      putPreferences (l ++ [update (defaults uid)]) ;;;
      ret (update (defaults uid))
  end.

Definition updateNotificationPreferences (user : option string)
  (updates : Updates) : M INotificationPreferences :=
  tryCatch
    (match user with
     | None => throw (CustomError "User not authenticated" 401)
     | Some userId => findOneAndUpdate_upsert userId (setSwitches updates)
     end)
    (rethrowCustom "Error updating notification preferences").

(** The body is what quietHoursSchema admits: all four fields. *)
Definition updateQuietHours (user : option string) (body : QuietHours)
  : M QuietHours :=
  tryCatch
    (match user with
     | None => throw (CustomError "User not authenticated" 401)
     | Some userId =>
         preferences <- findOneAndUpdate_upsert userId (setQuietHours body) ;;
         ret (quietHours preferences)
     end)
    (rethrowCustom "Error updating quiet hours").

End Preferences.

(** ** The time pattern of the validations and formatTimeForTimezone *)

Definition inRange (lo hi c : ascii) : bool :=
  (nat_of_ascii lo <=? nat_of_ascii c)%nat
  && (nat_of_ascii c <=? nat_of_ascii hi)%nat.

(** :[0-5][0-9]$ *)
Definition matchesMinutes (s : string) : bool :=
  match s with
  | String c (String m1 (String m2 EmptyString)) =>
      (c =? ":")%char && inRange "0" "5" m1 && inRange "0" "9" m2
  | _ => false
  end.

(** timeRegex.test(s) for /^([01]?[0-9]|2[0-3]):[0-5][0-9]$/: one digit,
    or 0 or 1 and a digit, or 2 and a digit up to 3, then the minutes. *)
Definition timeRegex (s : string) : bool :=
  match s with
  | EmptyString => false
  | String a r =>
      (inRange "0" "9" a && matchesMinutes r)
      || match r with
         | EmptyString => false
         | String b r' =>
             (inRange "0" "1" a && inRange "0" "9" b && matchesMinutes r')
             || ((a =? "2")%char && inRange "0" "3" b && matchesMinutes r')
         end
  end.

Inductive TimeFormat := HHmm | HHmmss.

(** getHours, getMinutes and getSeconds with UTC as the local zone. *)
Definition getHours (t : Z) : Z := (t / msPerHour) mod 24.
Definition getMinutes (t : Z) : Z := (t / msPerMinute) mod 60.
Definition getSeconds (t : Z) : Z := (t / 1000) mod 60.

(** Number.prototype.toString on an integer. *)
Definition toString (n : Z) : string := NilZero.string_of_int (Z.to_int n).

(** s.padStart(n, c) with a pad of one character. *)
Definition padStart (n : nat) (c : ascii) (s : string) : string :=
  (string_of_list_ascii (repeat c (n - String.length s)) ++ s)%string.

(** A field of an invalid date is NaN. *)
Definition field (get : Z -> Z) (d : Date) : string :=
  match d with
  | Some t => toString (get t)
  | None => "NaN"
  end.

Definition formatTimeForTimezone (E : Env) (date : Date) (timezone : string)
  (format : TimeFormat) : string :=
  let zonedDate :=
    match date with
    | Some t => toZonedTime E t timezone
    | None => None
    end in
  let hours := padStart 2 "0" (field getHours zonedDate) in
  let minutes := padStart 2 "0" (field getMinutes zonedDate) in
  match format with
  | HHmmss =>
      let seconds := padStart 2 "0" (field getSeconds zonedDate) in
      (hours ++ ":" ++ minutes ++ ":" ++ seconds)%string
  | HHmm => (hours ++ ":" ++ minutes)%string
  end.

(** The time of day of a local time, in milliseconds. *)
Definition timeOfDay (t : Z) : Z := t mod msPerDay.

(** The documents of one key in the Subscription collection, and the same
    for the two collections with a unique index. *)
Definition uniqueKeys (w : World) : Prop := NoDup (map keyOf (subscriptions w)).
Definition uniqueTokens (w : World) : Prop := NoDup (map token (deviceTokens w)).
Definition uniqueUsers (w : World) : Prop :=
  NoDup (map np_userId (preferences w)).

(** A push in a trace. *)
Definition pushes (evs : list Event) : list MulticastMessage :=
  flat_map (fun e => match e with EvPush m => [m] | _ => [] end) evs.

(** The provider calls in a trace. *)
Definition providerCalls (evs : list Event) : list Event :=
  filter (fun e => match e with
                   | EvVerify _ _ _ | EvAcknowledge _ _ _ => true
                   | _ => false
                   end) evs.

(** The fields of a Subscription document that no webhook handler
    assigns. *)
Definition unassignedByWebhook (d : ISubscription) :=
  (userId d, subscriptionId d, productId d, purchaseToken d, tier d,
   startDate d,
   (paymentState d, priceAmount d, priceCurrency d, countryCode d),
   (developerPayload d, orderId d, purchaseType d, gracePeriodEndDate d,
    trialEndDate d)).

(** What a handler that verifies again does with its update of the
    matched document. *)
Definition reverifying (E : Env) (now : Z)
  (update : SubscriptionVerificationResult -> ISubscription -> ISubscription)
  (d : WebhookData) : M unit :=
  fun w =>
    match findOne (bySubscriptionId (wd_subscriptionId d)) (subscriptions w) with
    | None => (inr tt, w)
    | Some (i, s) =>
        match verifySubscription E now (wd_packageName d) (wd_subscriptionId d)
                (wd_purchaseToken d) w with
        | (inl e, w') => (inl e, w')
        | (inr r, w') =>
            if isValid r
            then Subscription_save i (update r s) w'
            else (inr tt, w')
        end
    end.

(** The field of an update for a category. *)
Definition updateFor (u : Preferences.Updates) (type : NotificationType)
  : option bool :=
  match type with
  | NewWallpapers => Preferences.u_newWallpapers u
  | TrendingWallpapers => Preferences.u_trendingWallpapers u
  | SubscriptionUpdates => Preferences.u_subscriptionUpdates u
  | SystemUpdates => Preferences.u_systemUpdates u
  | MarketingUpdates => Preferences.u_marketingUpdates u
  end.

(** The preferences of a user as the controllers see them: the stored
    document, or the schema defaults where there is none. *)
Definition preferencesOrDefaults (uid : string) (w : World)
  : INotificationPreferences :=
  match preferencesOf uid w with
  | Some p => p
  | None => Preferences.defaults uid
  end.

(** * Properties *)

(** ** The collection primitives *)

Section Collection.

Context {A : Type}.
Implicit Types (l : list A) (f : A -> bool).

Lemma findOne_nth f l i d :
  findOne f l = Some (i, d) -> nth_error l i = Some d /\ f d = true.
Proof.
  revert i; induction l as [|x r IH]; intros i H; simpl in H; [discriminate|].
  destruct (f x) eqn:Fx.
  - inversion H; subst; auto.
  - destruct (findOne f r) as [[j y]|] eqn:Fr; [|discriminate].
    inversion H; subst; simpl; apply IH; reflexivity.
Qed.

Lemma findOne_None f l : findOne f l = None <-> filter f l = [].
Proof.
  induction l as [|x r IH]; simpl; [tauto|].
  destruct (f x); [split; discriminate|].
  destruct (findOne f r) as [[j y]|]; split; intro H;
    try discriminate; try reflexivity; apply IH in H; try discriminate; auto.
Qed.


Lemma save_nth_same i d l x :
  nth_error l i = Some x -> nth_error (save i d l) i = Some d.
Proof.
  revert i; induction l as [|y r IH]; intros [|i] H; simpl in *;
    try discriminate; auto.
Qed.

Lemma save_nth_other i j d l :
  j <> i -> nth_error (save i d l) j = nth_error l j.
Proof.
  revert i j; induction l as [|y r IH]; intros [|i] [|j] H; simpl; auto.
  congruence.
Qed.

Lemma save_unchanged i d l : nth_error l i = Some d -> save i d l = l.
Proof.
  revert i; induction l as [|y r IH]; intros [|i] H; simpl in *;
    try discriminate; auto.
  - congruence.
  - f_equal; auto.
Qed.

Lemma map_save {B} (g : A -> B) i d l x :
  nth_error l i = Some x -> g d = g x -> map g (save i d l) = map g l.
Proof.
  revert i; induction l as [|y r IH]; intros [|i] H K; simpl in *;
    try discriminate; auto.
  - inversion H; subst; congruence.
  - f_equal; eauto.
Qed.

(** Replacing the first match by another match keeps it the first match. *)
Lemma findOne_save f l i d d' :
  findOne f l = Some (i, d) -> f d' = true ->
  findOne f (save i d' l) = Some (i, d').
Proof.
  revert i; induction l as [|x r IH]; intros i H K; simpl in H; [discriminate|].
  destruct (f x) eqn:Fx.
  - inversion H; subst; simpl; rewrite K; reflexivity.
  - destruct (findOne f r) as [[j y]|] eqn:Fr; [|discriminate].
    inversion H; subst; simpl; rewrite Fx, (IH j); auto.
Qed.

(** Replacing the first match by a document that does not match removes
    one match. *)
Lemma filter_save_out f l i d d' :
  findOne f l = Some (i, d) -> f d' = false ->
  length (filter f l) = S (length (filter f (save i d' l))).
Proof.
  revert i; induction l as [|x r IH]; intros i H K; simpl in H; [discriminate|].
  destruct (f x) eqn:Fx.
  - inversion H; subst; simpl; rewrite K, Fx; reflexivity.
  - destruct (findOne f r) as [[j y]|] eqn:Fr; [|discriminate].
    inversion H; subst; simpl; rewrite Fx; apply IH; auto.
Qed.

Lemma filter_save_in f l i d d' :
  findOne f l = Some (i, d) -> f d' = true ->
  length (filter f (save i d' l)) = length (filter f l).
Proof.
  revert i; induction l as [|x r IH]; intros i H K; simpl in H; [discriminate|].
  destruct (f x) eqn:Fx.
  - inversion H; subst; simpl; rewrite K, Fx; reflexivity.
  - destruct (findOne f r) as [[j y]|] eqn:Fr; [|discriminate].
    inversion H; subst; simpl; rewrite Fx; apply IH; auto.
Qed.

Lemma findOne_app_None f l d :
  findOne f l = None -> f d = true ->
  findOne f (l ++ [d]) = Some (length l, d).
Proof.
  induction l as [|x r IH]; simpl; intros H K.
  - rewrite K; reflexivity.
  - destruct (f x); [discriminate|].
    destruct (findOne f r) as [[j y]|]; [discriminate|].
    rewrite IH; auto.
Qed.

End Collection.

Lemma findOne_Some_filter {A} (f : A -> bool) l i d :
  findOne f l = Some (i, d) -> (1 <= length (filter f l))%nat.
Proof.
  intros F. destruct (filter f l) eqn:G; simpl; [|lia].
  apply findOne_None in G. congruence.
Qed.

Lemma findOne_In {A} (f : A -> bool) l d :
  In d l -> f d = true -> exists i x, findOne f l = Some (i, x).
Proof.
  intros I F. destruct (findOne f l) as [[i x]|] eqn:G; [eauto|].
  apply findOne_None in G.
  assert (In d (filter f l)) by (apply filter_In; auto).
  rewrite G in H. contradiction.
Qed.

Lemma findOne_None_all {A} (f : A -> bool) l :
  findOne f l = None -> forall d, In d l -> f d = false.
Proof.
  intros G d I. destruct (f d) eqn:F; [|reflexivity].
  destruct (findOne_In f l d I F) as (i & x & H). congruence.
Qed.

Lemma first_match_is_only_match {A} (f : A -> bool) l i d :
  findOne f l = Some (i, d) ->
  (length (filter f l) <= 1)%nat ->
  forall j x, nth_error l j = Some x -> f x = true -> j = i.
Proof.
  revert i; induction l as [|y r IH]; intros i F C j x N X; simpl in F;
    [discriminate|].
  simpl in C. destruct (f y) eqn:Fy.
  - inversion F; subst. destruct j as [|j]; [reflexivity|].
    simpl in N. apply nth_error_In in N.
    assert (In x (filter f r)) by (apply filter_In; auto).
    simpl in C. destruct (filter f r); [contradiction | simpl in C; lia].
  - destruct (findOne f r) as [[k z]|] eqn:Fr; [|discriminate].
    inversion F; subst. destruct j as [|j].
    + simpl in N. inversion N; subst. congruence.
    + f_equal. eapply IH; eauto.
Qed.

Lemma In_save {A} i (d : A) l x :
  In x (save i d l) ->
  x = d \/ exists j, j <> i /\ nth_error l j = Some x.
Proof.
  revert i; induction l as [|y r IH]; intros [|i]; simpl; intros H;
    try contradiction.
  - destruct H as [H|H]; [left; auto|].
    apply In_nth_error in H. destruct H as [j H].
    right. exists (S j). split; [discriminate | exact H].
  - destruct H as [H|H].
    + right. exists 0%nat. split; [discriminate | simpl; congruence].
    + destruct (IH i H) as [E|(j & J & N)]; [left; exact E|].
      right. exists (S j). split; [congruence | exact N].
Qed.

(** ** Reading a clock string *)

Example split_colon_2200 : split_colon "22:00" = ["22"; "00"].
Proof. reflexivity. Qed.

Example Number_08 : Number "08" = Some 8.
Proof. reflexivity. Qed.

Example clock_without_minutes :
  destructure2 (map Number (split_colon "22")) = (Some 22, None).
Proof. reflexivity. Qed.

Example clock_not_a_number :
  destructure2 (map Number (split_colon "ten:30")) = (None, Some 30).
Proof. reflexivity. Qed.

(** An unreadable clock string makes the dates invalid, and every
    comparison with an invalid date is false. *)
Example unreadable_start_is_never_quiet :
  isWithinQuietHours (Sample.env ApiRejects) (23 * msPerHour)
    (mkQuietHours true "ten:30" "08:00" "UTC") = false.
Proof. reflexivity. Qed.

(** ** Running the monad *)

Lemma logged_nil w : logged w [] = w.
Proof. destruct w; unfold logged; simpl; rewrite app_nil_r; reflexivity. Qed.

Ltac run :=
  unfold Subscription_findOne, getSubscriptions,
    putSubscriptions, rethrowCustom, tryCatch, bind, ret, throw, emit;
  simpl.

Lemma newDate_in_range e : Z.abs e <= maxTime -> newDate e = Some e.
Proof.
  intros H. unfold newDate.
  destruct (Z.leb_spec (Z.abs e) maxTime); [reflexivity | lia].
Qed.

(** What verifySubscription does, by the provider's answer. *)
Lemma verifySubscription_run E now pkg sid tok w :
  verifySubscription E now pkg sid tok w =
  match subscriptionsGet E pkg sid tok with
  | ApiRejects =>
      (inl (CustomError "Error verifying subscription" 500),
       logged w [EvVerify pkg sid tok])
  | ApiResolves None =>
      (inl (CustomError "Invalid subscription" 400),
       logged w [EvVerify pkg sid tok])
  | ApiResolves (Some s) =>
      (inr (verificationOf now sid s), logged w [EvVerify pkg sid tok])
  end.
Proof.
  unfold verifySubscription; run.
  destruct (subscriptionsGet E pkg sid tok) as [|[s|]]; reflexivity.
Qed.

(** verifySubscription never touches the stores. *)
Lemma verifySubscription_frame E now pkg sid tok w :
  snd (verifySubscription E now pkg sid tok w) = logged w [EvVerify pkg sid tok].
Proof.
  rewrite verifySubscription_run.
  destruct (subscriptionsGet E pkg sid tok) as [|[s|]]; reflexivity.
Qed.

Lemma verifySubscription_valid E now pkg sid tok w p e :
  subscriptionsGet E pkg sid tok = ApiResolves (Some p) ->
  play_paymentState p = Some 1 ->
  play_expiryTimeMillis p = Some e ->
  now < e ->
  Z.abs e <= maxTime ->
  verifySubscription E now pkg sid tok w
  = (inr (mkVerification true (getSubscriptionTier sid) (Some e)),
     logged w [EvVerify pkg sid tok]).
Proof.
  intros G Pay Exp Lt Rg. rewrite verifySubscription_run, G.
  unfold verificationOf. rewrite Pay, Exp, newDate_in_range by exact Rg.
  replace (now <? e) with true by (symmetry; apply Z.ltb_lt; exact Lt).
  reflexivity.
Qed.

(** ** Saving a document *)

Lemma Subscription_save_run i d w :
  Subscription_save i d w =
  if passesValidation d
  then (inr tt, stored w (save i d (subscriptions w)))
  else (inl (JsError "ValidationError"), w).
Proof. unfold Subscription_save. destruct (passesValidation d); reflexivity. Qed.

(** The fields that the handlers assign are not among those that decide
    the validation, the expiry date apart. *)
Lemma passesValidation_set_status st s :
  passesValidation (set_status st s) = passesValidation s.
Proof. reflexivity. Qed.

Lemma passesValidation_set_autoRenewing b s :
  passesValidation (set_autoRenewing b s) = passesValidation s.
Proof. reflexivity. Qed.

Lemma passesValidation_set_expiryDate e s :
  passesValidation s = true ->
  passesValidation (set_expiryDate (Some e) s) = true.
Proof.
  unfold passesValidation. simpl. rewrite !andb_true_iff. tauto.
Qed.

(** A document that lacks one of the five fields which verify never
    writes fails the validation. *)
Lemma passesValidation_needs_fields s :
  lacksRequiredField s -> passesValidation s = false.
Proof.
  intros H. unfold passesValidation.
  destruct H as [H|[H|[H|[H|H]]]]; rewrite H; cbn [present presentString];
    rewrite ?andb_false_r; reflexivity.
Qed.

(** ** The webhook handlers *)

Ltac handler h :=
  unfold h, Subscription_findOne, getSubscriptions, bind, ret;
  cbv beta.

Lemma handleSubscriptionExpiry_run d w :
  handleSubscriptionExpiry d w =
  match findOne (bySubscriptionId (wd_subscriptionId d)) (subscriptions w) with
  | None => (inr tt, w)
  | Some (i, s) =>
      Subscription_save i (set_autoRenewing false (set_status expired s)) w
  end.
Proof.
  handler handleSubscriptionExpiry.
  destruct (findOne _ _) as [[i s]|]; reflexivity.
Qed.

Lemma handleSubscriptionPause_run d w :
  handleSubscriptionPause d w =
  match findOne (bySubscriptionId (wd_subscriptionId d)) (subscriptions w) with
  | None => (inr tt, w)
  | Some (i, s) => Subscription_save i (set_status paused s) w
  end.
Proof.
  handler handleSubscriptionPause.
  destruct (findOne _ _) as [[i s]|]; reflexivity.
Qed.

Ltac reverify_run h :=
  handler h;
  match goal with
  | |- context [findOne ?f ?l] => destruct (findOne f l) as [[?i ?s]|]
  end; [|reflexivity];
  match goal with
  | |- context [verifySubscription ?E ?n ?a ?b ?c ?w] =>
      destruct (verifySubscription E n a b c w) as [[?e|?r] ?w']
  end; [reflexivity|];
  match goal with |- context [isValid ?r] => destruct (isValid r) end;
  reflexivity.

Lemma handleSubscriptionRenewal_run E now d w :
  handleSubscriptionRenewal E now d w
  = reverifying E now
      (fun r s => set_autoRenewing true
                    (set_expiryDate (vr_expiryDate r) (set_status active s)))
      d w.
Proof. unfold reverifying. reverify_run handleSubscriptionRenewal. Qed.

Lemma handleSubscriptionRecovery_run E now d w :
  handleSubscriptionRecovery E now d w
  = reverifying E now
      (fun r s => set_expiryDate (vr_expiryDate r) (set_status active s)) d w.
Proof. unfold reverifying. reverify_run handleSubscriptionRecovery. Qed.

Lemma handleSubscriptionRestart_run E now d w :
  handleSubscriptionRestart E now d w
  = reverifying E now
      (fun r s => set_expiryDate (vr_expiryDate r) (set_status active s)) d w.
Proof. unfold reverifying. reverify_run handleSubscriptionRestart. Qed.

Lemma handleSubscriptionProration_run E now d w :
  handleSubscriptionProration E now d w
  = reverifying E now (fun r s => set_expiryDate (vr_expiryDate r) s) d w.
Proof. unfold reverifying. reverify_run handleSubscriptionProration. Qed.

Lemma handleSubscriptionDeferral_run E now d w :
  handleSubscriptionDeferral E now d w
  = reverifying E now (fun r s => set_expiryDate (vr_expiryDate r) s) d w.
Proof. unfold reverifying. reverify_run handleSubscriptionDeferral. Qed.

(** A confirmed re-verification saves the update of the first document
    with the subscriptionId, after the trace entry of the provider call. *)
Lemma reverifying_confirmed E now update d w i s p e :
  findOne (bySubscriptionId (wd_subscriptionId d)) (subscriptions w)
    = Some (i, s) ->
  subscriptionsGet E (wd_packageName d) (wd_subscriptionId d)
    (wd_purchaseToken d) = ApiResolves (Some p) ->
  play_paymentState p = Some 1 ->
  play_expiryTimeMillis p = Some e ->
  now < e ->
  Z.abs e <= maxTime ->
  reverifying E now update d w
  = Subscription_save i
      (update (mkVerification true
                 (getSubscriptionTier (wd_subscriptionId d)) (Some e)) s)
      (logged w [EvVerify (wd_packageName d) (wd_subscriptionId d)
                   (wd_purchaseToken d)]).
Proof.
  intros F G Pay Exp Lt Rg. unfold reverifying. rewrite F.
  rewrite verifySubscription_valid with (p := p) (e := e) by assumption.
  reflexivity.
Qed.

Lemma reverifying_unconfirmed E now update d w i s r w' :
  findOne (bySubscriptionId (wd_subscriptionId d)) (subscriptions w)
    = Some (i, s) ->
  verifySubscription E now (wd_packageName d) (wd_subscriptionId d)
    (wd_purchaseToken d) w = (inr r, w') ->
  isValid r = false ->
  reverifying E now update d w = (inr tt, w').
Proof.
  intros F V Inv. unfold reverifying. rewrite F, V, Inv. reflexivity.
Qed.

(** The switch, for the types that verify again. *)
Lemma dispatchNotification_reverifies E now d w :
  reverifies (notificationType d) = true ->
  exists update,
    dispatchNotification E now d w = reverifying E now update d w
    /\ (forall r s, unassignedByWebhook (update r s) = unassignedByWebhook s)
    /\ (forall r s, update r s = reverifyUpdate (notificationType d) r s).
Proof.
  unfold dispatchNotification, reverifies, reverifyUpdate. intros R.
  destruct (notificationType d =? "SUBSCRIPTION_PURCHASED")%string eqn:T1;
    [cbn [orb]; eexists; split;
     [apply handleSubscriptionRenewal_run | split; reflexivity]|].
  destruct (notificationType d =? "SUBSCRIPTION_RENEWED")%string eqn:T2;
    [cbn [orb]; eexists; split;
     [apply handleSubscriptionRenewal_run | split; reflexivity]|].
  cbn [orb] in *.
  destruct (notificationType d =? "SUBSCRIPTION_EXPIRED")%string eqn:T3;
    [apply String.eqb_eq in T3; rewrite T3 in R; discriminate R|].
  destruct (notificationType d =? "SUBSCRIPTION_CANCELED")%string eqn:T4;
    [apply String.eqb_eq in T4; rewrite T4 in R; discriminate R|].
  cbn [orb].
  destruct (notificationType d =? "SUBSCRIPTION_RECOVERED")%string eqn:T5;
    [eexists; split;
     [apply handleSubscriptionRecovery_run | split; reflexivity]|].
  destruct (notificationType d =? "SUBSCRIPTION_PAUSED")%string eqn:T6;
    [apply String.eqb_eq in T6; rewrite T6 in R; discriminate R|].
  destruct (notificationType d =? "SUBSCRIPTION_RESTARTED")%string eqn:T7;
    [eexists; split;
     [apply handleSubscriptionRestart_run | split; reflexivity]|].
  cbn [orb].
  destruct (notificationType d =? "SUBSCRIPTION_PRORATED")%string eqn:T8;
    [eexists; split;
     [apply handleSubscriptionProration_run | split; reflexivity]|].
  destruct (notificationType d =? "SUBSCRIPTION_DEFERRED")%string eqn:T9;
    [eexists; split;
     [apply handleSubscriptionDeferral_run | split; reflexivity]|].
  discriminate R.
Qed.

(** The switch, for the other types. *)
Lemma dispatchNotification_others E now d w :
  reverifies (notificationType d) = false ->
  dispatchNotification E now d w
  = if (notificationType d =? "SUBSCRIPTION_EXPIRED")%string
       || (notificationType d =? "SUBSCRIPTION_CANCELED")%string
    then handleSubscriptionExpiry d w
    else if (notificationType d =? "SUBSCRIPTION_PAUSED")%string
    then handleSubscriptionPause d w
    else (inr tt,
          logged w [EvLog ("Unhandled notification type: "
                             ++ notificationType d)]).
Proof.
  unfold dispatchNotification, reverifies. intros R.
  destruct (notificationType d =? "SUBSCRIPTION_PURCHASED")%string;
    [discriminate R|].
  destruct (notificationType d =? "SUBSCRIPTION_RENEWED")%string;
    [discriminate R|].
  cbn [orb] in *.
  destruct (notificationType d =? "SUBSCRIPTION_EXPIRED")%string;
    [reflexivity|].
  destruct (notificationType d =? "SUBSCRIPTION_CANCELED")%string;
    [reflexivity|].
  cbn [orb].
  destruct (notificationType d =? "SUBSCRIPTION_RECOVERED")%string;
    [discriminate R|].
  destruct (notificationType d =? "SUBSCRIPTION_PAUSED")%string;
    [reflexivity|].
  destruct (notificationType d =? "SUBSCRIPTION_RESTARTED")%string;
    [discriminate R|].
  destruct (notificationType d =? "SUBSCRIPTION_PRORATED")%string;
    [discriminate R|].
  destruct (notificationType d =? "SUBSCRIPTION_DEFERRED")%string;
    [discriminate R|].
  reflexivity.
Qed.

(** With no matching document the switch does nothing but, for a type it
    does not know, write one console line. *)
Lemma dispatchNotification_unknown E now d w :
  findOne (bySubscriptionId (wd_subscriptionId d)) (subscriptions w) = None ->
  exists lines,
    dispatchNotification E now d w = (inr tt, logged w (map EvLog lines)).
Proof.
  intros F. destruct (reverifies (notificationType d)) eqn:R.
  - destruct (dispatchNotification_reverifies E now d w R) as (update & D & _).
    exists []. rewrite logged_nil, D. unfold reverifying. rewrite F.
    reflexivity.
  - rewrite dispatchNotification_others by exact R.
    rewrite handleSubscriptionExpiry_run, handleSubscriptionPause_run, F.
    destruct (_ || _); [exists []; rewrite logged_nil; reflexivity|].
    destruct (_ =? _)%string; [exists []; rewrite logged_nil; reflexivity|].
    exists [("Unhandled notification type: " ++ notificationType d)%string].
    reflexivity.
Qed.

(** What the switch can do to the collections. *)
Lemma dispatchNotification_writes E now d w :
  let w' := snd (dispatchNotification E now d w) in
  preferences w' = preferences w /\ deviceTokens w' = deviceTokens w
  /\ (subscriptions w' = subscriptions w
      \/ exists i s s',
           findOne (bySubscriptionId (wd_subscriptionId d)) (subscriptions w)
             = Some (i, s)
           /\ unassignedByWebhook s' = unassignedByWebhook s
           /\ subscriptions w' = save i s' (subscriptions w)).
Proof.
  cbv zeta. destruct (reverifies (notificationType d)) eqn:R.
  - destruct (dispatchNotification_reverifies E now d w R)
      as (update & D & U & _).
    rewrite D. unfold reverifying.
    destruct (findOne _ _) as [[i s]|] eqn:F; [|auto].
    pose proof (verifySubscription_frame E now (wd_packageName d)
                  (wd_subscriptionId d) (wd_purchaseToken d) w) as Fr.
    destruct (verifySubscription E now _ _ _ w) as [[e|r] w1];
      cbn [snd] in *; subst w1; [auto|].
    destruct (isValid r); cbn [snd]; [|auto].
    rewrite Subscription_save_run.
    destruct (passesValidation (update r s)); cbn [snd]; [|auto].
    repeat split. right. exists i, s, (update r s). auto.
  - rewrite dispatchNotification_others by exact R.
    rewrite handleSubscriptionExpiry_run, handleSubscriptionPause_run.
    destruct (findOne _ _) as [[i s]|] eqn:F;
      [|destruct (_ || _); [auto|]; destruct (_ =? _)%string; auto].
    rewrite !Subscription_save_run.
    destruct (_ || _).
    + destruct (passesValidation _); cbn [snd]; [|auto].
      repeat split. right.
      exists i, s, (set_autoRenewing false (set_status expired s)).
      repeat split.
    + destruct (_ =? _)%string; [|auto].
      destruct (passesValidation _); cbn [snd]; [|auto].
      repeat split. right. exists i, s, (set_status paused s).
      repeat split.
Qed.

(** No handler adds, removes or re-keys a document. *)
Lemma dispatchNotification_keys E now d w :
  map keyOf (subscriptions (snd (dispatchNotification E now d w))) =
  map keyOf (subscriptions w).
Proof.
  destruct (dispatchNotification_writes E now d w)
    as (_ & _ & [S|(i & s & s' & F & U & S)]); rewrite S; [reflexivity|].
  apply findOne_nth in F. destruct F as [F _].
  apply map_save with (x := s); [exact F|].
  unfold unassignedByWebhook in U. unfold keyOf. congruence.
Qed.

(** The try/catch of the webhook controller around the switch. *)
Lemma handleSubscriptionWebhook_run E now encoded d w :
  parseEnvelope E encoded = Some d ->
  handleSubscriptionWebhook E now (Some encoded) w =
  match dispatchNotification E now d w with
  | (inr _, w') => (inr (mkResponse 200 (Text "OK")), w')
  | (inl _, w') =>
      (inr (mkResponse 500 (Text "Error processing webhook")),
       logged w' [EvLog "Webhook error:"])
  end.
Proof.
  intros P. unfold handleSubscriptionWebhook, tryCatch, bind, ret, throw, emit.
  rewrite P. destruct (dispatchNotification E now d w) as [[e|[]] w']; reflexivity.
Qed.

(** C1, as the code has it: the webhook controller never throws; it
    answers 200 "OK" when the envelope decodes and the handler of the
    notification type runs to its end, and 500 in every other case: when
    the envelope does not decode, when the billing provider rejects the
    call or answers without a subscription while a matched subscription
    is verified again, and when the store refuses the document that the
    handler saves. *)
Theorem webhook_status_by_outcome E now message_data w :
  fst (handleSubscriptionWebhook E now message_data w) =
  inr (if webhookCompletes E now message_data w
       then mkResponse 200 (Text "OK")
       else mkResponse 500 (Text "Error processing webhook")).
Proof.
  destruct message_data as [encoded|]; [|reflexivity].
  destruct (parseEnvelope E encoded) as [d|] eqn:P.
  - rewrite handleSubscriptionWebhook_run with (d := d) by exact P.
    unfold webhookCompletes; rewrite P; cbv zeta.
    destruct (findOne (bySubscriptionId (wd_subscriptionId d))
                (subscriptions w)) as [[i s]|] eqn:F.
    + destruct (reverifies (notificationType d)) eqn:R.
      * destruct (dispatchNotification_reverifies E now d w R)
          as (update & D & _ & U).
        rewrite D. unfold reverifying. rewrite F, verifySubscription_run.
        destruct (subscriptionsGet E (wd_packageName d) (wd_subscriptionId d)
                    (wd_purchaseToken d)) as [|[p|]]; try reflexivity.
        destruct (isValid (verificationOf now (wd_subscriptionId d) p));
          [|reflexivity].
        rewrite Subscription_save_run, U.
        destruct (passesValidation _); reflexivity.
      * rewrite dispatchNotification_others by exact R.
        rewrite handleSubscriptionExpiry_run, handleSubscriptionPause_run, F.
        rewrite !Subscription_save_run.
        destruct (_ || _);
          [destruct (passesValidation _); reflexivity|].
        destruct (_ =? _)%string; [|reflexivity].
        destruct (passesValidation _); reflexivity.
    + destruct (dispatchNotification_unknown E now d w F) as [lines D].
      rewrite D. reflexivity.
  - unfold handleSubscriptionWebhook, webhookCompletes, tryCatch, bind, ret,
      throw, emit.
    rewrite P; reflexivity.
Qed.

(** C1, refuted as stated: the envelope decodes to a RENEWED event for a
    stored subscription, the provider call is rejected, and the sender gets
    500. *)
Lemma webhook_500_after_decoding :
  parseEnvelope (Sample.env ApiRejects) "SUBSCRIPTION_RENEWED"
    = Some (Sample.event "SUBSCRIPTION_RENEWED") /\
  fst (handleSubscriptionWebhook (Sample.env ApiRejects) 0
         (Some "SUBSCRIPTION_RENEWED")
         (Sample.world [Sample.sub "alice" "gold" "tok-1" active]))
  = inr (mkResponse 500 (Text "Error processing webhook")).
Proof. split; reflexivity. Qed.

(** Whatever is delivered, the webhook controller leaves the keys of the
    Subscription collection as they were. *)
Lemma handleSubscriptionWebhook_keys E now message_data w :
  map keyOf (subscriptions (snd (handleSubscriptionWebhook E now message_data w)))
  = map keyOf (subscriptions w).
Proof.
  destruct message_data as [encoded|]; [|reflexivity].
  destruct (parseEnvelope E encoded) as [d|] eqn:P.
  - rewrite handleSubscriptionWebhook_run with (d := d) by exact P.
    pose proof (dispatchNotification_keys E now d w) as K.
    destruct (dispatchNotification E now d w) as [[e|[]] w']; exact K.
  - unfold handleSubscriptionWebhook, tryCatch, bind, ret, throw, emit.
    rewrite P; reflexivity.
Qed.

(** C2, as the code has it: an EXPIRED and a CANCELED event both go to
    handleSubscriptionExpiry, which sets the first subscription with that
    subscriptionId to status expired and autoRenewing false; when that
    document passes the validators of the schema the save goes through,
    nothing else is touched, no provider is called (the trace is
    unchanged) and the controller answers 200. *)
Theorem expired_and_canceled_events_store_expired E now encoded d w i s :
  parseEnvelope E encoded = Some d ->
  notificationType d = "SUBSCRIPTION_EXPIRED"
  \/ notificationType d = "SUBSCRIPTION_CANCELED" ->
  findOne (bySubscriptionId (wd_subscriptionId d)) (subscriptions w)
    = Some (i, s) ->
  passesValidation s = true ->
  let s' := set_autoRenewing false (set_status expired s) in
  handleSubscriptionWebhook E now (Some encoded) w
    = (inr (mkResponse 200 (Text "OK")),
       stored w (save i s' (subscriptions w)))
  /\ nth_error (save i s' (subscriptions w)) i = Some s'
  /\ status s' = expired
  /\ autoRenewing s' = false
  /\ unassignedByWebhook s' = unassignedByWebhook s
  /\ expiryDate s' = expiryDate s
  /\ trace (snd (handleSubscriptionWebhook E now (Some encoded) w)) = trace w.
Proof.
  intros P T F V s'.
  assert (R : handleSubscriptionWebhook E now (Some encoded) w
              = (inr (mkResponse 200 (Text "OK")),
                 stored w (save i s' (subscriptions w)))).
  { rewrite handleSubscriptionWebhook_run with (d := d) by exact P.
    unfold dispatchNotification.
    destruct T as [T|T]; rewrite T; cbn [String.eqb Ascii.eqb Bool.eqb orb];
      rewrite handleSubscriptionExpiry_run, F, Subscription_save_run;
      rewrite passesValidation_set_autoRenewing, passesValidation_set_status, V;
      reflexivity. }
  rewrite R. repeat split.
  apply findOne_nth in F. destruct F as [F _].
  apply save_nth_same with (x := s); exact F.
Qed.

Lemma expired_and_canceled_events_store_expired_witness :
  let w := Sample.world [Sample.full "bob" "silver" "tok-0" "GPA.1" active;
                         Sample.full "alice" "gold" "tok-1" "GPA.2" active] in
  map status
    (subscriptions
       (snd (handleSubscriptionWebhook (Sample.env ApiRejects) 0
               (Some "SUBSCRIPTION_EXPIRED") w)))
  = [active; expired].
Proof.
  intros w.
  destruct (@expired_and_canceled_events_store_expired
              (Sample.env ApiRejects) 0 "SUBSCRIPTION_EXPIRED"
              (Sample.event "SUBSCRIPTION_EXPIRED") w 1%nat
              (Sample.full "alice" "gold" "tok-1" "GPA.2" active)
              eq_refl (or_introl eq_refl) eq_refl eq_refl) as [R _].
  rewrite R. reflexivity.
Defined.

(** C2, refuted as stated: after a CANCELED event for a subscription that
    carries every required field, the stored status is expired, not
    cancelled. *)
Lemma canceled_event_does_not_store_cancelled :
  map status
    (subscriptions
       (snd (handleSubscriptionWebhook (Sample.env ApiRejects) 0
               (Some "SUBSCRIPTION_CANCELED")
               (Sample.world
                  [Sample.full "alice" "gold" "tok-1" "GPA.1" active]))))
  = [expired]
  /\ expired <> cancelled.
Proof. split; [reflexivity | discriminate]. Qed.

(** C5: a webhook event whose subscriptionId matches no document is
    answered 200 and leaves the three collections untouched; the trace
    gains console lines at most, so no provider is called.  And no webhook
    delivery at all changes the list of (userId, subscriptionId) keys:
    documents come from verify only. *)
Theorem webhook_unknown_subscription_is_noop E now encoded d w :
  parseEnvelope E encoded = Some d ->
  findOne (bySubscriptionId (wd_subscriptionId d)) (subscriptions w) = None ->
  (exists lines,
     handleSubscriptionWebhook E now (Some encoded) w
     = (inr (mkResponse 200 (Text "OK")), logged w (map EvLog lines)))
  /\ subscriptions (snd (handleSubscriptionWebhook E now (Some encoded) w))
     = subscriptions w
  /\ (forall message_data w0,
        map keyOf
          (subscriptions (snd (handleSubscriptionWebhook E now message_data w0)))
        = map keyOf (subscriptions w0)).
Proof.
  intros P F.
  destruct (dispatchNotification_unknown E now d w F) as [lines D].
  assert (R : handleSubscriptionWebhook E now (Some encoded) w
              = (inr (mkResponse 200 (Text "OK")), logged w (map EvLog lines))).
  { rewrite handleSubscriptionWebhook_run with (d := d) by exact P.
    rewrite D; reflexivity. }
  split; [exists lines; exact R|].
  split; [rewrite R; reflexivity|].
  intros; apply handleSubscriptionWebhook_keys.
Qed.

Lemma webhook_unknown_subscription_is_noop_witness :
  let w := Sample.world [Sample.sub "bob" "silver" "tok-0" active] in
  subscriptions
    (snd (handleSubscriptionWebhook (Sample.env (Sample.paid 5000)) 0
            (Some "SUBSCRIPTION_RENEWED") w))
  = subscriptions w.
Proof.
  intros w.
  exact (proj1 (proj2 (@webhook_unknown_subscription_is_noop
                         (Sample.env (Sample.paid 5000)) 0
                         "SUBSCRIPTION_RENEWED"
                         (Sample.event "SUBSCRIPTION_RENEWED") w
                         eq_refl eq_refl))).
Defined.

(** What a PAUSED event does, by the validation of the matched document. *)
Lemma paused_event_run E now encoded d w i s :
  parseEnvelope E encoded = Some d ->
  notificationType d = "SUBSCRIPTION_PAUSED" ->
  findOne (bySubscriptionId (wd_subscriptionId d)) (subscriptions w)
    = Some (i, s) ->
  handleSubscriptionWebhook E now (Some encoded) w
  = if passesValidation s
    then (inr (mkResponse 200 (Text "OK")),
          stored w (save i (set_status paused s) (subscriptions w)))
    else (inr (mkResponse 500 (Text "Error processing webhook")),
          logged w [EvLog "Webhook error:"]).
Proof.
  intros P T F.
  rewrite handleSubscriptionWebhook_run with (d := d) by exact P.
  unfold dispatchNotification.
  rewrite T; cbn [String.eqb Ascii.eqb Bool.eqb orb].
  rewrite handleSubscriptionPause_run, F, Subscription_save_run.
  rewrite passesValidation_set_status.
  destruct (passesValidation s); reflexivity.
Qed.

(** C9, on the document that verify creates: the subscription of the
    sample request is stored active by a confirmed verify call and lacks
    the fields that the schema requires (orderId, paymentState,
    priceAmount, priceCurrency, countryCode); the PAUSED event for it
    reaches handleSubscriptionPause, whose save is refused by the
    validators, so the controller answers 500 and the stored status is
    still active, where the handler meant to store paused. *)
Theorem paused_event_on_verified_subscription_is_refused :
  let E := Sample.env (Sample.paid 5000) in
  let w1 := snd (verifyAndSaveSubscription E 1000 Sample.request
                   (Sample.world [])) in
  map (fun d => (subscriptionId d, status d, passesValidation d))
    (subscriptions w1) = [("gold", active, false)]
  /\ parseEnvelope E "SUBSCRIPTION_PAUSED"
     = Some (Sample.event "SUBSCRIPTION_PAUSED")
  /\ fst (handleSubscriptionWebhook E 2000 (Some "SUBSCRIPTION_PAUSED") w1)
     = inr (mkResponse 500 (Text "Error processing webhook"))
  /\ map status
       (subscriptions
          (snd (handleSubscriptionWebhook E 2000
                  (Some "SUBSCRIPTION_PAUSED") w1)))
     = [active].
Proof. cbv zeta. repeat split. Qed.

(** ** The verify path *)

Lemma verifyFilter_refl uid sid d :
  userId d = uid -> subscriptionId d = sid -> verifyFilter uid sid d = true.
Proof.
  intros <- <-. unfold verifyFilter. rewrite !String.eqb_refl. reflexivity.
Qed.

Lemma verifyFilter_key uid sid d :
  verifyFilter uid sid d = true <-> keyOf d = (uid, sid).
Proof.
  unfold verifyFilter, keyOf. rewrite andb_true_iff, !String.eqb_eq.
  split; [intros [-> ->]; reflexivity | intros H; inversion H; auto].
Qed.

(** The unique indexes have nothing against the upsert in a store that
    admits it. *)
Lemma upsertError_admitted uid sid tok e l :
  indexesAdmit uid sid tok l -> upsertError uid sid tok (Some e) l = None.
Proof.
  intros [Cnt Own]. unfold upsertError.
  destruct (findOne (verifyFilter uid sid) l) as [[i d]|] eqn:F.
  - destruct (purchaseToken d =? tok)%string eqn:T; [reflexivity|].
    cbn [negb andb].
    destruct (existsb (fun x => (purchaseToken x =? tok)%string) l) eqn:X;
      [|reflexivity].
    exfalso. apply existsb_exists in X. destruct X as (x & I & Tx).
    apply String.eqb_eq in Tx.
    pose proof (Own x I (or_introl Tx)) as K. apply verifyFilter_key in K.
    apply In_nth_error in I. destruct I as [j N].
    pose proof (first_match_is_only_match _ _ F Cnt j N K) as J. subst j.
    apply findOne_nth in F. destruct F as [F _].
    rewrite F in N. inversion N; subst x.
    rewrite Tx, String.eqb_refl in T. discriminate T.
  - destruct (existsb _ l) eqn:X; [|reflexivity].
    exfalso. apply existsb_exists in X. destruct X as (x & I & Tx).
    assert (K : keyOf x = (uid, sid)).
    { apply Own; [exact I|]. apply orb_true_iff in Tx.
      destruct Tx as [Tx|Tx]; [left; apply String.eqb_eq; exact Tx|].
      right. destruct (orderId x); [discriminate Tx | reflexivity]. }
    apply verifyFilter_key in K.
    rewrite (findOne_None_all _ _ F x I) in K. discriminate K.
Qed.

(** Nor against writing again the token that the user's document holds. *)
Lemma upsertError_same_token uid sid tok e l i d :
  findOne (verifyFilter uid sid) l = Some (i, d) ->
  purchaseToken d = tok ->
  upsertError uid sid tok (Some e) l = None.
Proof.
  intros F T. unfold upsertError. rewrite F, T, String.eqb_refl. reflexivity.
Qed.

(** The verify controller for an authenticated caller, by the provider's
    answers and the answer of the store. *)
Lemma verifyAndSaveSubscription_run E now uid pkg sid tok w :
  verifyAndSaveSubscription E now
    (mkVerifyRequest (Some uid) (mkVerifyBody pkg sid tok)) w =
  match verifySubscription E now pkg sid tok w with
  | (inl e, w') => (rethrowCustom "Error processing subscription" e w')
  | (inr r, w') =>
      if isValid r then
        match upsertError uid sid tok (vr_expiryDate r) (subscriptions w') with
        | Some _ => (inl (CustomError "Error processing subscription" 500), w')
        | None =>
            let d :=
              match findOne (verifyFilter uid sid) (subscriptions w') with
              | Some (i, d0) =>
                  verifyUpdate now uid sid tok (vr_tier r) (vr_expiryDate r) d0
              | None =>
                  verifyInsert now uid sid tok (vr_tier r) (vr_expiryDate r)
              end in
            let l :=
              match findOne (verifyFilter uid sid) (subscriptions w') with
              | Some (i, d0) => save i d (subscriptions w')
              | None => (subscriptions w' ++ [d])%list
              end in
            (if subscriptionsAcknowledge E pkg sid tok
             then inr (mkResponse 200 (JsonData d))
             else inl (CustomError "Error acknowledging subscription" 500),
             logged (stored w' l) [EvAcknowledge pkg sid tok])
        end
      else (inl (CustomError "Invalid subscription" 400), w')
  end.
Proof.
  unfold verifyAndSaveSubscription, tryCatch, bind at 1.
  cbn [vq_user vq_body vb_packageName vb_subscriptionId vb_purchaseToken].
  destruct (verifySubscription E now pkg sid tok w) as [[e|r] w']; [reflexivity|].
  destruct (isValid r); [|reflexivity]. cbn [negb].
  unfold Subscription_findOneAndUpdate_upsert, acknowledgeSubscription,
    getSubscriptions, putSubscriptions, rethrowCustom, bind, ret, throw, emit.
  destruct (upsertError uid sid tok (vr_expiryDate r) (subscriptions w'));
    [reflexivity|].
  destruct (findOne (verifyFilter uid sid) (subscriptions w')) as [[i d0]|];
    cbn [subscriptions preferences deviceTokens trace];
    destruct (subscriptionsAcknowledge E pkg sid tok); reflexivity.
Qed.

(** A verify request that the provider confirms and the store accepts. *)
Lemma verifyAndSaveSubscription_accepted E now uid pkg sid tok w p e :
  subscriptionsGet E pkg sid tok = ApiResolves (Some p) ->
  play_paymentState p = Some 1 ->
  play_expiryTimeMillis p = Some e ->
  now < e ->
  Z.abs e <= maxTime ->
  upsertError uid sid tok (Some e) (subscriptions w) = None ->
  verifyAndSaveSubscription E now
    (mkVerifyRequest (Some uid) (mkVerifyBody pkg sid tok)) w
  = let d :=
      match findOne (verifyFilter uid sid) (subscriptions w) with
      | Some (i, d0) =>
          verifyUpdate now uid sid tok (getSubscriptionTier sid) (Some e) d0
      | None => verifyInsert now uid sid tok (getSubscriptionTier sid) (Some e)
      end in
    let l :=
      match findOne (verifyFilter uid sid) (subscriptions w) with
      | Some (i, d0) => save i d (subscriptions w)
      | None => (subscriptions w ++ [d])%list
      end in
    (if subscriptionsAcknowledge E pkg sid tok
     then inr (mkResponse 200 (JsonData d))
     else inl (CustomError "Error acknowledging subscription" 500),
     logged (stored (logged w [EvVerify pkg sid tok]) l)
       [EvAcknowledge pkg sid tok]).
Proof.
  intros G Pay Exp Lt Rg Adm.
  rewrite verifyAndSaveSubscription_run.
  rewrite verifySubscription_valid with (p := p) (e := e) by assumption.
  cbn [isValid vr_tier vr_expiryDate subscriptions logged].
  rewrite Adm. reflexivity.
Qed.

(** The Subscription collection after such a request: the upsert,
    whatever the acknowledgement does afterwards. *)
Lemma verifyAndSaveSubscription_store E now uid pkg sid tok w p e :
  subscriptionsGet E pkg sid tok = ApiResolves (Some p) ->
  play_paymentState p = Some 1 ->
  play_expiryTimeMillis p = Some e ->
  now < e ->
  Z.abs e <= maxTime ->
  upsertError uid sid tok (Some e) (subscriptions w) = None ->
  subscriptions
    (snd (verifyAndSaveSubscription E now
            (mkVerifyRequest (Some uid) (mkVerifyBody pkg sid tok)) w))
  = match findOne (verifyFilter uid sid) (subscriptions w) with
    | Some (i, d) =>
        save i (verifyUpdate now uid sid tok (getSubscriptionTier sid) (Some e) d)
          (subscriptions w)
    | None =>
        (subscriptions w
           ++ [verifyInsert now uid sid tok (getSubscriptionTier sid) (Some e)])%list
    end.
Proof.
  intros G Pay Exp Lt Rg Adm.
  rewrite verifyAndSaveSubscription_accepted with (p := p) (e := e)
    by assumption.
  cbv zeta. cbn [snd subscriptions logged stored].
  destruct (findOne (verifyFilter uid sid) (subscriptions w)) as [[i d]|];
    reflexivity.
Qed.

Lemma getSubscriptionTier_isTier sid :
  objectPrototypeMember sid = false -> isTier (getSubscriptionTier sid) = true.
Proof.
  intros H. unfold getSubscriptionTier. rewrite H.
  destruct (sid =? _)%string; [reflexivity|].
  destruct (sid =? _)%string; reflexivity.
Qed.

(** C3, as the code has it: two verify calls for the same user and the
    same purchase, both confirmed by the provider, in a store whose
    unique indexes admit the write and for a subscriptionId whose tier is
    one of the schema, leave exactly one document with the key (userId,
    subscriptionId); after each call it has status active, the provider's
    expiryDate, autoRenewing true and startDate equal to the clock of
    that call.  The second call changes the startDate of
    that document and nothing else, so the stored state is the same only
    when the clock reads the same. *)
Theorem verify_twice_rewrites_startDate E t1 t2 uid pkg sid tok w p e :
  subscriptionsGet E pkg sid tok = ApiResolves (Some p) ->
  play_paymentState p = Some 1 ->
  play_expiryTimeMillis p = Some e ->
  t1 < e -> t2 < e ->
  Z.abs e <= maxTime ->
  objectPrototypeMember sid = false ->
  indexesAdmit uid sid tok (subscriptions w) ->
  let req := mkVerifyRequest (Some uid) (mkVerifyBody pkg sid tok) in
  let w1 := snd (verifyAndSaveSubscription E t1 req w) in
  let w2 := snd (verifyAndSaveSubscription E t2 req w1) in
  exists i d1,
    findOne (verifyFilter uid sid) (subscriptions w1) = Some (i, d1)
    /\ status d1 = active /\ expiryDate d1 = Some e
    /\ autoRenewing d1 = true /\ startDate d1 = Some t1
    /\ subscriptions w2 = save i (set_startDate (Some t2) d1) (subscriptions w1)
    /\ findOne (verifyFilter uid sid) (subscriptions w2)
       = Some (i, set_startDate (Some t2) d1)
    /\ length (filter (verifyFilter uid sid) (subscriptions w2)) = 1%nat
    /\ (t1 = t2 -> subscriptions w2 = subscriptions w1)
    /\ isTier (tier d1) = true.
Proof.
  intros G Pay Exp L1 L2 Rg Tr Adm req w1 w2.
  pose proof Adm as [Cnt _].
  assert (S1 := @verifyAndSaveSubscription_store E t1 uid pkg sid tok w p e
                  G Pay Exp L1 Rg
                  (@upsertError_admitted uid sid tok e _ Adm)).
  fold req in S1. fold w1 in S1.
  set (f := verifyFilter uid sid) in *.
  set (t := getSubscriptionTier sid) in *.
  assert (exists i d1,
            findOne f (subscriptions w1) = Some (i, d1)
            /\ length (filter f (subscriptions w1)) = 1%nat
            /\ d1 = mkSubscription uid sid sid tok t active (Some t1) (Some e)
                      true (paymentState d1) (priceAmount d1) (priceCurrency d1)
                      (countryCode d1) (developerPayload d1) (orderId d1)
                      (purchaseType d1) (gracePeriodEndDate d1)
                      (trialEndDate d1))
    as (i & d1 & F1 & C1 & Shape).
  { destruct (findOne f (subscriptions w)) as [[i d]|] eqn:F0.
    - exists i, (verifyUpdate t1 uid sid tok t (Some e) d).
      rewrite S1. split; [|split; [|reflexivity]].
      + apply findOne_save with (d := d); [exact F0|].
        apply verifyFilter_refl; reflexivity.
      + rewrite filter_save_in with (d := d);
          [|exact F0|apply verifyFilter_refl; reflexivity].
        apply findOne_Some_filter in F0. lia.
    - exists (length (subscriptions w)),
             (verifyInsert t1 uid sid tok t (Some e)).
      rewrite S1. split; [|split; [|reflexivity]].
      + apply findOne_app_None; [exact F0|].
        apply verifyFilter_refl; reflexivity.
      + rewrite filter_app. apply findOne_None in F0. rewrite F0.
        cbn [filter app]. unfold f at 1.
        rewrite verifyFilter_refl by reflexivity. reflexivity. }
  assert (Tk : purchaseToken d1 = tok) by (rewrite Shape; reflexivity).
  assert (S2 := @verifyAndSaveSubscription_store E t2 uid pkg sid tok w1 p e
                  G Pay Exp L2 Rg
                  (@upsertError_same_token uid sid tok e _ i d1 F1 Tk)).
  fold req in S2. fold w2 in S2. fold f in S2. fold t in S2.
  exists i, d1.
  rewrite F1 in S2.
  assert (U : verifyUpdate t2 uid sid tok t (Some e) d1
              = set_startDate (Some t2) d1).
  { rewrite Shape. reflexivity. }
  rewrite U in S2.
  assert (In2 : f (set_startDate (Some t2) d1) = true).
  { rewrite Shape. apply verifyFilter_refl; reflexivity. }
  split; [exact F1|].
  split; [rewrite Shape; reflexivity|].
  split; [rewrite Shape; reflexivity|].
  split; [rewrite Shape; reflexivity|].
  split; [rewrite Shape; reflexivity|].
  split; [exact S2|].
  split; [rewrite S2; apply findOne_save with (d := d1); assumption|].
  split; [rewrite S2, filter_save_in with (d := d1); assumption|].
  split.
  - intros <-. rewrite S2. apply save_unchanged.
    apply findOne_nth in F1. destruct F1 as [F1 _].
    rewrite F1. f_equal. rewrite Shape. reflexivity.
  - rewrite Shape. apply getSubscriptionTier_isTier. exact Tr.
Qed.

Lemma verify_twice_rewrites_startDate_witness :
  let E := Sample.env (Sample.paid 5000) in
  let w1 := snd (verifyAndSaveSubscription E 1000 Sample.request (Sample.world [])) in
  let w2 := snd (verifyAndSaveSubscription E 2000 Sample.request w1) in
  length (filter (verifyFilter "alice" "gold") (subscriptions w2)) = 1%nat.
Proof.
  intros E w1 w2.
  destruct (@verify_twice_rewrites_startDate E 1000 2000 "alice" "com.kanvas"
              "gold" "tok-1" (Sample.world []) (mkPlay (Some 1) (Some 5000))
              5000 eq_refl eq_refl eq_refl eq_refl eq_refl
              ltac:(discriminate) eq_refl
              (conj (le_S _ _ (le_n 0))
                    (fun d (I : In d []) _ => match I with end)))
    as (i & d1 & _ & _ & _ & _ & _ & _ & _ & C & _).
  exact C.
Defined.

(** C3, refuted as stated: the second verify call, one second after the
    first, overwrites startDate, so startDate is not set on first creation
    only and the stored state after the second call is not the state after
    the first. *)
Lemma verify_twice_changes_startDate :
  let E := Sample.env (Sample.paid 5000) in
  let w1 := snd (verifyAndSaveSubscription E 1000 Sample.request (Sample.world [])) in
  let w2 := snd (verifyAndSaveSubscription E 2000 Sample.request w1) in
  map startDate (subscriptions w1) = [Some 1000]
  /\ map startDate (subscriptions w2) = [Some 2000]
  /\ subscriptions w2 <> subscriptions w1.
Proof.
  cbv zeta. split; [reflexivity|]. split; [reflexivity|].
  intros H. apply (f_equal (map startDate)) in H. vm_compute in H. discriminate.
Qed.

(** C7: when the verification result has isValid false, the verify
    controller throws CustomError('Invalid subscription', 400); the stores
    are as before the request and the only external call made is the
    verification itself (no upsert, no acknowledgement). *)
Theorem invalid_verification_is_rejected_without_write E now uid body w r w' :
  verifySubscription E now (vb_packageName body) (vb_subscriptionId body)
    (vb_purchaseToken body) w = (inr r, w') ->
  isValid r = false ->
  verifyAndSaveSubscription E now (mkVerifyRequest (Some uid) body) w
    = (inl (CustomError "Invalid subscription" 400), w')
  /\ subscriptions w' = subscriptions w
  /\ preferences w' = preferences w
  /\ deviceTokens w' = deviceTokens w
  /\ trace w' = (trace w ++ [EvVerify (vb_packageName body)
                               (vb_subscriptionId body) (vb_purchaseToken body)])%list.
Proof.
  intros V Inv.
  split.
  - unfold verifyAndSaveSubscription, tryCatch, bind at 1.
    cbn [vq_user vq_body]. rewrite V, Inv. reflexivity.
  - pose proof (verifySubscription_frame E now (vb_packageName body)
                  (vb_subscriptionId body) (vb_purchaseToken body) w) as Fr.
    rewrite V in Fr. cbn [snd] in Fr. subst w'. repeat split.
Qed.

Lemma invalid_verification_is_rejected_without_write_witness :
  let w := Sample.world [Sample.sub "bob" "silver" "tok-0" active] in
  fst (verifyAndSaveSubscription (Sample.env (Sample.paid 500)) 2000
         Sample.request w)
  = inl (CustomError "Invalid subscription" 400).
Proof.
  intros w.
  destruct (@invalid_verification_is_rejected_without_write
              (Sample.env (Sample.paid 500)) 2000 "alice"
              (mkVerifyBody "com.kanvas" "gold" "tok-1") w
              (mkVerification false basic (Some 500))
              (logged w [EvVerify "com.kanvas" "gold" "tok-1"])
              eq_refl eq_refl) as [R _].
  unfold Sample.request. rewrite R. reflexivity.
Defined.

(** ** The cancel path *)

Lemma cancelSubscription_run uid w :
  cancelSubscription (Some uid) w =
  match findOne (activeOf uid) (subscriptions w) with
  | None => (inl (CustomError "No active subscription found" 404), w)
  | Some (i, s) =>
      if passesValidation s
      then (inr (mkResponse 200
                   (JsonMessage "Subscription cancelled successfully")),
            stored w (save i (set_autoRenewing false (set_status cancelled s))
                        (subscriptions w)))
      else (inl (CustomError "Error cancelling subscription" 500), w)
  end.
Proof.
  unfold cancelSubscription; run.
  destruct (findOne (activeOf uid) (subscriptions w)) as [[i s]|];
    [|reflexivity].
  rewrite Subscription_save_run.
  rewrite passesValidation_set_autoRenewing, passesValidation_set_status.
  destruct (passesValidation s); reflexivity.
Qed.

Lemma cancelled_not_active uid s :
  activeOf uid (set_autoRenewing false (set_status cancelled s)) = false.
Proof. unfold activeOf; simpl. apply andb_false_r. Qed.

(** C6, as the code has it: for an authenticated caller, cancel throws
    CustomError('No active subscription found', 404) exactly when the
    caller has no subscription with status active; otherwise it takes the
    first such subscription and, when that document passes the validators
    of the schema, stores it with status cancelled and autoRenewing false,
    changes nothing else and makes no external call (the trace is
    unchanged).  One call cancels one subscription, so after a call that
    went through a second call in a row throws the 404 exactly when the
    caller had at most one active subscription before the first. *)
Theorem cancel_requires_active uid w :
  (fst (cancelSubscription (Some uid) w)
     = inl (CustomError "No active subscription found" 404)
   <-> filter (activeOf uid) (subscriptions w) = [])
  /\ match findOne (activeOf uid) (subscriptions w) with
     | None =>
         cancelSubscription (Some uid) w
         = (inl (CustomError "No active subscription found" 404), w)
     | Some (i, s) =>
         passesValidation s = true ->
         cancelSubscription (Some uid) w
         = (inr (mkResponse 200
                   (JsonMessage "Subscription cancelled successfully")),
            stored w (save i (set_autoRenewing false (set_status cancelled s))
                        (subscriptions w)))
     end
  /\ ((forall i s, findOne (activeOf uid) (subscriptions w) = Some (i, s) ->
                   passesValidation s = true) ->
      (fst (cancelSubscription (Some uid)
              (snd (cancelSubscription (Some uid) w)))
         = inl (CustomError "No active subscription found" 404)
       <-> (length (filter (activeOf uid) (subscriptions w)) <= 1)%nat)).
Proof.
  split; [|split].
  - rewrite cancelSubscription_run, <- findOne_None.
    destruct (findOne (activeOf uid) (subscriptions w)) as [[i s]|];
      [destruct (passesValidation s)|];
      split; intro H; try discriminate; reflexivity.
  - rewrite cancelSubscription_run.
    destruct (findOne (activeOf uid) (subscriptions w)) as [[i s]|];
      [intros ->|]; reflexivity.
  - intros V. rewrite (cancelSubscription_run uid w).
    destruct (findOne (activeOf uid) (subscriptions w)) as [[i s]|] eqn:F.
    + rewrite (V i s eq_refl).
      cbn [snd]. rewrite cancelSubscription_run. cbn [subscriptions stored].
      pose proof (@filter_save_out _ (activeOf uid) (subscriptions w) i s _ F
                    (cancelled_not_active uid s)) as Cnt.
      destruct (findOne (activeOf uid) (save i _ (subscriptions w)))
        as [[j s2]|] eqn:F2.
      * apply findOne_Some_filter in F2.
        destruct (passesValidation s2);
          split; intro H; try discriminate; lia.
      * apply findOne_None in F2. rewrite F2 in Cnt. simpl in Cnt.
        split; intro H; [lia | reflexivity].
    + cbn [snd]. rewrite cancelSubscription_run, F.
      apply findOne_None in F. rewrite F.
      split; intro H; [simpl; lia | reflexivity].
Qed.

Lemma cancel_requires_active_witness :
  let w := Sample.world [Sample.full "alice" "gold" "tok-1" "GPA.1" active;
                         Sample.full "bob" "silver" "tok-0" "GPA.2" active] in
  fst (cancelSubscription (Some "alice")
         (snd (cancelSubscription (Some "alice") w)))
  = inl (CustomError "No active subscription found" 404).
Proof.
  intros w.
  refine (proj2 (proj2 (proj2 (cancel_requires_active "alice" w)) _) _).
  - intros i s F. vm_compute in F. inversion F. reflexivity.
  - apply le_n.
Defined.

(** C6, refuted as stated: a caller with two active subscriptions, each
    with every required field, cancels twice in a row and the second call
    succeeds as well. *)
Lemma second_cancel_can_succeed :
  let w := Sample.world [Sample.full "alice" "gold" "tok-1" "GPA.1" active;
                         Sample.full "alice" "silver" "tok-2" "GPA.2" active] in
  fst (cancelSubscription (Some "alice")
         (snd (cancelSubscription (Some "alice") w)))
  = inr (mkResponse 200 (JsonMessage "Subscription cancelled successfully")).
Proof. reflexivity. Qed.

(** ** Notification dispatch *)

(** What sendNotificationToUser does, by the first gate that closes. *)
Lemma sendNotificationToUser_run E now uid title body type data options w :
  sendNotificationToUser E now uid title body type data options w =
  match suppressedBy E now uid type w with
  | Some g => (inr None, logged w (gateLog uid type g))
  | None =>
      let message :=
        multicastMessage (map token (activeTokensOf uid w)) title body data
          options in
      match sendEachForMulticast E message with
      | Some r => (inr (Some r), logged w [EvPush message])
      | None =>
          (inr None,
           logged w [EvPush message;
                     EvLog "Error sending multicast notification:";
                     EvLog "Error sending notification to user:"])
      end
  end.
Proof.
  unfold sendNotificationToUser, suppressedBy, NotificationPreferences_findOne,
    DeviceToken_find, sendMulticastNotification, preferencesOf, activeTokensOf,
    tryCatch, bind, ret, throw, emit.
  destruct (option_map snd _) as [p|]; [|reflexivity].
  destruct (negb (switchOf p type)); [reflexivity|].
  destruct (enabled (quietHours p) && isWithinQuietHours E now (quietHours p));
    [reflexivity|].
  destruct (filter _ (deviceTokens w)) as [|t ts] eqn:Toks.
  - cbn [length Nat.eqb gateLog]. rewrite logged_nil. reflexivity.
  - cbn [length Nat.eqb].
    destruct (sendEachForMulticast E _); cbn; unfold logged; cbn;
      rewrite <- ?app_assoc; reflexivity.
Qed.

(** A notification that passes the gates reaches the push client with the
    tokens of all active devices of the user, and the caller gets the
    client's answer (null when the client throws). *)
Lemma sendNotificationToUser_delivers E now uid title body type data options w :
  suppressedBy E now uid type w = None ->
  let message :=
    multicastMessage (map token (activeTokensOf uid w)) title body data options in
  fst (sendNotificationToUser E now uid title body type data options w)
    = inr (sendEachForMulticast E message)
  /\ exists rest,
       snd (sendNotificationToUser E now uid title body type data options w)
       = logged w (EvPush message :: rest).
Proof.
  intros G message. rewrite sendNotificationToUser_run, G.
  subst message; cbv zeta.
  destruct (sendEachForMulticast E _); cbn [fst snd]; split;
    try reflexivity; eexists; reflexivity.
Qed.

Lemma suppressedBy_open E now uid type w p :
  preferencesOf uid w = Some p ->
  switchOf p type = true ->
  isWithinQuietHours E now (quietHours p) = false ->
  activeTokensOf uid w <> [] ->
  suppressedBy E now uid type w = None.
Proof.
  intros P S Q T. unfold suppressedBy. rewrite P, S, Q, andb_false_r.
  cbn [negb]. destruct (activeTokensOf uid w); [contradiction|reflexivity].
Qed.

(** isWithinQuietHours is the window of the specification, once the zone
    and the two clock strings are read. *)
Lemma isWithinQuietHours_window E now q sh sm eh em off :
  enabled q = true ->
  destructure2 (map Number (split_colon (startTime q))) = (Some sh, Some sm) ->
  destructure2 (map Number (split_colon (endTime q))) = (Some eh, Some em) ->
  zoneOffset E (timezone q) now = Some off ->
  isWithinQuietHours E now q = quietWindow (now + off) sh sm eh em.
Proof.
  intros En S Ed Z. unfold isWithinQuietHours, toZonedTime, quietWindow.
  rewrite En, S, Ed, Z. cbn [negb setHours date_lt].
  destruct (_ <? _); reflexivity.
Qed.

(** The day of a local time, for linear arithmetic. *)
Lemma midnight_bounds u :
  u / msPerDay * msPerDay <= u < u / msPerDay * msPerDay + msPerDay.
Proof.
  pose proof (Z.mul_div_le u msPerDay eq_refl).
  pose proof (Z.mul_succ_div_gt u msPerDay eq_refl).
  lia.
Qed.

(** The two clock readings of the midnight-spanning example, on any day. *)
Lemma quietWindow_night_2330 day :
  quietWindow (day * msPerDay + 23 * msPerHour + 30 * msPerMinute) 22 0 8 0
  = true.
Proof.
  unfold quietWindow.
  replace (day * msPerDay + 23 * msPerHour + 30 * msPerMinute)
    with (msPerDay * day + 84600000) by (unfold msPerDay, msPerHour, msPerMinute; lia).
  replace ((msPerDay * day + 84600000) / msPerDay) with day
    by (apply Z.div_unique with (r := 84600000); unfold msPerDay; lia).
  unfold msPerDay, msPerHour, msPerMinute.
  repeat match goal with
         | |- context [?a <? ?b] => destruct (Z.ltb_spec a b)
         | |- context [?a <=? ?b] => destruct (Z.leb_spec a b)
         end; cbn [andb]; try reflexivity; lia.
Qed.

Lemma quietWindow_night_0900 day :
  quietWindow (day * msPerDay + 9 * msPerHour) 22 0 8 0 = false.
Proof.
  unfold quietWindow.
  replace (day * msPerDay + 9 * msPerHour)
    with (msPerDay * day + 32400000) by (unfold msPerDay, msPerHour; lia).
  replace ((msPerDay * day + 32400000) / msPerDay) with day
    by (apply Z.div_unique with (r := 32400000); unfold msPerDay; lia).
  unfold msPerDay, msPerHour, msPerMinute.
  repeat match goal with
         | |- context [?a <? ?b] => destruct (Z.ltb_spec a b)
         | |- context [?a <=? ?b] => destruct (Z.leb_spec a b)
         end; cbn [andb]; try reflexivity; lia.
Qed.

(** C4: isWithinQuietHours builds start and end on the calendar day of the
    local time and moves end to the next day when it is before start.
    With quiet hours 22:00 to 08:00 in UTC, the category switch on and an
    active token, a notification at 23:30 UTC of any day is stopped by the
    quiet-hours gate, and one at 09:00 UTC is handed to the push client
    with the tokens of the active devices. *)
Theorem quiet_hours_spanning_midnight
  E day uid title body type data options w p :
  (forall t, zoneOffset E "UTC" t = Some 0) ->
  preferencesOf uid w = Some p ->
  quietHours p = mkQuietHours true "22:00" "08:00" "UTC" ->
  switchOf p type = true ->
  activeTokensOf uid w <> [] ->
  let at2330 := day * msPerDay + 23 * msPerHour + 30 * msPerMinute in
  let at0900 := day * msPerDay + 9 * msPerHour in
  let message :=
    multicastMessage (map token (activeTokensOf uid w)) title body data options in
  (forall now, isWithinQuietHours E now (quietHours p) = quietWindow now 22 0 8 0)
  /\ sendNotificationToUser E at2330 uid title body type data options w
     = (inr None, logged w [EvLog ("User " ++ uid ++ " is in quiet hours")])
  /\ fst (sendNotificationToUser E at0900 uid title body type data options w)
     = inr (sendEachForMulticast E message)
  /\ exists rest,
       snd (sendNotificationToUser E at0900 uid title body type data options w)
       = logged w (EvPush message :: rest).
Proof.
  intros Utc P Q S T at2330 at0900 message.
  assert (W : forall now,
             isWithinQuietHours E now (quietHours p) = quietWindow now 22 0 8 0).
  { intros now. rewrite Q.
    rewrite isWithinQuietHours_window
      with (sh := 22) (sm := 0) (eh := 8) (em := 0) (off := 0);
      try reflexivity; [f_equal; lia | apply Utc]. }
  split; [exact W|]. split.
  - rewrite sendNotificationToUser_run. unfold suppressedBy.
    rewrite P, S, W. unfold at2330. rewrite quietWindow_night_2330, Q.
    reflexivity.
  - apply sendNotificationToUser_delivers.
    apply suppressedBy_open with (p := p); try assumption.
    rewrite W. apply quietWindow_night_0900.
Qed.

Lemma quiet_hours_spanning_midnight_witness :
  let w := Sample.notifyWorld [Sample.prefs "alice" false Sample.night]
             [Sample.phone "alice" "tk1" true; Sample.phone "alice" "tk2" false] in
  sendNotificationToUser (Sample.env ApiRejects)
    (19000 * msPerDay + 23 * msPerHour + 30 * msPerMinute)
    "alice" "New" "wallpapers" NewWallpapers None None w
  = (inr None, logged w [EvLog "User alice is in quiet hours"]).
Proof.
  intros w.
  refine (proj1 (proj2 (@quiet_hours_spanning_midnight
                          (Sample.env ApiRejects) 19000 "alice" "New"
                          "wallpapers" NewWallpapers None None w
                          (Sample.prefs "alice" false Sample.night)
                          (fun _ => eq_refl) eq_refl eq_refl eq_refl _))).
  discriminate.
Defined.

(** C10: with quiet hours enabled and an end that is earlier than the
    start on the same day, isWithinQuietHours is false at every local time
    before that day's end: the start is on the current day, so the
    early-morning part of the window is not covered, and a notification
    that passes the switch and has an active token goes to the push
    client. *)
Theorem early_morning_is_outside_the_window E now q sh sm eh em off :
  enabled q = true ->
  destructure2 (map Number (split_colon (startTime q))) = (Some sh, Some sm) ->
  destructure2 (map Number (split_colon (endTime q))) = (Some eh, Some em) ->
  zoneOffset E (timezone q) now = Some off ->
  let userTime := now + off in
  let midnight := userTime / msPerDay * msPerDay in
  let startToday := midnight + sh * msPerHour + sm * msPerMinute in
  let endToday := midnight + eh * msPerHour + em * msPerMinute in
  endToday < startToday ->
  userTime < endToday ->
  midnight <= userTime
  /\ isWithinQuietHours E now q = false
  /\ forall uid title body type data options w p,
       preferencesOf uid w = Some p ->
       quietHours p = q ->
       switchOf p type = true ->
       activeTokensOf uid w <> [] ->
       let message :=
         multicastMessage (map token (activeTokensOf uid w)) title body data
           options in
       fst (sendNotificationToUser E now uid title body type data options w)
         = inr (sendEachForMulticast E message)
       /\ exists rest,
            snd (sendNotificationToUser E now uid title body type data options w)
            = logged w (EvPush message :: rest).
Proof.
  intros En S Ed Z userTime midnight startToday endToday Lt Early.
  assert (Out : isWithinQuietHours E now q = false).
  { rewrite isWithinQuietHours_window
      with (sh := sh) (sm := sm) (eh := eh) (em := em) (off := off);
      try assumption.
    unfold quietWindow. fold userTime. fold midnight.
    fold startToday. fold endToday.
    destruct (Z.leb_spec startToday userTime); [lia|reflexivity]. }
  split; [apply midnight_bounds|]. split; [exact Out|].
  intros uid title body type data options w p P Q Sw T.
  apply sendNotificationToUser_delivers.
  apply suppressedBy_open with (p := p); try assumption.
  rewrite Q. exact Out.
Qed.

Lemma early_morning_is_outside_the_window_witness :
  isWithinQuietHours (Sample.env ApiRejects) (19000 * msPerDay + 3 * msPerHour)
    Sample.night = false.
Proof.
  refine (proj1 (proj2 (@early_morning_is_outside_the_window
                          (Sample.env ApiRejects)
                          (19000 * msPerDay + 3 * msPerHour) Sample.night
                          22 0 8 0 0 eq_refl eq_refl eq_refl eq_refl _ _)));
    vm_compute; reflexivity.
Defined.

(** C8, as the code has it: sendNotificationToUser never throws.  A call
    stopped by a gate returns null and reaches no push client; absent
    preferences, a switched-off category and quiet hours each leave their
    own console line, an empty set of active tokens leaves none.  The
    returned value is null whatever the gate. *)
Theorem suppression_returns_null E now uid title body type data options w :
  (exists v,
     fst (sendNotificationToUser E now uid title body type data options w)
     = inr v)
  /\ forall g,
       suppressedBy E now uid type w = Some g ->
       sendNotificationToUser E now uid title body type data options w
         = (inr None, logged w (gateLog uid type g))
       /\ (forall m, ~ In (EvPush m) (gateLog uid type g))
       /\ (gateLog uid type g = [] <-> g = NoActiveTokens).
Proof.
  split.
  - rewrite sendNotificationToUser_run.
    destruct (suppressedBy E now uid type w); [eexists; reflexivity|].
    cbv zeta. destruct (sendEachForMulticast E _); eexists; reflexivity.
  - intros g G. rewrite sendNotificationToUser_run, G.
    split; [reflexivity|]. split.
    + intros m. destruct g; simpl; intuition discriminate.
    + destruct g; simpl; split; intro H; try discriminate; reflexivity.
Qed.

Lemma suppression_returns_null_witness :
  let w := Sample.notifyWorld [Sample.prefs "alice" false Sample.noQuiet]
             [Sample.phone "alice" "tk1" true] in
  sendNotificationToUser (Sample.env ApiRejects) 0 "alice" "Sale" "now"
    MarketingUpdates None None w
  = (inr None,
     logged w [EvLog "User alice has disabled marketingUpdates notifications"]).
Proof.
  intros w.
  exact (proj1 (proj2 (@suppression_returns_null (Sample.env ApiRejects) 0
                         "alice" "Sale" "now" MarketingUpdates None None w)
                  SwitchOff eq_refl)).
Defined.

(** C8, refuted as stated: a call stopped by the category switch, a call
    stopped by the empty token set and a call whose push fails all return
    the same null, and the second leaves no trace at all, so the outcome
    does not tell which gate closed, nor a gate from a failure. *)
Lemma suppressed_outcomes_are_not_told_apart :
  let E := Sample.env ApiRejects in
  let off := Sample.notifyWorld [Sample.prefs "alice" false Sample.noQuiet]
               [Sample.phone "alice" "tk1" true] in
  let bare := Sample.notifyWorld [Sample.prefs "alice" false Sample.noQuiet] [] in
  suppressedBy E 0 "alice" MarketingUpdates off = Some SwitchOff
  /\ suppressedBy E 0 "alice" NewWallpapers bare = Some NoActiveTokens
  /\ suppressedBy Sample.offline 0 "alice" NewWallpapers off = None
  /\ fst (sendNotificationToUser E 0 "alice" "t" "b" MarketingUpdates None None off)
     = inr None
  /\ sendNotificationToUser E 0 "alice" "t" "b" NewWallpapers None None bare
     = (inr None, bare)
  /\ fst (sendNotificationToUser Sample.offline 0 "alice" "t" "b" NewWallpapers
            None None off)
     = inr None.
Proof. repeat split. Qed.

(** * Further properties of the subscription lifecycle *)

(** X1: when the verification service throws (the provider call is
    rejected, or it returns no subscription resource), the verify
    controller rethrows that CustomError as it is, 500 'Error verifying
    subscription' or 400 'Invalid subscription', writes nothing and does
    not acknowledge: the world gains the trace entry of the verification
    call only. *)
Theorem verify_rethrows_provider_failure E now uid pkg sid tok w e w' :
  verifySubscription E now pkg sid tok w = (inl e, w') ->
  verifyAndSaveSubscription E now
    (mkVerifyRequest (Some uid) (mkVerifyBody pkg sid tok)) w = (inl e, w')
  /\ w' = logged w [EvVerify pkg sid tok]
  /\ (e = CustomError "Error verifying subscription" 500
      /\ subscriptionsGet E pkg sid tok = ApiRejects
      \/ e = CustomError "Invalid subscription" 400
         /\ subscriptionsGet E pkg sid tok = ApiResolves None).
Proof.
  intros V. rewrite verifyAndSaveSubscription_run, V.
  rewrite verifySubscription_run in V.
  destruct (subscriptionsGet E pkg sid tok) as [|[p|]];
    inversion V; subst; auto.
Qed.

Lemma verify_rethrows_provider_failure_witness :
  verifyAndSaveSubscription (Sample.env ApiRejects) 0 Sample.request
    (Sample.world [])
  = (inl (CustomError "Error verifying subscription" 500),
     logged (Sample.world []) [EvVerify "com.kanvas" "gold" "tok-1"]).
Proof.
  exact (proj1 (@verify_rethrows_provider_failure (Sample.env ApiRejects) 0
                  "alice" "com.kanvas" "gold" "tok-1" (Sample.world []) _ _
                  eq_refl)).
Defined.

(** X2: the acknowledgement comes after the write and its failure does not
    undo it.  When the provider confirms the purchase and the unique
    indexes of the store admit the write, the verify controller first
    upserts the document, then acknowledges; if the acknowledgement is
    rejected it throws 500 'Error acknowledging subscription', and the
    collection is the one a successful request leaves: the caller's
    document is there, active, with the provider's expiry and the tier of
    the subscriptionId. *)
Theorem acknowledgement_failure_keeps_the_record E now uid pkg sid tok w p e :
  subscriptionsGet E pkg sid tok = ApiResolves (Some p) ->
  play_paymentState p = Some 1 ->
  play_expiryTimeMillis p = Some e ->
  now < e ->
  Z.abs e <= maxTime ->
  objectPrototypeMember sid = false ->
  indexesAdmit uid sid tok (subscriptions w) ->
  subscriptionsAcknowledge E pkg sid tok = false ->
  let r := verifyAndSaveSubscription E now
             (mkVerifyRequest (Some uid) (mkVerifyBody pkg sid tok)) w in
  fst r = inl (CustomError "Error acknowledging subscription" 500)
  /\ trace (snd r)
     = (trace w ++ [EvVerify pkg sid tok; EvAcknowledge pkg sid tok])%list
  /\ exists i d,
       findOne (verifyFilter uid sid) (subscriptions (snd r)) = Some (i, d)
       /\ status d = active /\ expiryDate d = Some e
       /\ autoRenewing d = true /\ purchaseToken d = tok
       /\ tier d = getSubscriptionTier sid
       /\ isTier (tier d) = true.
Proof.
  intros G Pay Exp Lt Rg Tr Adm Ack r. unfold r.
  rewrite verifyAndSaveSubscription_accepted with (p := p) (e := e);
    try assumption; [|apply upsertError_admitted; exact Adm].
  rewrite Ack. cbv zeta.
  cbn [fst snd subscriptions logged stored trace].
  split; [reflexivity|]. split; [rewrite <- app_assoc; reflexivity|].
  apply getSubscriptionTier_isTier in Tr.
  destruct (findOne (verifyFilter uid sid) (subscriptions w)) as [[i d0]|] eqn:F.
  - exists i. eexists. split.
    + apply findOne_save with (d := d0); [exact F|].
      apply verifyFilter_refl; reflexivity.
    + repeat split. exact Tr.
  - exists (length (subscriptions w)). eexists. split.
    + apply findOne_app_None; [exact F|].
      apply verifyFilter_refl; reflexivity.
    + repeat split. exact Tr.
Qed.

Lemma acknowledgement_failure_keeps_the_record_witness :
  let E := mkEnv (fun _ _ _ => Sample.paid 5000) (fun _ _ _ => false)
             Sample.decode (fun _ _ => Some 0) (fun _ => None) in
  fst (verifyAndSaveSubscription E 1000 Sample.request (Sample.world []))
  = inl (CustomError "Error acknowledging subscription" 500).
Proof.
  intros E.
  exact (proj1 (@acknowledgement_failure_keeps_the_record E 1000 "alice"
                  "com.kanvas" "gold" "tok-1" (Sample.world [])
                  (mkPlay (Some 1) (Some 5000)) 5000
                  eq_refl eq_refl eq_refl eq_refl ltac:(discriminate) eq_refl
                  (conj (le_S _ _ (le_n 0))
                        (fun d (I : In d []) _ => match I with end))
                  eq_refl)).
Defined.

(** X3: a confirmed and acknowledged verify request, in a store whose
    unique indexes admit the write, answers 200 with the document it has
    just written, which is the caller's document for that subscriptionId
    in the collection; the two provider calls are made in the order
    verify, acknowledge. *)
Theorem verify_answers_with_the_stored_document E now uid pkg sid tok w p e :
  subscriptionsGet E pkg sid tok = ApiResolves (Some p) ->
  play_paymentState p = Some 1 ->
  play_expiryTimeMillis p = Some e ->
  now < e ->
  Z.abs e <= maxTime ->
  objectPrototypeMember sid = false ->
  indexesAdmit uid sid tok (subscriptions w) ->
  subscriptionsAcknowledge E pkg sid tok = true ->
  let r := verifyAndSaveSubscription E now
             (mkVerifyRequest (Some uid) (mkVerifyBody pkg sid tok)) w in
  exists i d,
    fst r = inr (mkResponse 200 (JsonData d))
    /\ findOne (verifyFilter uid sid) (subscriptions (snd r)) = Some (i, d)
    /\ (userId d, subscriptionId d, productId d, purchaseToken d)
       = (uid, sid, sid, tok)
    /\ (status d, startDate d, expiryDate d, autoRenewing d)
       = (active, Some now, Some e, true)
    /\ isTier (tier d) = true
    /\ providerCalls (trace (snd r))
       = (providerCalls (trace w)
            ++ [EvVerify pkg sid tok; EvAcknowledge pkg sid tok])%list.
Proof.
  intros G Pay Exp Lt Rg Tr Adm Ack r. unfold r.
  rewrite verifyAndSaveSubscription_accepted with (p := p) (e := e);
    try assumption; [|apply upsertError_admitted; exact Adm].
  rewrite Ack. cbv zeta.
  cbn [fst snd subscriptions logged stored trace].
  apply getSubscriptionTier_isTier in Tr.
  assert (T : providerCalls ((trace w ++ [EvVerify pkg sid tok])
                               ++ [EvAcknowledge pkg sid tok])
              = (providerCalls (trace w)
                   ++ [EvVerify pkg sid tok; EvAcknowledge pkg sid tok])%list).
  { unfold providerCalls. rewrite !filter_app, <- app_assoc. reflexivity. }
  destruct (findOne (verifyFilter uid sid) (subscriptions w)) as [[i d0]|] eqn:F.
  - exists i. eexists. split; [reflexivity|]. split.
    + apply findOne_save with (d := d0); [exact F|].
      apply verifyFilter_refl; reflexivity.
    + repeat split; [exact Tr | exact T].
  - exists (length (subscriptions w)). eexists. split; [reflexivity|]. split.
    + apply findOne_app_None; [exact F|].
      apply verifyFilter_refl; reflexivity.
    + repeat split; [exact Tr | exact T].
Qed.

Lemma verify_answers_with_the_stored_document_witness :
  exists d,
    fst (verifyAndSaveSubscription (Sample.env (Sample.paid 5000)) 1000
           Sample.request (Sample.world []))
    = inr (mkResponse 200 (JsonData d))
    /\ status d = active.
Proof.
  destruct (@verify_answers_with_the_stored_document
              (Sample.env (Sample.paid 5000)) 1000 "alice" "com.kanvas" "gold"
              "tok-1" (Sample.world []) (mkPlay (Some 1) (Some 5000)) 5000
              eq_refl eq_refl eq_refl eq_refl ltac:(discriminate) eq_refl
              (conj (le_S _ _ (le_n 0))
                    (fun d (I : In d []) _ => match I with end))
              eq_refl)
    as (i & d & R & _ & _ & S & _).
  exists d. split; [exact R|]. congruence.
Defined.

(** ** One document per user and subscription *)

Lemma NoDup_snoc {A} (l : list A) x :
  NoDup l -> ~ In x l -> NoDup (l ++ [x]).
Proof.
  induction l as [|y r IH]; simpl; intros N I.
  - constructor; [intros []|constructor].
  - inversion N; subst. constructor.
    + rewrite in_app_iff; simpl. intuition.
    + apply IH; intuition.
Qed.

(** The upsert of the verify controller keeps the keys distinct. *)
Lemma upsert_keeps_keys uid sid (l : list ISubscription) d' :
  keyOf d' = (uid, sid) ->
  NoDup (map keyOf l) ->
  NoDup (map keyOf
           match findOne (verifyFilter uid sid) l with
           | Some (i, d0) => save i d' l
           | None => (l ++ [d'])%list
           end).
Proof.
  intros K N. destruct (findOne (verifyFilter uid sid) l) as [[i d0]|] eqn:F.
  - apply findOne_nth in F. destruct F as [F V].
    apply verifyFilter_key in V.
    rewrite map_save with (x := d0); [exact N|exact F|congruence].
  - rewrite map_app. apply NoDup_snoc; [exact N|]. simpl.
    intros I. apply in_map_iff in I. destruct I as (d & Kd & I).
    pose proof (findOne_None_all _ _ F d I) as V.
    rewrite K in Kd. apply verifyFilter_key in Kd. congruence.
Qed.

(** X4: starting from a collection in which no two documents share the
    pair (userId, subscriptionId), none of the three writers of the
    Subscription collection (verify, cancel, webhook), whatever request
    it gets and however it ends, produces a second document for a pair. *)
Theorem one_document_per_user_and_subscription E now w :
  uniqueKeys w ->
  (forall req, uniqueKeys (snd (verifyAndSaveSubscription E now req w)))
  /\ (forall user, uniqueKeys (snd (cancelSubscription user w)))
  /\ (forall message_data,
        uniqueKeys (snd (handleSubscriptionWebhook E now message_data w))).
Proof.
  unfold uniqueKeys. intros N. split; [|split].
  - intros [[uid|] [pkg sid tok]]; [|exact N].
    rewrite verifyAndSaveSubscription_run, verifySubscription_run.
    destruct (subscriptionsGet E pkg sid tok) as [|[p|]]; try exact N.
    destruct (isValid (verificationOf now sid p)); [|exact N].
    cbn [subscriptions logged].
    destruct (upsertError uid sid tok _ (subscriptions w)); [exact N|].
    cbv zeta. cbn [snd subscriptions logged stored].
    pose proof (@upsert_keeps_keys uid sid (subscriptions w)) as U.
    destruct (findOne (verifyFilter uid sid) (subscriptions w)) as [[i d0]|];
      apply U; auto.
  - intros [uid|]; [|exact N].
    rewrite cancelSubscription_run.
    destruct (findOne (activeOf uid) (subscriptions w)) as [[i s]|] eqn:F;
      [|exact N].
    destruct (passesValidation s); [|exact N].
    apply findOne_nth in F. destruct F as [F _]. cbn [snd subscriptions stored].
    rewrite map_save with (x := s); [exact N|exact F|reflexivity].
  - intros message_data. rewrite handleSubscriptionWebhook_keys. exact N.
Qed.

Lemma one_document_per_user_and_subscription_witness :
  uniqueKeys
    (snd (verifyAndSaveSubscription (Sample.env (Sample.paid 5000)) 1000
            Sample.request
            (Sample.world [Sample.sub "alice" "gold" "tok-1" expired]))).
Proof.
  apply (@one_document_per_user_and_subscription
           (Sample.env (Sample.paid 5000)) 1000
           (Sample.world [Sample.sub "alice" "gold" "tok-1" expired])).
  unfold uniqueKeys. simpl. constructor; [intros []|constructor].
Defined.

(** ** Entitlement *)

Lemma entitled_spec now uid d :
  entitled now uid d = true <->
  userId d = uid /\ status d = active
  /\ exists e, expiryDate d = Some e /\ now < e.
Proof.
  unfold entitled. rewrite !andb_true_iff, String.eqb_eq. split.
  - intros [[U S] X]. split; [exact U|]. split.
    + destruct (status d); simpl in S; try discriminate; reflexivity.
    + destruct (expiryDate d) as [e|]; simpl in X; [|discriminate].
      exists e. split; [reflexivity|]. apply Z.ltb_lt; exact X.
  - intros (U & S & e & X & L). rewrite S, X. simpl.
    repeat split; auto. apply Z.ltb_lt; exact L.
Qed.

Lemma getSubscriptionStatus_run now uid w :
  getSubscriptionStatus now (Some uid) w =
  (inr match findOne (entitled now uid) (subscriptions w) with
       | Some (_, s) => mkStatus true (Some (tier s)) (Some (expiryDate s))
       | None => mkStatus false None None
       end, w).
Proof.
  unfold getSubscriptionStatus; run.
  destruct (findOne (entitled now uid) (subscriptions w)) as [[i s]|];
    reflexivity.
Qed.

Lemma checkSubscription_run now requiredTier uid w :
  checkSubscription now requiredTier (Some uid) w =
  (inr match findOne (entitled now uid) (subscriptions w) with
       | None => NextError (CustomError "Subscription required" 403)
       | Some (_, s) =>
           if Tier_eqb requiredTier premium && negb (Tier_eqb (tier s) premium)
           then NextError (CustomError "Premium subscription required" 403)
           else Next s
       end, w).
Proof.
  unfold checkSubscription; run.
  destruct (findOne (entitled now uid) (subscriptions w)) as [[i s]|];
    [|reflexivity].
  destruct (Tier_eqb requiredTier premium && negb (Tier_eqb (tier s) premium));
    reflexivity.
Qed.

Lemma hasActiveSubscription_run now uid w :
  hasActiveSubscription now (Some uid) w =
  (inr (Next match findOne (entitled now uid) (subscriptions w) with
             | Some _ => true
             | None => false
             end), w).
Proof. reflexivity. Qed.

(** X5: the status endpoint and the two subscription middlewares read the
    collection without changing it and agree with each other: the user
    counts as subscribed exactly when one of the user's documents has
    status active and an expiryDate after the clock; then
    checkSubscription('basic') attaches a subscription and
    hasActiveSubscription attaches true, otherwise the first passes
    403 'Subscription required' to next and the status reports tier
    'free' without an expiry date. *)
Theorem entitlement_readers_agree now uid w :
  exists st b,
    getSubscriptionStatus now (Some uid) w = (inr st, w)
    /\ hasActiveSubscription now (Some uid) w = (inr (Next b), w)
    /\ snd (checkSubscription now basic (Some uid) w) = w
    /\ b = isSubscribed st
    /\ (isSubscribed st = true <->
        exists d, In d (subscriptions w) /\ userId d = uid
                  /\ status d = active
                  /\ exists e, expiryDate d = Some e /\ now < e)
    /\ (isSubscribed st = true <->
        exists s, fst (checkSubscription now basic (Some uid) w)
                  = inr (Next s))
    /\ (isSubscribed st = false ->
        fst (checkSubscription now basic (Some uid) w)
        = inr (NextError (CustomError "Subscription required" 403))
        /\ ss_tier st = None /\ ss_expiryDate st = None).
Proof.
  rewrite getSubscriptionStatus_run, hasActiveSubscription_run,
    checkSubscription_run.
  destruct (findOne (entitled now uid) (subscriptions w)) as [[i s]|] eqn:F;
    eexists; eexists; (split; [reflexivity|]); (split; [reflexivity|]);
    (split; [reflexivity|]); (split; [reflexivity|]); cbn [isSubscribed fst].
  - apply findOne_nth in F. destruct F as [F En].
    apply entitled_spec in En. apply nth_error_In in F.
    split; [split; [intros _; exists s; tauto | reflexivity]|].
    split; [split; [intros _; exists s; reflexivity | reflexivity]|].
    discriminate.
  - split; [split; [discriminate|]|].
    + intros (d & I & En). apply entitled_spec in En.
      pose proof (findOne_None_all _ _ F d I). congruence.
    + split; [split; [discriminate | intros [s H]; discriminate]|].
      intros _. repeat split.
Qed.

Lemma entitlement_readers_agree_witness :
  let w := Sample.world [Sample.sub "alice" "gold" "tok-1" active] in
  exists st,
    getSubscriptionStatus 900000 (Some "alice") w = (inr st, w)
    /\ isSubscribed st = false.
Proof.
  intros w.
  destruct (@entitlement_readers_agree 900000 "alice" w)
    as (st & b & R & _ & _ & _ & Iff & _).
  exists st. split; [exact R|].
  apply not_true_is_false. intros T. apply Iff in T.
  destruct T as (d & [<-|[]] & _ & _ & e & X & L).
  inversion X; subst. lia.
Defined.

(** X6: checkSubscription('premium') looks at the first active unexpired
    subscription of the user only: it attaches that document when its
    tier is premium and passes 403 'Premium subscription required' to
    next when its tier is basic, whatever else the user holds; whenever
    it lets a request through, checkSubscription('basic') lets it through
    with the same document. *)
Theorem premium_gate_reads_first_entitled now uid w i s :
  findOne (entitled now uid) (subscriptions w) = Some (i, s) ->
  (tier s = premium ->
   checkSubscription now premium (Some uid) w = (inr (Next s), w))
  /\ (tier s = basic ->
      checkSubscription now premium (Some uid) w
      = (inr (NextError (CustomError "Premium subscription required" 403)), w))
  /\ checkSubscription now basic (Some uid) w = (inr (Next s), w).
Proof.
  intros F. rewrite !checkSubscription_run, F.
  repeat split; try intros ->; reflexivity.
Qed.

Lemma premium_gate_reads_first_entitled_witness :
  let w := Sample.world
             [Sample.sub "alice" "gold" "tok-1" active;
              mkSubscription "alice" "com.yourapp.subscription.premium"
                "com.yourapp.subscription.premium" "tok-2" premium active
                (Some 1000) (Some 900000) true None None None None None None
                pt_subscription None None] in
  checkSubscription 5000 premium (Some "alice") w
  = (inr (NextError (CustomError "Premium subscription required" 403)), w).
Proof.
  intros w.
  exact (proj1 (proj2 (@premium_gate_reads_first_entitled 5000 "alice" w 0%nat
                         (Sample.sub "alice" "gold" "tok-1" active) eq_refl))
           eq_refl).
Defined.

(** X7: a subscription gives access until its expiry time and not after,
    with no sweep involved.  After a confirmed verify request with expiry
    e that the store accepts, the status endpoint reports the user as
    subscribed at every clock before e; at a clock from e on, if the user
    holds no other entitled subscription, it reports not subscribed and
    tier 'free' although the stored status of the document is still
    active. *)
Theorem verified_subscription_entitles_until_expiry
  E t1 t uid pkg sid tok w p e :
  subscriptionsGet E pkg sid tok = ApiResolves (Some p) ->
  play_paymentState p = Some 1 ->
  play_expiryTimeMillis p = Some e ->
  t1 < e ->
  Z.abs e <= maxTime ->
  objectPrototypeMember sid = false ->
  indexesAdmit uid sid tok (subscriptions w) ->
  let w1 := snd (verifyAndSaveSubscription E t1
                   (mkVerifyRequest (Some uid) (mkVerifyBody pkg sid tok)) w) in
  exists st,
    getSubscriptionStatus t (Some uid) w1 = (inr st, w1)
    /\ (t < e -> isSubscribed st = true)
    /\ (e <= t ->
        (forall d, In d (subscriptions w) -> verifyFilter uid sid d = false ->
                   entitled t uid d = false) ->
        st = mkStatus false None None
        /\ exists i d,
             findOne (verifyFilter uid sid) (subscriptions w1) = Some (i, d)
             /\ status d = active /\ isTier (tier d) = true).
Proof.
  intros G Pay Exp L1 Rg Tr Adm w1.
  pose proof Adm as [Cnt _].
  assert (S1 := @verifyAndSaveSubscription_store E t1 uid pkg sid tok w p e
                  G Pay Exp L1 Rg
                  (@upsertError_admitted uid sid tok e _ Adm)).
  fold w1 in S1.
  apply getSubscriptionTier_isTier in Tr.
  set (f := verifyFilter uid sid) in *.
  set (tr := getSubscriptionTier sid) in *.
  assert (exists i d1,
            findOne f (subscriptions w1) = Some (i, d1)
            /\ userId d1 = uid /\ status d1 = active
            /\ expiryDate d1 = Some e /\ tier d1 = tr
            /\ ((forall d, In d (subscriptions w) -> f d = false ->
                           entitled t uid d = false) ->
                forall x, In x (subscriptions w1) ->
                          x = d1 \/ entitled t uid x = false))
    as (i & d1 & F1 & U1 & St1 & Ex1 & Tr1 & All).
  { destruct (findOne f (subscriptions w)) as [[i d]|] eqn:F0.
    - exists i, (verifyUpdate t1 uid sid tok tr (Some e) d).
      rewrite S1. split; [|repeat split].
      + apply findOne_save with (d := d); [exact F0|].
        apply verifyFilter_refl; reflexivity.
      + intros Others x I. apply In_save in I.
        destruct I as [I|(j & J & N)]; [left; exact I|]. right.
        destruct (f x) eqn:Fx.
        * exfalso. apply J.
          eapply first_match_is_only_match; eauto.
        * apply Others; [eapply nth_error_In; eauto | exact Fx].
    - exists (length (subscriptions w)), (verifyInsert t1 uid sid tok tr (Some e)).
      rewrite S1. split; [|repeat split].
      + apply findOne_app_None; [exact F0|].
        apply verifyFilter_refl; reflexivity.
      + intros Others x I. apply in_app_or in I. destruct I as [I|[I|[]]].
        * right. apply Others; [exact I|].
          eapply findOne_None_all; eauto.
        * left. symmetry; exact I. }
  rewrite getSubscriptionStatus_run. eexists. split; [reflexivity|]. split.
  - intros Lt.
    assert (En : entitled t uid d1 = true)
      by (apply entitled_spec; split; [exact U1|]; split; [exact St1|];
          exists e; auto).
    apply findOne_nth in F1. destruct F1 as [F1 _]. apply nth_error_In in F1.
    destruct (findOne_In (entitled t uid) _ d1 F1 En) as (k & x & H).
    rewrite H. reflexivity.
  - intros Le Others. split.
    + destruct (findOne (entitled t uid) (subscriptions w1)) as [[k x]|] eqn:H;
        [|reflexivity].
      exfalso. apply findOne_nth in H. destruct H as [H En].
      apply nth_error_In in H.
      destruct (All Others x H) as [->|N]; [|congruence].
      apply entitled_spec in En. destruct En as (_ & _ & e' & X & L).
      rewrite Ex1 in X. inversion X; subst. lia.
    + exists i, d1. rewrite Tr1. repeat split; assumption.
Qed.

Lemma verified_subscription_entitles_until_expiry_witness :
  let w1 := snd (verifyAndSaveSubscription (Sample.env (Sample.paid 5000)) 1000
                   (mkVerifyRequest (Some "alice")
                      (mkVerifyBody "com.kanvas" "gold" "tok-1"))
                   (Sample.world [])) in
  getSubscriptionStatus 6000 (Some "alice") w1
  = (inr (mkStatus false None None), w1).
Proof.
  intros w1.
  destruct (@verified_subscription_entitles_until_expiry
              (Sample.env (Sample.paid 5000)) 1000 6000 "alice" "com.kanvas"
              "gold" "tok-1" (Sample.world []) (mkPlay (Some 1) (Some 5000))
              5000 eq_refl eq_refl eq_refl eq_refl ltac:(discriminate) eq_refl
              (conj (le_S _ _ (le_n 0))
                    (fun d (I : In d []) _ => match I with end)))
    as (st & R & _ & Late).
  fold w1 in R. rewrite R.
  destruct (Late ltac:(lia) (fun d (I : In d []) => match I with end))
    as [-> _].
  reflexivity.
Defined.

(** ** The webhook handlers that verify again *)

Ltac confirmed_event P T F V run_lemma p e :=
  rewrite handleSubscriptionWebhook_run with (1 := P);
  unfold dispatchNotification;
  rewrite T; cbn [String.eqb Ascii.eqb Bool.eqb orb];
  rewrite run_lemma;
  rewrite reverifying_confirmed with (1 := F) (p := p) (e := e) by assumption;
  rewrite Subscription_save_run; cbv beta; cbn [vr_expiryDate];
  rewrite ?passesValidation_set_autoRenewing;
  rewrite passesValidation_set_expiryDate
    by (rewrite ?passesValidation_set_status; exact V);
  reflexivity.

(** X8: a PURCHASED or RENEWED event that the provider confirms, for a
    stored subscription that passes the validators of the schema, sets the
    first document with that subscriptionId to status active, the
    provider's expiryDate and autoRenewing true, whatever its status was
    (a cancelled or expired one becomes active again); no other field
    changes, the provider is asked once and the answer is 200. *)
Theorem purchased_and_renewed_events_activate E now encoded d w i s p e :
  parseEnvelope E encoded = Some d ->
  notificationType d = "SUBSCRIPTION_PURCHASED"
  \/ notificationType d = "SUBSCRIPTION_RENEWED" ->
  findOne (bySubscriptionId (wd_subscriptionId d)) (subscriptions w)
    = Some (i, s) ->
  passesValidation s = true ->
  subscriptionsGet E (wd_packageName d) (wd_subscriptionId d)
    (wd_purchaseToken d) = ApiResolves (Some p) ->
  play_paymentState p = Some 1 ->
  play_expiryTimeMillis p = Some e ->
  now < e ->
  Z.abs e <= maxTime ->
  let s' := set_autoRenewing true (set_expiryDate (Some e) (set_status active s)) in
  handleSubscriptionWebhook E now (Some encoded) w
    = (inr (mkResponse 200 (Text "OK")),
       stored (logged w [EvVerify (wd_packageName d) (wd_subscriptionId d)
                           (wd_purchaseToken d)])
         (save i s' (subscriptions w)))
  /\ nth_error (save i s' (subscriptions w)) i = Some s'
  /\ (status s', expiryDate s', autoRenewing s') = (active, Some e, true)
  /\ unassignedByWebhook s' = unassignedByWebhook s.
Proof.
  intros P T F V G Pay Exp Lt Rg s'. split; [|split; [|split; reflexivity]].
  - destruct T as [T|T];
      confirmed_event P T F V handleSubscriptionRenewal_run p e.
  - apply findOne_nth in F. destruct F as [F _].
    apply save_nth_same with (x := s); exact F.
Qed.

Lemma purchased_and_renewed_events_activate_witness :
  map status
    (subscriptions
       (snd (handleSubscriptionWebhook (Sample.env (Sample.paid 5000)) 1000
               (Some "SUBSCRIPTION_RENEWED")
               (Sample.world
                  [Sample.full "alice" "gold" "tok-0" "GPA.1" cancelled]))))
  = [active].
Proof.
  rewrite (proj1 (@purchased_and_renewed_events_activate
                    (Sample.env (Sample.paid 5000)) 1000 "SUBSCRIPTION_RENEWED"
                    (Sample.event "SUBSCRIPTION_RENEWED")
                    (Sample.world
                       [Sample.full "alice" "gold" "tok-0" "GPA.1" cancelled])
                    0%nat (Sample.full "alice" "gold" "tok-0" "GPA.1" cancelled)
                    (mkPlay (Some 1) (Some 5000)) 5000
                    eq_refl (or_intror eq_refl) eq_refl eq_refl eq_refl
                    eq_refl eq_refl eq_refl ltac:(discriminate))).
  reflexivity.
Defined.

(** X9: a RECOVERED or RESTARTED event that the provider confirms, for a
    stored subscription that passes the validators of the schema, sets
    status active and the provider's expiryDate and leaves autoRenewing,
    like every other field, as it was. *)
Theorem recovered_and_restarted_events_activate E now encoded d w i s p e :
  parseEnvelope E encoded = Some d ->
  notificationType d = "SUBSCRIPTION_RECOVERED"
  \/ notificationType d = "SUBSCRIPTION_RESTARTED" ->
  findOne (bySubscriptionId (wd_subscriptionId d)) (subscriptions w)
    = Some (i, s) ->
  passesValidation s = true ->
  subscriptionsGet E (wd_packageName d) (wd_subscriptionId d)
    (wd_purchaseToken d) = ApiResolves (Some p) ->
  play_paymentState p = Some 1 ->
  play_expiryTimeMillis p = Some e ->
  now < e ->
  Z.abs e <= maxTime ->
  let s' := set_expiryDate (Some e) (set_status active s) in
  handleSubscriptionWebhook E now (Some encoded) w
    = (inr (mkResponse 200 (Text "OK")),
       stored (logged w [EvVerify (wd_packageName d) (wd_subscriptionId d)
                           (wd_purchaseToken d)])
         (save i s' (subscriptions w)))
  /\ nth_error (save i s' (subscriptions w)) i = Some s'
  /\ (status s', expiryDate s') = (active, Some e)
  /\ autoRenewing s' = autoRenewing s
  /\ unassignedByWebhook s' = unassignedByWebhook s.
Proof.
  intros P T F V G Pay Exp Lt Rg s'. split; [|split; [|repeat split]].
  - destruct T as [T|T];
      [confirmed_event P T F V handleSubscriptionRecovery_run p e
      |confirmed_event P T F V handleSubscriptionRestart_run p e].
  - apply findOne_nth in F. destruct F as [F _].
    apply save_nth_same with (x := s); exact F.
Qed.

Lemma recovered_and_restarted_events_activate_witness :
  map (fun d => (status d, autoRenewing d))
    (subscriptions
       (snd (handleSubscriptionWebhook (Sample.env (Sample.paid 5000)) 1000
               (Some "SUBSCRIPTION_RECOVERED")
               (Sample.world
                  [set_autoRenewing false
                     (Sample.full "alice" "gold" "tok-0" "GPA.1" expired)]))))
  = [(active, false)].
Proof.
  rewrite (proj1 (@recovered_and_restarted_events_activate
                    (Sample.env (Sample.paid 5000)) 1000
                    "SUBSCRIPTION_RECOVERED"
                    (Sample.event "SUBSCRIPTION_RECOVERED")
                    (Sample.world
                       [set_autoRenewing false
                          (Sample.full "alice" "gold" "tok-0" "GPA.1" expired)])
                    0%nat
                    (set_autoRenewing false
                       (Sample.full "alice" "gold" "tok-0" "GPA.1" expired))
                    (mkPlay (Some 1) (Some 5000)) 5000
                    eq_refl (or_introl eq_refl) eq_refl eq_refl eq_refl
                    eq_refl eq_refl eq_refl ltac:(discriminate))).
  reflexivity.
Defined.

(** X10: a PRORATED or DEFERRED event that the provider confirms, for a
    stored subscription that passes the validators of the schema, stores
    the provider's expiryDate and nothing else: status and autoRenewing
    stay, so a paused or cancelled subscription is not activated. *)
Theorem prorated_and_deferred_events_move_expiry_only E now encoded d w i s p e :
  parseEnvelope E encoded = Some d ->
  notificationType d = "SUBSCRIPTION_PRORATED"
  \/ notificationType d = "SUBSCRIPTION_DEFERRED" ->
  findOne (bySubscriptionId (wd_subscriptionId d)) (subscriptions w)
    = Some (i, s) ->
  passesValidation s = true ->
  subscriptionsGet E (wd_packageName d) (wd_subscriptionId d)
    (wd_purchaseToken d) = ApiResolves (Some p) ->
  play_paymentState p = Some 1 ->
  play_expiryTimeMillis p = Some e ->
  now < e ->
  Z.abs e <= maxTime ->
  let s' := set_expiryDate (Some e) s in
  handleSubscriptionWebhook E now (Some encoded) w
    = (inr (mkResponse 200 (Text "OK")),
       stored (logged w [EvVerify (wd_packageName d) (wd_subscriptionId d)
                           (wd_purchaseToken d)])
         (save i s' (subscriptions w)))
  /\ nth_error (save i s' (subscriptions w)) i = Some s'
  /\ expiryDate s' = Some e
  /\ (status s', autoRenewing s') = (status s, autoRenewing s)
  /\ unassignedByWebhook s' = unassignedByWebhook s.
Proof.
  intros P T F V G Pay Exp Lt Rg s'. split; [|split; [|repeat split]].
  - destruct T as [T|T];
      [confirmed_event P T F V handleSubscriptionProration_run p e
      |confirmed_event P T F V handleSubscriptionDeferral_run p e].
  - apply findOne_nth in F. destruct F as [F _].
    apply save_nth_same with (x := s); exact F.
Qed.

Lemma prorated_and_deferred_events_move_expiry_only_witness :
  map (fun d => (status d, expiryDate d))
    (subscriptions
       (snd (handleSubscriptionWebhook (Sample.env (Sample.paid 5000)) 1000
               (Some "SUBSCRIPTION_DEFERRED")
               (Sample.world
                  [Sample.full "alice" "gold" "tok-0" "GPA.1" paused]))))
  = [(paused, Some 5000)].
Proof.
  rewrite (proj1 (@prorated_and_deferred_events_move_expiry_only
                    (Sample.env (Sample.paid 5000)) 1000
                    "SUBSCRIPTION_DEFERRED"
                    (Sample.event "SUBSCRIPTION_DEFERRED")
                    (Sample.world
                       [Sample.full "alice" "gold" "tok-0" "GPA.1" paused])
                    0%nat (Sample.full "alice" "gold" "tok-0" "GPA.1" paused)
                    (mkPlay (Some 1) (Some 5000)) 5000
                    eq_refl (or_intror eq_refl) eq_refl eq_refl eq_refl
                    eq_refl eq_refl eq_refl ltac:(discriminate))).
  reflexivity.
Defined.

(** X11: when the provider answers a re-verification with a subscription
    that is not valid (payment not completed, or expiry not in the
    future), the event changes no document, whatever its type; the world
    gains the trace entry of the provider call and the answer is 200. *)
Theorem unconfirmed_event_changes_nothing E now encoded d w i s r w' :
  parseEnvelope E encoded = Some d ->
  reverifies (notificationType d) = true ->
  findOne (bySubscriptionId (wd_subscriptionId d)) (subscriptions w)
    = Some (i, s) ->
  verifySubscription E now (wd_packageName d) (wd_subscriptionId d)
    (wd_purchaseToken d) w = (inr r, w') ->
  isValid r = false ->
  handleSubscriptionWebhook E now (Some encoded) w
    = (inr (mkResponse 200 (Text "OK")), w')
  /\ w' = logged w [EvVerify (wd_packageName d) (wd_subscriptionId d)
                      (wd_purchaseToken d)].
Proof.
  intros P R F V Inv. split.
  - rewrite handleSubscriptionWebhook_run with (1 := P).
    destruct (dispatchNotification_reverifies E now d w R) as (update & D & _).
    rewrite D.
    rewrite reverifying_unconfirmed with (1 := F) (2 := V) (3 := Inv).
    reflexivity.
  - pose proof (verifySubscription_frame E now (wd_packageName d)
                  (wd_subscriptionId d) (wd_purchaseToken d) w) as Fr.
    rewrite V in Fr. exact Fr.
Qed.

Lemma unconfirmed_event_changes_nothing_witness :
  let w := Sample.world [Sample.sub "alice" "gold" "tok-0" expired] in
  subscriptions
    (snd (handleSubscriptionWebhook (Sample.env (Sample.paid 500)) 1000
            (Some "SUBSCRIPTION_RENEWED") w))
  = subscriptions w.
Proof.
  intros w.
  rewrite (proj1 (@unconfirmed_event_changes_nothing
                    (Sample.env (Sample.paid 500)) 1000 "SUBSCRIPTION_RENEWED"
                    (Sample.event "SUBSCRIPTION_RENEWED") w 0%nat
                    (Sample.sub "alice" "gold" "tok-0" expired)
                    (mkVerification false basic (Some 500))
                    (logged w [EvVerify "com.kanvas" "gold" "tok-1"])
                    eq_refl eq_refl eq_refl eq_refl eq_refl)).
  reflexivity.
Defined.

(** X12: a webhook delivery, whatever it carries and however it ends,
    changes at most one Subscription document, the first one with the
    subscriptionId of the event; in that document it changes status,
    expiryDate and autoRenewing at most, never the owner, the purchase
    token, the tier or the start date; preferences and device tokens are
    not touched. *)
Theorem webhook_changes_one_document_at_most E now message_data w :
  let w' := snd (handleSubscriptionWebhook E now message_data w) in
  preferences w' = preferences w
  /\ deviceTokens w' = deviceTokens w
  /\ map unassignedByWebhook (subscriptions w')
     = map unassignedByWebhook (subscriptions w)
  /\ exists i,
       (forall j, j <> i ->
          nth_error (subscriptions w') j = nth_error (subscriptions w) j)
       /\ (subscriptions w' <> subscriptions w ->
           exists d s,
             option_map (parseEnvelope E) message_data = Some (Some d)
             /\ findOne (bySubscriptionId (wd_subscriptionId d))
                  (subscriptions w) = Some (i, s)).
Proof.
  cbv zeta.
  assert (Same : forall w1,
             preferences w1 = preferences w ->
             deviceTokens w1 = deviceTokens w ->
             subscriptions w1 = subscriptions w ->
             preferences w1 = preferences w
             /\ deviceTokens w1 = deviceTokens w
             /\ map unassignedByWebhook (subscriptions w1)
                = map unassignedByWebhook (subscriptions w)
             /\ exists i,
                  (forall j, j <> i ->
                     nth_error (subscriptions w1) j
                     = nth_error (subscriptions w) j)
                  /\ (subscriptions w1 <> subscriptions w ->
                      exists d s,
                        option_map (parseEnvelope E) message_data = Some (Some d)
                        /\ findOne (bySubscriptionId (wd_subscriptionId d))
                             (subscriptions w) = Some (i, s))).
  { intros w1 P T S. rewrite S. repeat split; auto.
    exists 0%nat. split; [reflexivity | intros C; contradiction]. }
  destruct message_data as [encoded|]; [|apply Same; reflexivity].
  destruct (parseEnvelope E encoded) as [d|] eqn:P.
  - rewrite handleSubscriptionWebhook_run with (1 := P).
    pose proof (dispatchNotification_writes E now d w) as W. cbv zeta in W.
    destruct (dispatchNotification E now d w) as [[e|[]] w1];
      cbn [snd] in *; destruct W as (Pr & Tk & [S|(i & s & s' & F & U & S)]);
      try (apply Same; assumption).
    all: cbn [preferences deviceTokens subscriptions logged].
    all: split; [exact Pr|]; split; [exact Tk|]; rewrite S; split;
      [apply map_save with (x := s);
       [apply findOne_nth in F; tauto | exact U]|].
    all: exists i; split; [intros j J; apply save_nth_other; exact J|].
    all: intros _; exists d, s; cbn [option_map]; rewrite P; auto.
  - unfold handleSubscriptionWebhook, tryCatch, bind, ret, throw, emit.
    rewrite P. apply Same; reflexivity.
Qed.

Lemma webhook_changes_one_document_at_most_witness :
  let w := Sample.world [Sample.full "bob" "gold" "tok-0" "GPA.1" active;
                         Sample.full "alice" "gold" "tok-1" "GPA.2" active] in
  nth_error
    (subscriptions
       (snd (handleSubscriptionWebhook (Sample.env ApiRejects) 0
               (Some "SUBSCRIPTION_EXPIRED") w))) 1
  = Some (Sample.full "alice" "gold" "tok-1" "GPA.2" active).
Proof.
  intros w.
  destruct (@webhook_changes_one_document_at_most (Sample.env ApiRejects) 0
              (Some "SUBSCRIPTION_EXPIRED") w)
    as (_ & _ & _ & i & Other & Which).
  destruct (Which ltac:(discriminate)) as (d & s & P & F).
  inversion P; subst d. inversion F; subst i.
  rewrite (Other 1%nat ltac:(discriminate)). reflexivity.
Defined.

(** * Device tokens *)

Lemma NoDup_map_inj {A B} (g : A -> B) l a b :
  NoDup (map g l) -> In a l -> In b l -> g a = g b -> a = b.
Proof.
  induction l as [|x r IH]; simpl; intros N Ia Ib G; [contradiction|].
  inversion N as [|? ? Nx Nr]; subst.
  destruct Ia as [->|Ia], Ib as [->|Ib]; auto.
  - exfalso. apply Nx. rewrite G. apply in_map; exact Ib.
  - exfalso. apply Nx. rewrite <- G. apply in_map; exact Ia.
Qed.

Lemma In_save_same {A} i (d : A) l x :
  nth_error l i = Some x -> In d (save i d l).
Proof.
  intros N. eapply nth_error_In. eapply save_nth_same; eauto.
Qed.

Lemma In_save_other {A} i (d : A) l x y :
  nth_error l i = Some x -> In y l -> y <> x -> In y (save i d l).
Proof.
  intros N I Ne. apply In_nth_error in I. destruct I as [j J].
  assert (j <> i) by (intros ->; congruence).
  eapply nth_error_In. rewrite save_nth_other; eauto.
Qed.



Lemma unregisterDeviceToken_run uid tok w :
  DeviceTokens.unregisterDeviceToken (Some uid) tok w =
  match findOne (DeviceTokens.byTokenAndUser tok uid) (deviceTokens w) with
  | None => (inl (CustomError "Device token not found" 404), w)
  | Some (i, d) =>
      (inr "Device token unregistered successfully",
       mkWorld (subscriptions w) (preferences w)
         (save i (DeviceTokens.deactivate d) (deviceTokens w)) (trace w))
  end.
Proof.
  unfold DeviceTokens.unregisterDeviceToken, getDeviceTokens, putDeviceTokens, tryCatch,
    bind, ret, throw, rethrowCustom.
  destruct (findOne (DeviceTokens.byTokenAndUser tok uid) (deviceTokens w)) as [[i d]|];
    reflexivity.
Qed.

Lemma activeTokensOf_In uid w tok :
  In tok (map token (activeTokensOf uid w)) <->
  exists d, In d (deviceTokens w) /\ dt_userId d = uid
            /\ isActive d = true /\ token d = tok.
Proof.
  unfold activeTokensOf. rewrite in_map_iff. split.
  - intros (d & T & I). apply filter_In in I. destruct I as [I C].
    apply andb_true_iff in C. destruct C as [U A].
    apply String.eqb_eq in U. eauto.
  - intros (d & I & U & A & T). exists d. split; [exact T|].
    apply filter_In. split; [exact I|].
    rewrite U, String.eqb_refl, A. reflexivity.
Qed.



Lemma byTokenAndUser_spec tok uid d :
  DeviceTokens.byTokenAndUser tok uid d = true
  <-> token d = tok /\ dt_userId d = uid.
Proof.
  unfold DeviceTokens.byTokenAndUser.
  rewrite andb_true_iff, !String.eqb_eq. tauto.
Qed.

(** X14: unregistering answers 404 'Device token not found' and changes
    nothing exactly when the collection has no document with that token
    owned by the caller (so nobody can unregister somebody else's token).
    Otherwise it switches isActive off in that document and deletes
    nothing; the token is then among nobody's active tokens, the active
    tokens of every other token value are as before, and a second
    unregistration succeeds again and leaves the collection as it is,
    because the lookup does not look at isActive. *)
Theorem unregister_deactivates_own_token uid tok w :
  uniqueTokens w ->
  let r := DeviceTokens.unregisterDeviceToken (Some uid) tok w in
  (r = (inl (CustomError "Device token not found" 404), w)
   <-> ~ exists d, In d (deviceTokens w) /\ token d = tok /\ dt_userId d = uid)
  /\ ((exists d, In d (deviceTokens w) /\ token d = tok /\ dt_userId d = uid) ->
      fst r = inr "Device token unregistered successfully"
      /\ uniqueTokens (snd r)
      /\ map (fun d => (dt_userId d, token d, deviceType d, deviceId d, lastUsed d))
           (deviceTokens (snd r))
         = map (fun d => (dt_userId d, token d, deviceType d, deviceId d, lastUsed d))
             (deviceTokens w)
      /\ (forall u, ~ In tok (map token (activeTokensOf u (snd r))))
      /\ (forall u t, t <> tok ->
            (In t (map token (activeTokensOf u (snd r)))
             <-> In t (map token (activeTokensOf u w))))
      /\ DeviceTokens.unregisterDeviceToken (Some uid) tok (snd r)
         = (inr "Device token unregistered successfully", snd r)).
Proof.
  intros N r. unfold r. rewrite unregisterDeviceToken_run.
  destruct (findOne (DeviceTokens.byTokenAndUser tok uid) (deviceTokens w))
    as [[i d0]|] eqn:F.
  - pose proof (findOne_nth _ _ F) as [Nth B].
    apply byTokenAndUser_spec in B. destruct B as [T0 U0].
    pose proof (nth_error_In _ _ Nth) as I0.
    split.
    { split; [discriminate|]. intros No. exfalso. apply No. eauto. }
    intros _. cbn [fst snd]. unfold uniqueTokens in *. cbn [deviceTokens].
    set (l' := save i (DeviceTokens.deactivate d0) (deviceTokens w)).
    assert (Uq : NoDup (map token l'))
      by (unfold l'; rewrite map_save with (x := d0); auto).
    assert (Only : forall d, In d l' -> token d = tok ->
                             d = DeviceTokens.deactivate d0).
    { intros d I T. eapply NoDup_map_inj with (g := token) (l := l'); eauto.
      - unfold l'. eapply In_save_same; eauto.
      - simpl. congruence. }
    split; [reflexivity|]. split; [exact Uq|].
    split; [unfold l'; apply map_save with (x := d0); auto|].
    split.
    { intros u I. apply activeTokensOf_In in I.
      destruct I as (d & I & _ & A & T). cbn [deviceTokens] in I.
      apply Only in I; [|exact T]. subst d. discriminate A. }
    split.
    { intros u t Ne. rewrite !activeTokensOf_In. cbn [deviceTokens].
      split; intros (d & I & U & A & T); exists d; repeat split; auto.
      - apply In_save in I. destruct I as [->|(j & _ & J)].
        + discriminate A.
        + eapply nth_error_In; eauto.
      - eapply In_save_other; eauto. intros ->. congruence. }
    rewrite unregisterDeviceToken_run. cbn [deviceTokens]. unfold l'.
    rewrite findOne_save with (1 := F)
      by (apply byTokenAndUser_spec; simpl; auto).
    cbn [subscriptions preferences trace].
    rewrite save_unchanged; [reflexivity|].
    eapply save_nth_same; eauto.
  - pose proof (findOne_None_all _ _ F) as None0.
    split.
    { split; [|reflexivity]. intros _ (d & I & T & U).
      pose proof (None0 d I) as B.
      assert (DeviceTokens.byTokenAndUser tok uid d = true)
        by (apply byTokenAndUser_spec; auto).
      congruence. }
    intros (d & I & T & U). exfalso.
    pose proof (None0 d I) as B.
    assert (DeviceTokens.byTokenAndUser tok uid d = true)
      by (apply byTokenAndUser_spec; auto).
    congruence.
Qed.

Lemma unregister_deactivates_own_token_witness :
  let w := Sample.notifyWorld [] [Sample.phone "bob" "tk1" true] in
  DeviceTokens.unregisterDeviceToken (Some "alice") "tk1" w
  = (inl (CustomError "Device token not found" 404), w).
Proof.
  intros w.
  assert (U : uniqueTokens w)
    by (unfold uniqueTokens; simpl; constructor; [intros []|constructor]).
  apply (proj1 (@unregister_deactivates_own_token "alice" "tk1" w U)).
  intros (d & [<-|[]] & _ & Own). discriminate Own.
Defined.

(** * What is pushed, and to whom *)

Lemma pushes_app a b : pushes (a ++ b) = (pushes a ++ pushes b)%list.
Proof. unfold pushes. apply flat_map_app. Qed.

Lemma pushes_gateLog uid type g : pushes (gateLog uid type g) = [].
Proof. destruct g; reflexivity. Qed.

(** The pushes of one call of the service method. *)
Lemma sendNotificationToUser_pushes E now uid title body type data options w :
  let w' := snd (sendNotificationToUser E now uid title body type data options w) in
  subscriptions w' = subscriptions w
  /\ preferences w' = preferences w
  /\ deviceTokens w' = deviceTokens w
  /\ pushes (trace w')
     = (pushes (trace w)
          ++ match suppressedBy E now uid type w with
             | Some _ => []
             | None =>
                 [multicastMessage (map token (activeTokensOf uid w)) title body
                    data options]
             end)%list.
Proof.
  cbv zeta. rewrite sendNotificationToUser_run.
  destruct (suppressedBy E now uid type w) as [g|].
  - cbn [snd logged subscriptions preferences deviceTokens trace].
    rewrite pushes_app, pushes_gateLog. auto.
  - cbv zeta. destruct (sendEachForMulticast E _);
      cbn [snd logged subscriptions preferences deviceTokens trace];
      rewrite pushes_app; auto.
Qed.

Lemma suppressedBy_None_tokens E now uid type w :
  suppressedBy E now uid type w = None -> activeTokensOf uid w <> [].
Proof.
  unfold suppressedBy. destruct (preferencesOf uid w) as [p|]; [|discriminate].
  destruct (negb (switchOf p type)); [discriminate|].
  destruct (enabled (quietHours p) && isWithinQuietHours E now (quietHours p));
    [discriminate|].
  destruct (activeTokensOf uid w); [discriminate|discriminate].
Qed.

(** X15: one call of the service method reads the three collections
    without changing them and pushes at most once: nothing when a gate
    closes, otherwise one multicast that carries the title, body and data
    of the call and lists, in the order of the collection, the tokens of
    exactly the documents that belong to the user and are active; that
    list is never empty. *)
Theorem one_call_pushes_once_to_the_active_tokens
  E now uid title0 body0 type data0 options w :
  let w' := snd (sendNotificationToUser E now uid title0 body0 type data0
                   options w) in
  subscriptions w' = subscriptions w
  /\ preferences w' = preferences w
  /\ deviceTokens w' = deviceTokens w
  /\ exists sent,
       pushes (trace w') = (pushes (trace w) ++ sent)%list
       /\ (sent = [] <-> suppressedBy E now uid type w <> None)
       /\ (length sent <= 1)%nat
       /\ forall m, In m sent ->
            (title m, body m, data m) = (title0, body0, data0)
            /\ tokens m = map token (activeTokensOf uid w)
            /\ tokens m <> []
            /\ forall tok,
                 In tok (tokens m) <->
                 exists d, In d (deviceTokens w) /\ dt_userId d = uid
                           /\ isActive d = true /\ token d = tok.
Proof.
  cbv zeta.
  destruct (sendNotificationToUser_pushes E now uid title0 body0 type data0
              options w) as (S & P & T & Pu).
  split; [exact S|]. split; [exact P|]. split; [exact T|].
  eexists. split; [exact Pu|].
  destruct (suppressedBy E now uid type w) as [g|] eqn:G.
  - split; [split; [discriminate | reflexivity]|].
    split; [simpl; lia|]. intros m [].
  - split; [split; [discriminate | intros C; contradiction]|].
    split; [simpl; lia|].
    intros m [<-|[]]. split; [reflexivity|]. split; [reflexivity|].
    split.
    + cbn [tokens multicastMessage].
      pose proof (suppressedBy_None_tokens _ _ _ _ _ G) as Ne.
      destruct (activeTokensOf uid w); [contradiction | discriminate].
    + intros tok. apply activeTokensOf_In.
Qed.

Lemma one_call_pushes_once_to_the_active_tokens_witness :
  let w := Sample.notifyWorld [Sample.prefs "alice" false Sample.noQuiet]
             [Sample.phone "alice" "tk1" true; Sample.phone "alice" "tk2" false;
              Sample.phone "bob" "tk3" true; Sample.phone "alice" "tk4" true] in
  exists sent,
    pushes (trace (snd (sendNotificationToUser (Sample.env ApiRejects) 0 "alice"
                          "New" "wallpapers" NewWallpapers None None w)))
    = sent
    /\ forall m, In m sent -> tokens m = ["tk1"; "tk4"].
Proof.
  intros w.
  destruct (@one_call_pushes_once_to_the_active_tokens (Sample.env ApiRejects) 0
              "alice" "New" "wallpapers" NewWallpapers None None w)
    as (_ & _ & _ & sent & Pu & _ & _ & All).
  exists sent. split; [exact Pu|].
  intros m I. destruct (All m I) as (_ & T & _). exact T.
Defined.

Lemma DeviceTokens_sendNotificationToUser_run E uid title body data w :
  DeviceTokens.sendNotificationToUser E uid title body data w =
  match activeTokensOf uid w with
  | [] => (inr None, w)
  | _ :: _ =>
      let message :=
        multicastMessage (map token (activeTokensOf uid w)) title body data
          None in
      match sendEachForMulticast E message with
      | Some r => (inr (Some r), logged w [EvPush message])
      | None =>
          (inr None,
           logged w [EvPush message;
                     EvLog "Error sending multicast notification:";
                     EvLog "Error sending notification to user:"])
      end
  end.
Proof.
  unfold DeviceTokens.sendNotificationToUser, DeviceToken_find,
    sendMulticastNotification, activeTokensOf, tryCatch, bind, ret, throw, emit.
  destruct (filter _ (deviceTokens w)) as [|t ts] eqn:Toks; [reflexivity|].
  cbn [length Nat.eqb].
  destruct (sendEachForMulticast E _); cbn; unfold logged; cbn;
    rewrite <- ?app_assoc; reflexivity.
Qed.

(** X16: the helper of the device-token controller consults no
    preference: it returns null without a push exactly when the user has
    no active token, and otherwise pushes to all active tokens of the
    user, also where the service method would have been stopped by a
    switch or by quiet hours.  Where the service method is not stopped
    and gets no options, both do the same. *)
Theorem controller_helper_skips_the_gates E now uid title0 body0 type data0 w :
  (activeTokensOf uid w = [] ->
   DeviceTokens.sendNotificationToUser E uid title0 body0 data0 w
   = (inr None, w))
  /\ (activeTokensOf uid w <> [] ->
      pushes (trace (snd (DeviceTokens.sendNotificationToUser E uid title0
                            body0 data0 w)))
      = (pushes (trace w)
           ++ [multicastMessage (map token (activeTokensOf uid w)) title0
                 body0 data0 None])%list
      /\ fst (DeviceTokens.sendNotificationToUser E uid title0 body0 data0 w)
         = inr (sendEachForMulticast E
                  (multicastMessage (map token (activeTokensOf uid w)) title0
                     body0 data0 None)))
  /\ (suppressedBy E now uid type w = None ->
      sendNotificationToUser E now uid title0 body0 type data0 None w
      = DeviceTokens.sendNotificationToUser E uid title0 body0 data0 w).
Proof.
  rewrite DeviceTokens_sendNotificationToUser_run. split; [|split].
  - intros ->. reflexivity.
  - intros Ne. destruct (activeTokensOf uid w) as [|t ts] eqn:A;
      [contradiction|]. cbv zeta.
    destruct (sendEachForMulticast E _); cbn [fst snd logged trace];
      rewrite pushes_app; auto.
  - intros G. rewrite sendNotificationToUser_run, G.
    pose proof (suppressedBy_None_tokens _ _ _ _ _ G) as Ne.
    destruct (activeTokensOf uid w); [contradiction | reflexivity].
Qed.

Lemma controller_helper_skips_the_gates_witness :
  let w := Sample.notifyWorld [Sample.prefs "alice" false Sample.noQuiet]
             [Sample.phone "alice" "tk1" true] in
  suppressedBy (Sample.env ApiRejects) 0 "alice" MarketingUpdates w
    = Some SwitchOff
  /\ pushes (trace (snd (DeviceTokens.sendNotificationToUser
                           (Sample.env ApiRejects) "alice" "Sale" "now" None w)))
     = [multicastMessage ["tk1"] "Sale" "now" None None].
Proof.
  intros w. split; [reflexivity|].
  refine (proj1 (proj1 (proj2 (@controller_helper_skips_the_gates
                                 (Sample.env ApiRejects) 0 "alice" "Sale" "now"
                                 MarketingUpdates None w)) _)).
  discriminate.
Defined.


Lemma unregistered_token_is_inactive uid tok w i d0 :
  uniqueTokens w ->
  findOne (DeviceTokens.byTokenAndUser tok uid) (deviceTokens w) = Some (i, d0) ->
  forall u,
    ~ In tok
        (map token
           (activeTokensOf u
              (mkWorld (subscriptions w) (preferences w)
                 (save i (DeviceTokens.deactivate d0) (deviceTokens w))
                 (trace w)))).
Proof.
  unfold uniqueTokens. intros N F u I.
  pose proof (findOne_nth _ _ F) as [Nth B].
  apply byTokenAndUser_spec in B. destruct B as [T0 U0].
  apply activeTokensOf_In in I. destruct I as (d & I & _ & A & T).
  cbn [deviceTokens] in I.
  assert (d = DeviceTokens.deactivate d0).
  { eapply NoDup_map_inj with (g := token); [| exact I | |].
    - rewrite map_save with (x := d0); auto.
    - eapply In_save_same; eauto.
    - simpl. congruence. }
  subst d. discriminate A.
Qed.

(** X17: a token that its owner has unregistered is not pushed to any
    more: after a successful unregistration, no later call of the service
    method or of the controller helper, for whatever user, category and
    clock, puts that token into a multicast. *)
Theorem unregistered_token_gets_no_push
  E uid tok w now u title0 body0 type data0 options :
  uniqueTokens w ->
  fst (DeviceTokens.unregisterDeviceToken (Some uid) tok w)
    = inr "Device token unregistered successfully" ->
  let w1 := snd (DeviceTokens.unregisterDeviceToken (Some uid) tok w) in
  (forall m,
     In m (pushes (trace (snd (sendNotificationToUser E now u title0 body0 type
                                 data0 options w1)))) ->
     In m (pushes (trace w)) \/ ~ In tok (tokens m))
  /\ (forall m,
        In m (pushes (trace (snd (DeviceTokens.sendNotificationToUser E u title0
                                    body0 data0 w1)))) ->
        In m (pushes (trace w)) \/ ~ In tok (tokens m)).
Proof.
  intros N Ok w1. unfold w1. clear w1.
  rewrite unregisterDeviceToken_run in *.
  destruct (findOne (DeviceTokens.byTokenAndUser tok uid) (deviceTokens w))
    as [[i d0]|] eqn:F; [|discriminate Ok].
  cbn [snd]. pose proof (@unregistered_token_is_inactive uid tok w i d0 N F u) as Off.
  set (w1 := mkWorld _ _ _ _) in *.
  split; intros m I.
  - destruct (sendNotificationToUser_pushes E now u title0 body0 type data0
                options w1) as (_ & _ & _ & Pu).
    rewrite Pu in I. apply in_app_or in I. destruct I as [I|I]; [left; exact I|].
    right. destruct (suppressedBy E now u type w1); [contradiction|].
    destruct I as [<-|[]]. exact Off.
  - rewrite DeviceTokens_sendNotificationToUser_run in I.
    destruct (activeTokensOf u w1) as [|t ts] eqn:A; [left; exact I|].
    cbv zeta in I.
    destruct (sendEachForMulticast E _); cbn [snd logged trace] in I;
      rewrite pushes_app in I; apply in_app_or in I;
      (destruct I as [I|[<-|[]]]; [left; exact I | right; exact Off]).
Qed.

Lemma unregistered_token_gets_no_push_witness :
  let w := Sample.notifyWorld [Sample.prefs "alice" false Sample.noQuiet]
             [Sample.phone "alice" "tk1" true; Sample.phone "alice" "tk2" true] in
  let w1 := snd (DeviceTokens.unregisterDeviceToken (Some "alice") "tk1" w) in
  pushes (trace (snd (sendNotificationToUser (Sample.env ApiRejects) 0 "alice"
                        "New" "wallpapers" NewWallpapers None None w1)))
  = [multicastMessage ["tk2"] "New" "wallpapers" None None]
  /\ ~ In "tk1" (tokens (multicastMessage ["tk2"] "New" "wallpapers" None None)).
Proof.
  intros w w1. split; [reflexivity|].
  assert (U : uniqueTokens w).
  { unfold uniqueTokens; simpl. repeat constructor; simpl; intuition discriminate. }
  destruct (proj1 (@unregistered_token_gets_no_push (Sample.env ApiRejects)
                     "alice" "tk1" w 0 "alice" "New" "wallpapers" NewWallpapers
                     None None U eq_refl)
              (multicastMessage ["tk2"] "New" "wallpapers" None None)
              (or_introl eq_refl)) as [[]|No].
  exact No.
Defined.



(** * Notification preferences *)

Lemma findOne_save_other {A} (f : A -> bool) l i d d' :
  nth_error l i = Some d -> f d = false -> f d' = false ->
  findOne f (save i d' l) = findOne f l.
Proof.
  revert i; induction l as [|x r IH]; intros [|i] N Fd Fd'; simpl in *;
    try discriminate.
  - inversion N; subst. rewrite Fd, Fd'. reflexivity.
  - destruct (f x); [reflexivity|]. rewrite (IH i); auto.
Qed.

Lemma findOne_app_other {A} (f : A -> bool) l d' :
  f d' = false -> findOne f (l ++ [d']) = findOne f l.
Proof.
  intros Fd'. induction l as [|x r IH]; simpl.
  - rewrite Fd'. reflexivity.
  - destruct (f x); [reflexivity|]. rewrite IH. reflexivity.
Qed.

Lemma preferencesOf_byUser uid w :
  preferencesOf uid w
  = option_map snd (findOne (Preferences.byUser uid) (preferences w)).
Proof. reflexivity. Qed.

(** The upsert of the two update controllers. *)
Lemma findOneAndUpdate_upsert_run uid update w :
  Preferences.findOneAndUpdate_upsert uid update w =
  (inr (update (preferencesOrDefaults uid w)),
   mkWorld (subscriptions w)
     match findOne (Preferences.byUser uid) (preferences w) with
     | Some (i, _) =>
         save i (update (preferencesOrDefaults uid w)) (preferences w)
     | None => (preferences w ++ [update (preferencesOrDefaults uid w)])%list
     end
     (deviceTokens w) (trace w)).
Proof.
  unfold Preferences.findOneAndUpdate_upsert, preferencesOrDefaults,
    getPreferences, putPreferences, bind, ret.
  rewrite preferencesOf_byUser.
  destruct (findOne (Preferences.byUser uid) (preferences w)) as [[i p]|];
    reflexivity.
Qed.

(** What an upsert that keeps the userId leaves behind. *)
Lemma upsert_lookup uid update w :
  (forall p, np_userId (update p) = np_userId p) ->
  let w' := snd (Preferences.findOneAndUpdate_upsert uid update w) in
  preferencesOf uid w' = Some (update (preferencesOrDefaults uid w))
  /\ (forall u, u <> uid -> preferencesOf u w' = preferencesOf u w)
  /\ (uniqueUsers w -> uniqueUsers w')
  /\ subscriptions w' = subscriptions w
  /\ deviceTokens w' = deviceTokens w
  /\ trace w' = trace w.
Proof.
  intros K. cbv zeta. rewrite findOneAndUpdate_upsert_run. cbn [snd].
  rewrite !preferencesOf_byUser. unfold uniqueUsers.
  cbn [preferences subscriptions deviceTokens trace].
  set (p' := update (preferencesOrDefaults uid w)).
  assert (Kp : np_userId (preferencesOrDefaults uid w) = uid).
  { unfold preferencesOrDefaults. rewrite preferencesOf_byUser.
    destruct (findOne (Preferences.byUser uid) (preferences w)) as [[i p]|] eqn:F;
      [|reflexivity].
    apply findOne_nth in F. destruct F as [_ B].
    apply String.eqb_eq in B. exact B. }
  assert (Mine : Preferences.byUser uid p' = true).
  { unfold Preferences.byUser, p'. rewrite K, Kp. apply String.eqb_refl. }
  assert (NotTheirs : forall u, u <> uid -> Preferences.byUser u p' = false).
  { intros u Ne. unfold Preferences.byUser, p'. rewrite K, Kp.
    apply String.eqb_neq. congruence. }
  destruct (findOne (Preferences.byUser uid) (preferences w)) as [[i p]|] eqn:F.
  - pose proof (findOne_nth _ _ F) as [Nth B].
    apply String.eqb_eq in B.
    split;
      [rewrite (@findOne_save _ (Preferences.byUser uid) (preferences w) i p p'
                  F Mine); reflexivity|].
    split.
    { intros u Ne. rewrite !preferencesOf_byUser. cbn [preferences].
      rewrite findOne_save_other with (d := p); auto.
      apply String.eqb_neq. congruence. }
    split; [|auto].
    intros N. rewrite map_save with (x := p); auto.
    unfold p'. rewrite K, Kp. symmetry; exact B.
  - split; [rewrite findOne_app_None; auto|].
    split; [intros u Ne; rewrite !preferencesOf_byUser; cbn [preferences];
            rewrite findOne_app_other; auto|].
    split; [|auto].
    intros N. rewrite map_app. apply NoDup_snoc; [exact N|]. simpl.
    intros I. apply in_map_iff in I. destruct I as (q & Q & I).
    pose proof (findOne_None_all _ _ F q I) as B.
    unfold Preferences.byUser in B. unfold p' in Q.
    rewrite K, Kp in Q. rewrite Q, String.eqb_refl in B. discriminate.
Qed.

Lemma getNotificationPreferences_run uid w :
  Preferences.getNotificationPreferences (Some uid) w =
  (inr (preferencesOrDefaults uid w),
   match preferencesOf uid w with
   | Some _ => w
   | None =>
       mkWorld (subscriptions w)
         (preferences w ++ [Preferences.defaults uid])%list
         (deviceTokens w) (trace w)
   end).
Proof.
  unfold Preferences.getNotificationPreferences, preferencesOrDefaults,
    getPreferences, putPreferences, tryCatch, bind, ret.
  rewrite preferencesOf_byUser.
  destruct (findOne (Preferences.byUser uid) (preferences w)) as [[i p]|];
    reflexivity.
Qed.

(** X19: the preferences endpoint creates the document of a user once.
    It answers with the stored preferences, or with the schema defaults
    when there are none and then stores them; a second read returns the
    same data and changes nothing; the preferences of other users are
    never touched and no second document for a user appears. *)
Theorem preferences_are_created_once uid w :
  let r := Preferences.getNotificationPreferences (Some uid) w in
  fst r = inr (preferencesOrDefaults uid w)
  /\ preferencesOf uid (snd r) = Some (preferencesOrDefaults uid w)
  /\ Preferences.getNotificationPreferences (Some uid) (snd r)
     = (fst r, snd r)
  /\ (preferencesOf uid w <> None -> snd r = w)
  /\ (forall u, u <> uid -> preferencesOf u (snd r) = preferencesOf u w)
  /\ (uniqueUsers w -> uniqueUsers (snd r)).
Proof.
  cbv zeta. rewrite getNotificationPreferences_run. cbn [fst snd].
  destruct (preferencesOf uid w) as [p|] eqn:P.
  - assert (D : preferencesOrDefaults uid w = p)
      by (unfold preferencesOrDefaults; rewrite P; reflexivity).
    rewrite D.
    split; [reflexivity|]. split; [exact P|].
    split; [rewrite getNotificationPreferences_run, P, D; reflexivity|].
    repeat split; auto.
  - assert (D : preferencesOrDefaults uid w = Preferences.defaults uid)
      by (unfold preferencesOrDefaults; rewrite P; reflexivity).
    rewrite D.
    rewrite preferencesOf_byUser in P.
    destruct (findOne (Preferences.byUser uid) (preferences w)) as [[i q]|] eqn:F;
      [discriminate|].
    set (w1 := mkWorld (subscriptions w)
                 (preferences w ++ [Preferences.defaults uid])%list
                 (deviceTokens w) (trace w)).
    assert (After : preferencesOf uid w1 = Some (Preferences.defaults uid)).
    { rewrite preferencesOf_byUser. cbn [preferences w1].
      rewrite findOne_app_None; auto. apply String.eqb_refl. }
    split; [reflexivity|]. split; [exact After|].
    split.
    { rewrite getNotificationPreferences_run, After.
      unfold preferencesOrDefaults. rewrite After. reflexivity. }
    split; [intros C; contradiction|]. split.
    + intros u Ne. rewrite !preferencesOf_byUser. cbn [preferences w1].
      rewrite findOne_app_other; [reflexivity|].
      apply String.eqb_neq. simpl. congruence.
    + unfold uniqueUsers. cbn [preferences w1]. intros N.
      rewrite map_app. apply NoDup_snoc; [exact N|]. simpl.
      intros I. apply in_map_iff in I. destruct I as (q & Q & I).
      pose proof (findOne_None_all _ _ F q I) as B.
      unfold Preferences.byUser in B. rewrite Q, String.eqb_refl in B.
      discriminate.
Qed.

Lemma preferences_are_created_once_witness :
  let w := Sample.notifyWorld [Sample.prefs "alice" true Sample.night] [] in
  snd (Preferences.getNotificationPreferences (Some "alice") w) = w.
Proof.
  intros w.
  apply (proj1 (proj2 (proj2 (proj2 (@preferences_are_created_once "alice" w))))).
  discriminate.
Defined.

Lemma suppressedBy_with E t uid type w p :
  preferencesOf uid w = Some p ->
  suppressedBy E t uid type w =
  if negb (switchOf p type) then Some SwitchOff
  else if enabled (quietHours p) && isWithinQuietHours E t (quietHours p)
  then Some InQuietHours
  else match activeTokensOf uid w with
       | [] => Some NoActiveTokens
       | _ :: _ => None
       end.
Proof. intros P. unfold suppressedBy. rewrite P. reflexivity. Qed.

(** X20: a user without a preferences document gets no notification of
    any category; the first read of the preferences endpoint creates the
    defaults, and from then on every category but marketing passes the
    preference gates at every hour (quiet hours are off by default) and
    is only stopped for want of an active token, while marketing is
    stopped by its switch. *)
Theorem defaults_let_all_but_marketing_through E t uid type w :
  preferencesOf uid w = None ->
  let w1 := snd (Preferences.getNotificationPreferences (Some uid) w) in
  suppressedBy E t uid type w = Some NoPreferences
  /\ suppressedBy E t uid type w1
     = match type with
       | MarketingUpdates => Some SwitchOff
       | _ => match activeTokensOf uid w with
              | [] => Some NoActiveTokens
              | _ :: _ => None
              end
       end.
Proof.
  intros P. cbv zeta. split.
  - unfold suppressedBy. rewrite P. reflexivity.
  - rewrite getNotificationPreferences_run, P. cbn [snd].
    set (w1 := mkWorld _ _ _ _).
    assert (After : preferencesOf uid w1 = Some (Preferences.defaults uid)).
    { rewrite preferencesOf_byUser in *. cbn [preferences w1].
      destruct (findOne (Preferences.byUser uid) (preferences w)) as [[i q]|] eqn:F;
        [discriminate|].
      rewrite findOne_app_None; auto. apply String.eqb_refl. }
    rewrite suppressedBy_with with (p := Preferences.defaults uid) by exact After.
    destruct type; reflexivity.
Qed.

Lemma defaults_let_all_but_marketing_through_witness :
  let w := Sample.notifyWorld [] [Sample.phone "alice" "tk1" true] in
  suppressedBy (Sample.env ApiRejects) 0 "alice" NewWallpapers
    (snd (Preferences.getNotificationPreferences (Some "alice") w))
  = None.
Proof.
  intros w.
  exact (proj2 (@defaults_let_all_but_marketing_through (Sample.env ApiRejects)
                  0 "alice" NewWallpapers w eq_refl)).
Defined.

Lemma updateQuietHours_run uid q w :
  Preferences.updateQuietHours (Some uid) q w =
  (inr q,
   snd (Preferences.findOneAndUpdate_upsert uid (Preferences.setQuietHours q) w)).
Proof.
  unfold Preferences.updateQuietHours, tryCatch, bind, ret.
  rewrite findOneAndUpdate_upsert_run. reflexivity.
Qed.

Lemma updateNotificationPreferences_run uid u w :
  Preferences.updateNotificationPreferences (Some uid) u w =
  Preferences.findOneAndUpdate_upsert uid (Preferences.setSwitches u) w.
Proof.
  unfold Preferences.updateNotificationPreferences, tryCatch.
  rewrite findOneAndUpdate_upsert_run. reflexivity.
Qed.

(** X21: updating the quiet hours answers with the new window and stores
    it in the caller's preferences, created from the defaults when there
    were none; the five category switches stay as they were, other users'
    preferences are untouched and no second document appears.  From then
    on a category whose switch is on is stopped by quiet hours exactly
    when the new window is enabled and the clock is inside it. *)
Theorem quiet_hours_update_replaces_the_window uid q w :
  let r := Preferences.updateQuietHours (Some uid) q w in
  let p0 := preferencesOrDefaults uid w in
  exists p',
    fst r = inr q
    /\ preferencesOf uid (snd r) = Some p'
    /\ quietHours p' = q
    /\ (forall type, switchOf p' type = switchOf p0 type)
    /\ (forall u, u <> uid -> preferencesOf u (snd r) = preferencesOf u w)
    /\ (uniqueUsers w -> uniqueUsers (snd r))
    /\ (forall E t type,
          switchOf p0 type = true ->
          suppressedBy E t uid type (snd r)
          = if enabled q && isWithinQuietHours E t q then Some InQuietHours
            else match activeTokensOf uid w with
                 | [] => Some NoActiveTokens
                 | _ :: _ => None
                 end).
Proof.
  cbv zeta. rewrite updateQuietHours_run. cbn [fst snd].
  destruct (@upsert_lookup uid (Preferences.setQuietHours q) w
              (fun p => eq_refl)) as (L & O & U & _ & T & _).
  exists (Preferences.setQuietHours q (preferencesOrDefaults uid w)).
  split; [reflexivity|]. split; [exact L|]. split; [reflexivity|].
  split; [intros []; reflexivity|]. split; [exact O|]. split; [exact U|].
  intros E t type Sw.
  rewrite suppressedBy_with with (1 := L).
  replace (switchOf (Preferences.setQuietHours q (preferencesOrDefaults uid w)) type)
    with (switchOf (preferencesOrDefaults uid w) type)
    by (destruct type; reflexivity).
  rewrite Sw. cbn [negb quietHours Preferences.setQuietHours].
  unfold activeTokensOf. rewrite T. reflexivity.
Qed.

Lemma quiet_hours_update_replaces_the_window_witness :
  let w := Sample.notifyWorld [Sample.prefs "alice" false Sample.noQuiet]
             [Sample.phone "alice" "tk1" true] in
  suppressedBy (Sample.env ApiRejects)
    (19000 * msPerDay + 23 * msPerHour) "alice" NewWallpapers
    (snd (Preferences.updateQuietHours (Some "alice") Sample.night w))
  = Some InQuietHours.
Proof.
  intros w.
  destruct (@quiet_hours_update_replaces_the_window "alice" Sample.night w)
    as (p' & _ & _ & _ & _ & _ & _ & S).
  rewrite (S (Sample.env ApiRejects) (19000 * msPerDay + 23 * msPerHour)
             NewWallpapers eq_refl).
  reflexivity.
Defined.

(** X22: updating the switches is a partial merge: a switch that the body
    names takes the value given, every other switch and the quiet hours
    keep their value (the defaults, when the user had no document);
    other users' preferences are untouched.  A category switched off by
    the update is stopped by its switch from then on, at every hour and
    whatever the tokens. *)
Theorem switch_update_is_a_partial_merge uid u w :
  let r := Preferences.updateNotificationPreferences (Some uid) u w in
  let p0 := preferencesOrDefaults uid w in
  exists p',
    fst r = inr p'
    /\ preferencesOf uid (snd r) = Some p'
    /\ (forall type,
          switchOf p' type = match updateFor u type with
                             | Some b => b
                             | None => switchOf p0 type
                             end)
    /\ quietHours p' = quietHours p0
    /\ (forall v, v <> uid -> preferencesOf v (snd r) = preferencesOf v w)
    /\ (uniqueUsers w -> uniqueUsers (snd r))
    /\ (forall E t type,
          updateFor u type = Some false ->
          suppressedBy E t uid type (snd r) = Some SwitchOff).
Proof.
  cbv zeta. rewrite updateNotificationPreferences_run.
  destruct (@upsert_lookup uid (Preferences.setSwitches u) w
              (fun p => eq_refl)) as (L & O & U & _).
  rewrite findOneAndUpdate_upsert_run in *. cbn [fst snd] in *.
  exists (Preferences.setSwitches u (preferencesOrDefaults uid w)).
  assert (Sw : forall type,
             switchOf (Preferences.setSwitches u (preferencesOrDefaults uid w))
               type
             = match updateFor u type with
               | Some b => b
               | None => switchOf (preferencesOrDefaults uid w) type
               end).
  { intros []; cbn [switchOf Preferences.setSwitches updateFor newWallpapers
                      trendingWallpapers subscriptionUpdates systemUpdates
                      marketingUpdates];
      unfold Preferences.orKeep;
      match goal with |- context [match ?x with _ => _ end] => destruct x end;
      reflexivity. }
  split; [reflexivity|]. split; [exact L|]. split; [exact Sw|].
  split; [reflexivity|]. split; [exact O|]. split; [exact U|].
  intros E t type Off.
  rewrite suppressedBy_with with (1 := L). rewrite Sw, Off. reflexivity.
Qed.

Lemma switch_update_is_a_partial_merge_witness :
  let w := Sample.notifyWorld [Sample.prefs "alice" true Sample.night]
             [Sample.phone "alice" "tk1" true] in
  suppressedBy (Sample.env ApiRejects) 0 "alice" MarketingUpdates
    (snd (Preferences.updateNotificationPreferences (Some "alice")
            (Preferences.mkUpdates None None None None (Some false)) w))
  = Some SwitchOff.
Proof.
  intros w.
  destruct (@switch_update_is_a_partial_merge "alice"
              (Preferences.mkUpdates None None None None (Some false)) w)
    as (p' & _ & _ & _ & _ & _ & _ & S).
  exact (S (Sample.env ApiRejects) 0 MarketingUpdates eq_refl).
Defined.

(** * Clock strings and the quiet-hours window *)






(** X24: isWithinQuietHours fails open.  When the zone is unknown to the
    zone table, or a clock string has no colon and so no minute part, the
    dates it builds are invalid and it answers false whatever the clock,
    so quiet hours stop nothing. *)
Theorem unreadable_quiet_hours_stop_nothing E now q :
  zoneOffset E (timezone q) now = None
  \/ length (split_colon (startTime q)) = 1%nat
  \/ length (split_colon (endTime q)) = 1%nat ->
  isWithinQuietHours E now q = false
  /\ forall uid type w p,
       preferencesOf uid w = Some p -> quietHours p = q ->
       suppressedBy E now uid type w <> Some InQuietHours.
Proof.
  intros H0.
  assert (H : zoneOffset E (timezone q) now = None
              \/ snd (destructure2 (map Number (split_colon (startTime q))))
                 = None
              \/ snd (destructure2 (map Number (split_colon (endTime q))))
                 = None).
  { destruct H0 as [H0|[H0|H0]]; [left; exact H0 | right; left | right; right];
      destruct (split_colon _) as [|x [|y r]]; try discriminate H0;
      reflexivity. }
  clear H0.
  assert (Out : isWithinQuietHours E now q = false).
  { unfold isWithinQuietHours, toZonedTime.
    destruct (enabled q); [|reflexivity]. cbn [negb].
    destruct (destructure2 (map Number (split_colon (startTime q))))
      as [a b].
    destruct (destructure2 (map Number (split_colon (endTime q))))
      as [c d].
    cbn [fst snd] in H.
    destruct (zoneOffset E (timezone q) now) as [off|];
      destruct a, b, c, d; cbn [setHours date_lt date_ge date_le addOneDay];
      try reflexivity;
      try (destruct H as [H|[H|H]]; discriminate H).
    all: try (destruct (_ <? _); cbn; rewrite ?andb_false_r; reflexivity).
    all: apply andb_false_r. }
  split; [exact Out|].
  intros uid type w p P Q. rewrite suppressedBy_with with (1 := P).
  rewrite Q, Out, andb_false_r.
  destruct (negb (switchOf p type)); [discriminate|].
  destruct (activeTokensOf uid w); discriminate.
Qed.

Lemma unreadable_quiet_hours_stop_nothing_witness :
  isWithinQuietHours (Sample.env ApiRejects) (23 * msPerHour)
    (mkQuietHours true "22:00" "08:00" "Mars/Olympus") = false.
Proof.
  exact (proj1 (@unreadable_quiet_hours_stop_nothing (Sample.env ApiRejects)
                  (23 * msPerHour)
                  (mkQuietHours true "22:00" "08:00" "Mars/Olympus")
                  (or_introl eq_refl))).
Defined.

Lemma inRange_spec lo hi c :
  inRange lo hi c = true ->
  (nat_of_ascii lo <= nat_of_ascii c <= nat_of_ascii hi)%nat.
Proof.
  unfold inRange. rewrite andb_true_iff, !Nat.leb_le. tauto.
Qed.

Lemma digit_of_range c :
  (48 <= nat_of_ascii c <= 57)%nat ->
  digitValue c = Some (Z.of_nat (nat_of_ascii c) - 48)
  /\ (c =? ":")%char = false.
Proof.
  intros R. split.
  - unfold digitValue.
    replace (48 <=? Z.of_nat (nat_of_ascii c)) with true
      by (symmetry; apply Z.leb_le; lia).
    replace (Z.of_nat (nat_of_ascii c) <=? 57) with true
      by (symmetry; apply Z.leb_le; lia).
    reflexivity.
  - apply Ascii.eqb_neq. intros ->. cbn in R. lia.
Qed.

Lemma matchesMinutes_spec r :
  matchesMinutes r = true ->
  exists m1 m2,
    r = String ":" (String m1 (String m2 EmptyString))
    /\ inRange "0" "5" m1 = true /\ inRange "0" "9" m2 = true.
Proof.
  destruct r as [|c [|m1 [|m2 [|x r]]]]; simpl; try discriminate.
  rewrite !andb_true_iff. intros [[C M1] M2].
  apply Ascii.eqb_eq in C. subst c. eauto.
Qed.

(** Reading a clock string of one or two hour digits and two minute
    digits. *)
Lemma read_clock (hs : string) m1 m2 h d1 d2 :
  Number hs = Some h ->
  split_colon hs = [hs] ->
  digitValue m1 = Some d1 -> (m1 =? ":")%char = false ->
  digitValue m2 = Some d2 -> (m2 =? ":")%char = false ->
  destructure2
    (map Number
       (split_colon (hs ++ String ":" (String m1 (String m2 EmptyString)))))
  = (Some h, Some (10 * d1 + d2)).
Proof.
  intros H Hs D1 C1 D2 C2.
  assert (Sp : split_colon
                 (hs ++ String ":" (String m1 (String m2 EmptyString)))
               = [hs; String m1 (String m2 EmptyString)]).
  { clear H. induction hs as [|c r IH]; simpl in *.
    - rewrite C1, C2. reflexivity.
    - destruct (c =? ":")%char; [discriminate Hs|].
      destruct (split_colon r) as [|x xs] eqn:R.
      + exfalso. destruct r; simpl in R; [discriminate|].
        destruct (_ =? _)%char; [discriminate|].
        destruct (split_colon r); discriminate.
      + inversion Hs; subst. rewrite IH by reflexivity. reflexivity. }
  rewrite Sp. cbn [map destructure2]. rewrite H. f_equal. f_equal.
  unfold Number. simpl. rewrite D1, D2. reflexivity.
Qed.

(** X25: every clock string that the time pattern of the validations
    admits is readable by isWithinQuietHours: it splits into an hour from
    0 to 23 and a minute from 0 to 59. *)
Theorem validated_clock_strings_are_readable s :
  timeRegex s = true ->
  exists h m,
    destructure2 (map Number (split_colon s)) = (Some h, Some m)
    /\ 0 <= h <= 23 /\ 0 <= m <= 59.
Proof.
  destruct s as [|a r]; [discriminate|]. cbn [timeRegex].
  intros H. apply orb_true_iff in H.
  assert (Min : forall m1 m2,
             inRange "0" "5" m1 = true -> inRange "0" "9" m2 = true ->
             exists d1 d2,
               digitValue m1 = Some d1 /\ (m1 =? ":")%char = false
               /\ digitValue m2 = Some d2 /\ (m2 =? ":")%char = false
               /\ 0 <= 10 * d1 + d2 <= 59).
  { intros m1 m2 R1 R2. apply inRange_spec in R1. apply inRange_spec in R2.
    cbn in R1, R2.
    destruct (digit_of_range m1) as [D1 C1]; [lia|].
    destruct (digit_of_range m2) as [D2 C2]; [lia|].
    eexists; eexists. repeat split; eauto; lia. }
  destruct H as [H|H].
  - apply andb_true_iff in H. destruct H as [A M].
    apply matchesMinutes_spec in M. destruct M as (m1 & m2 & -> & R1 & R2).
    destruct (Min m1 m2 R1 R2) as (d1 & d2 & D1 & C1 & D2 & C2 & B).
    apply inRange_spec in A. cbn in A.
    destruct (digit_of_range a) as [Da Ca]; [lia|].
    exists (Z.of_nat (nat_of_ascii a) - 48), (10 * d1 + d2).
    split; [|lia].
    apply (@read_clock (String a EmptyString)); auto.
    + unfold Number. simpl. rewrite Da. reflexivity.
    + simpl. rewrite Ca. reflexivity.
  - destruct r as [|b r']; [discriminate|].
    apply orb_true_iff in H. destruct H as [H|H];
      apply andb_true_iff in H; destruct H as [H M];
      apply andb_true_iff in H; destruct H as [A B0];
      apply matchesMinutes_spec in M; destruct M as (m1 & m2 & -> & R1 & R2);
      destruct (Min m1 m2 R1 R2) as (d1 & d2 & D1 & C1 & D2 & C2 & Bm);
      apply inRange_spec in B0; cbn in B0;
      (destruct (digit_of_range b) as [Db Cb]; [lia|]).
    + apply inRange_spec in A. cbn in A.
      destruct (digit_of_range a) as [Da Ca]; [lia|].
      exists (10 * (Z.of_nat (nat_of_ascii a) - 48)
              + (Z.of_nat (nat_of_ascii b) - 48)), (10 * d1 + d2).
      split; [|lia].
      apply (@read_clock (String a (String b EmptyString))); auto.
      * unfold Number. simpl. rewrite Da, Db. reflexivity.
      * simpl. rewrite Ca, Cb. reflexivity.
    + apply Ascii.eqb_eq in A. subst a.
      exists (20 + (Z.of_nat (nat_of_ascii b) - 48)), (10 * d1 + d2).
      split; [|lia].
      apply (@read_clock (String "2" (String b EmptyString))); auto.
      * unfold Number. simpl. rewrite Db. reflexivity.
      * simpl. rewrite Cb. reflexivity.
Qed.

Lemma validated_clock_strings_are_readable_witness :
  exists h m,
    destructure2 (map Number (split_colon "8:05")) = (Some h, Some m)
    /\ 0 <= h <= 23 /\ 0 <= m <= 59.
Proof.
  exact (@validated_clock_strings_are_readable "8:05" eq_refl).
Defined.

(** The clock strings of all hours and minutes, by computation. *)
Lemma clock_table :
  forallb
    (fun h =>
       forallb
         (fun m =>
            let s := (padStart 2 "0" (toString (Z.of_nat h)) ++ ":"
                        ++ padStart 2 "0" (toString (Z.of_nat m)))%string in
            timeRegex s && (String.length s =? 5)%nat
            && match destructure2 (map Number (split_colon s)) with
               | (Some a, Some b) => (a =? Z.of_nat h) && (b =? Z.of_nat m)
               | _ => false
               end)
         (seq 0 60))
    (seq 0 24) = true.
Proof. vm_compute. reflexivity. Qed.

Lemma seconds_table :
  forallb
    (fun n =>
       let s := padStart 2 "0" (toString (Z.of_nat n)) in
       (String.length s =? 2)%nat
       && match Number s with
          | Some a => a =? Z.of_nat n
          | None => false
          end)
    (seq 0 60) = true.
Proof. vm_compute. reflexivity. Qed.

Lemma clock_fields u :
  0 <= getHours u < 24 /\ 0 <= getMinutes u < 60 /\ 0 <= getSeconds u < 60
  /\ getHours u * msPerHour + getMinutes u * msPerMinute <= timeOfDay u
     < getHours u * msPerHour + getMinutes u * msPerMinute + msPerMinute.
Proof.
  unfold getHours, getMinutes, getSeconds, timeOfDay.
  pose proof (Z.mod_pos_bound (u / msPerHour) 24 eq_refl).
  pose proof (Z.mod_pos_bound (u / msPerMinute) 60 eq_refl).
  pose proof (Z.mod_pos_bound (u / 1000) 60 eq_refl).
  repeat split; try lia.
  - pose proof (Z.div_mod u msPerHour ltac:(discriminate)).
    pose proof (Z.mod_pos_bound u msPerHour eq_refl).
    pose proof (Z.div_mod (u / msPerHour) 24 ltac:(discriminate)).
    pose proof (Z.div_mod u msPerMinute ltac:(discriminate)).
    pose proof (Z.mod_pos_bound u msPerMinute eq_refl).
    pose proof (Z.div_mod (u / msPerMinute) 60 ltac:(discriminate)).
    pose proof (Z.div_mod u msPerDay ltac:(discriminate)).
    pose proof (Z.mod_pos_bound u msPerDay eq_refl).
    unfold msPerDay, msPerHour, msPerMinute in *. lia.
  - pose proof (Z.div_mod u msPerHour ltac:(discriminate)).
    pose proof (Z.mod_pos_bound u msPerHour eq_refl).
    pose proof (Z.div_mod (u / msPerHour) 24 ltac:(discriminate)).
    pose proof (Z.div_mod u msPerMinute ltac:(discriminate)).
    pose proof (Z.mod_pos_bound u msPerMinute eq_refl).
    pose proof (Z.div_mod (u / msPerMinute) 60 ltac:(discriminate)).
    pose proof (Z.div_mod u msPerDay ltac:(discriminate)).
    pose proof (Z.mod_pos_bound u msPerDay eq_refl).
    unfold msPerDay, msPerHour, msPerMinute in *. lia.
Qed.

Lemma string_append_assoc (a b c : string) :
  ((a ++ b) ++ c = a ++ (b ++ c))%string.
Proof. induction a as [|x a IH]; simpl; [reflexivity | rewrite IH; reflexivity]. Qed.

Lemma table_entry (f : nat -> bool) (n : Z) bound :
  forallb f (seq 0 bound) = true -> 0 <= n < Z.of_nat bound ->
  f (Z.to_nat n) = true.
Proof.
  intros T B. rewrite forallb_forall in T. apply T.
  apply in_seq. lia.
Qed.

(** X26: formatTimeForTimezone writes the wall clock of the zone in the
    form that the validations admit and that isWithinQuietHours reads
    back.  For a known zone the 'HH:mm' string has five characters, is
    accepted by the time pattern and splits into the hour and the minute
    of the local time, which is the local time of day cut to the minute;
    the 'HH:mm:ss' string is the same string followed by a colon and the
    two digits of the seconds.  For an unknown zone the result is
    'NaN:NaN', which the time pattern rejects. *)
Theorem formatted_time_reads_back E t tz :
  (forall off,
     zoneOffset E tz t = Some off ->
     let u := t + off in
     let s := formatTimeForTimezone E (Some t) tz HHmm in
     timeRegex s = true
     /\ String.length s = 5%nat
     /\ destructure2 (map Number (split_colon s))
        = (Some (getHours u), Some (getMinutes u))
     /\ getHours u * msPerHour + getMinutes u * msPerMinute <= timeOfDay u
        < getHours u * msPerHour + getMinutes u * msPerMinute + msPerMinute
     /\ exists ss,
          formatTimeForTimezone E (Some t) tz HHmmss = (s ++ ":" ++ ss)%string
          /\ String.length ss = 2%nat
          /\ Number ss = Some (getSeconds u))
  /\ (zoneOffset E tz t = None ->
      formatTimeForTimezone E (Some t) tz HHmm = "NaN:NaN"
      /\ timeRegex "NaN:NaN" = false).
Proof.
  split.
  - intros off Z u s.
    destruct (clock_fields u) as (Bh & Bm & Bs & Tod).
    assert (Fh : field getHours (toZonedTime E t tz) = toString (getHours u))
      by (unfold toZonedTime; rewrite Z; reflexivity).
    assert (Fm : field getMinutes (toZonedTime E t tz) = toString (getMinutes u))
      by (unfold toZonedTime; rewrite Z; reflexivity).
    assert (Fs : field getSeconds (toZonedTime E t tz) = toString (getSeconds u))
      by (unfold toZonedTime; rewrite Z; reflexivity).
    pose proof (@table_entry _ (getHours u) 24 clock_table ltac:(simpl; lia)) as Th.
    cbv beta in Th.
    pose proof (@table_entry _ (getMinutes u) 60 Th ltac:(simpl; lia)) as Tm.
    cbv beta zeta in Tm. rewrite !Z2Nat.id in Tm by lia.
    pose proof (@table_entry _ (getSeconds u) 60 seconds_table
                  ltac:(simpl; lia)) as Ts.
    cbv beta zeta in Ts. rewrite !Z2Nat.id in Ts by lia.
    assert (S : s = (padStart 2 "0" (toString (getHours u)) ++ ":"
                       ++ padStart 2 "0" (toString (getMinutes u)))%string)
      by (unfold s, formatTimeForTimezone; rewrite Fh, Fm; reflexivity).
    rewrite <- S in Tm.
    apply andb_true_iff in Tm. destruct Tm as [Tm Rd].
    apply andb_true_iff in Tm. destruct Tm as [Rx Len].
    apply Nat.eqb_eq in Len.
    split; [exact Rx|]. split; [exact Len|]. split.
    { destruct (destructure2 (map Number (split_colon s))) as [[a|] [b|]];
        try discriminate.
      apply andb_true_iff in Rd. destruct Rd as [A B].
      apply Z.eqb_eq in A. apply Z.eqb_eq in B. congruence. }
    split; [exact Tod|].
    exists (padStart 2 "0" (toString (getSeconds u))).
    apply andb_true_iff in Ts. destruct Ts as [L2 N2].
    apply Nat.eqb_eq in L2.
    split; [|split; [exact L2|]].
    + unfold formatTimeForTimezone. rewrite Fh, Fm, Fs, S.
      rewrite !string_append_assoc. reflexivity.
    + destruct (Number _) as [a|]; [|discriminate].
      apply Z.eqb_eq in N2. congruence.
  - intros Z. split; [|reflexivity].
    unfold formatTimeForTimezone, toZonedTime. rewrite Z. reflexivity.
Qed.

Lemma formatted_time_reads_back_witness :
  timeRegex
    (formatTimeForTimezone (Sample.env ApiRejects)
       (Some (19000 * msPerDay + 7 * msPerHour + 5 * msPerMinute + 1234))
       "UTC" HHmm) = true.
Proof.
  exact (proj1 (proj1 (@formatted_time_reads_back (Sample.env ApiRejects)
                         (19000 * msPerDay + 7 * msPerHour + 5 * msPerMinute
                          + 1234) "UTC") 0 eq_refl)).
Defined.

(** * Remaining edges *)

(** X27: what verifySubscription calls valid.  When the provider returns
    a subscription resource, the service never throws; it reads a missing
    expiryTimeMillis as 0; the result is valid exactly when paymentState
    is 1 and that expiry is after the clock, so a resource without expiry
    is not valid at any clock from the epoch on; the expiry date is the
    Date of that number, invalid when the number is beyond the range of
    a Date.  The tier is premium for the premium product id; for an id
    that names a member of Object.prototype it is that member and no
    tier; it is basic for every other id. *)
Theorem verification_is_valid_when_paid_and_unexpired E now pkg sid tok w p :
  subscriptionsGet E pkg sid tok = ApiResolves (Some p) ->
  let expiry := match play_expiryTimeMillis p with
                | Some e => e
                | None => 0
                end in
  exists r,
    verifySubscription E now pkg sid tok w
    = (inr r, logged w [EvVerify pkg sid tok])
    /\ (isValid r = true <-> play_paymentState p = Some 1 /\ now < expiry)
    /\ vr_expiryDate r = newDate expiry
    /\ (play_expiryTimeMillis p = None -> 0 <= now -> isValid r = false)
    /\ (vr_tier r = premium <-> sid = "com.yourapp.subscription.premium")
    /\ (vr_tier r = basic <->
        sid <> "com.yourapp.subscription.premium"
        /\ objectPrototypeMember sid = false)
    /\ (forall m, vr_tier r = inherited m <->
                  m = sid /\ objectPrototypeMember sid = true)
    /\ (Z.abs expiry <= maxTime -> vr_expiryDate r = Some expiry)
    /\ (maxTime < Z.abs expiry -> vr_expiryDate r = None).
Proof.
  intros G expiry. rewrite verifySubscription_run, G.
  eexists. split; [reflexivity|].
  unfold verificationOf. cbn [isValid vr_expiryDate vr_tier]. fold expiry.
  assert (V : match play_paymentState p with
              | Some s => (s =? 1) && (now <? expiry)
              | None => false
              end = true
              <-> play_paymentState p = Some 1 /\ now < expiry).
  { destruct (play_paymentState p) as [s|];
      [|split; [discriminate | intros [C _]; discriminate]].
    rewrite andb_true_iff, Z.eqb_eq, Z.ltb_lt. split.
    - intros [-> L]. auto.
    - intros [S L]. inversion S. auto. }
  split; [exact V|]. split; [reflexivity|].
  split.
  { intros Miss L. apply not_true_is_false. intros B.
    apply V in B. destruct B as [_ B]. unfold expiry in B.
    rewrite Miss in B. lia. }
  assert (T : getSubscriptionTier sid
              = if (sid =? "com.yourapp.subscription.premium")%string
                then premium
                else if objectPrototypeMember sid then inherited sid
                     else basic).
  { unfold getSubscriptionTier.
    destruct (sid =? "com.yourapp.subscription.basic")%string eqn:B;
      [|reflexivity].
    apply String.eqb_eq in B. subst sid. reflexivity. }
  rewrite T.
  split; [|split; [|split; [|split]]].
  - destruct (sid =? "com.yourapp.subscription.premium")%string eqn:P.
    + apply String.eqb_eq in P. tauto.
    + apply String.eqb_neq in P.
      destruct (objectPrototypeMember sid);
        split; try discriminate; contradiction.
  - destruct (sid =? "com.yourapp.subscription.premium")%string eqn:P.
    + apply String.eqb_eq in P. split; [discriminate | tauto].
    + apply String.eqb_neq in P.
      destruct (objectPrototypeMember sid); split;
        try discriminate; try tauto.
      intros [_ C]; discriminate C.
  - intros m.
    destruct (sid =? "com.yourapp.subscription.premium")%string eqn:P.
    + apply String.eqb_eq in P. subst sid.
      split; [discriminate | intros [_ C]; discriminate C].
    + destruct (objectPrototypeMember sid); split.
      * intros H; inversion H; auto.
      * intros [-> _]; reflexivity.
      * discriminate.
      * intros [_ C]; discriminate C.
  - apply newDate_in_range.
  - intros Far. unfold newDate.
    destruct (Z.leb_spec (Z.abs expiry) maxTime); [lia | reflexivity].
Qed.

Lemma verification_is_valid_when_paid_and_unexpired_witness :
  exists r,
    verifySubscription
      (Sample.env (ApiResolves (Some (mkPlay (Some 1) None)))) 1000
      "com.kanvas" "gold" "tok-1" (Sample.world [])
    = (inr r, logged (Sample.world []) [EvVerify "com.kanvas" "gold" "tok-1"])
    /\ isValid r = false.
Proof.
  destruct (@verification_is_valid_when_paid_and_unexpired
              (Sample.env (ApiResolves (Some (mkPlay (Some 1) None)))) 1000
              "com.kanvas" "gold" "tok-1" (Sample.world [])
              (mkPlay (Some 1) None) eq_refl)
    as (r & R & _ & _ & Inv & _).
  exists r. split; [exact R|]. apply Inv; [reflexivity | lia].
Defined.

(** X28: the push message carries the options with these fallbacks.  A
    missing priority becomes high for Android but, unlike an explicit
    high, leaves apns-priority at '5'; only an explicit high gives '10'.
    A ttl that is missing or 0 sends no Android ttl and apns-expiration 0,
    any other ttl is sent in milliseconds to Android and in seconds to
    APNs.  A badge that is missing or 0 becomes 1, and a sound that is
    missing or empty becomes 'default' for APNs while Android gets the
    sound as given.  Tokens, title, body and data are taken as they are. *)
Theorem push_message_fallbacks tokens0 title0 body0 data0 options :
  let m := multicastMessage tokens0 title0 body0 data0 options in
  (tokens m, title m, body m, data m) = (tokens0, title0, body0, data0)
  /\ (android_priority m = normal <-> opt options priority = Some normal)
  /\ (android_notification_priority m
      = if match opt options priority with Some normal => true | _ => false end
        then ap_default else ap_high)
  /\ (apns_priority m = "10" <-> opt options priority = Some high)
  /\ (opt options priority = None ->
      android_priority m = high /\ apns_priority m = "5")
  /\ (forall n, opt options ttl = Some n -> n <> 0 ->
        android_ttl m = Some (n * 1000) /\ apns_expiration m = n)
  /\ (opt options ttl = None \/ opt options ttl = Some 0 ->
      android_ttl m = None /\ apns_expiration m = 0)
  /\ (apns_badge m = match opt options badge with
                     | Some 0 | None => 1
                     | Some n => n
                     end)
  /\ (apns_sound m = match opt options sound with
                     | Some EmptyString | None => "default"
                     | Some s => s
                     end)
  /\ android_sound m = opt options sound.
Proof.
  cbv zeta. unfold multicastMessage, orElse.
  cbn [tokens title body data android_priority android_notification_priority
         apns_priority android_ttl apns_expiration apns_badge apns_sound
         android_sound].
  split; [reflexivity|].
  split; [destruct (opt options priority) as [[]|]; split; intros H;
          try discriminate; reflexivity|].
  split; [destruct (opt options priority) as [[]|]; reflexivity|].
  split; [destruct (opt options priority) as [[]|]; split; intros H;
          try discriminate; reflexivity|].
  split; [intros ->; split; reflexivity|].
  split.
  { intros n -> Ne. apply Z.eqb_neq in Ne. rewrite Ne. split; reflexivity. }
  split; [intros [->| ->]; split; reflexivity|].
  split; [destruct (opt options badge) as [[| |]|]; reflexivity|].
  split; [|reflexivity].
  destruct (opt options sound) as [[|c s]|]; reflexivity.
Qed.

Lemma push_message_fallbacks_witness :
  let m := multicastMessage ["tk1"] "t" "b" None
             (Some (mkOptions None (Some 0) None (Some 0) (Some ""))) in
  android_priority m = high /\ apns_priority m = "5".
Proof.
  intros m.
  exact (proj1 (proj2 (proj2 (proj2 (proj2
           (@push_message_fallbacks ["tk1"] "t" "b" None
              (Some (mkOptions None (Some 0) None (Some 0) (Some ""))))))))
           eq_refl).
Defined.

(** * Writes that the store refuses *)

(** X29: doc.save() needs the fields that the schema requires, and verify
    writes none of orderId, paymentState, priceAmount, priceCurrency and
    countryCode.  So the document that verify inserts fails the
    validators; for a document that lacks one of those fields cancel
    throws 500 'Error cancelling subscription' and an EXPIRED, CANCELED
    or PAUSED event is answered 500, each time with the collections as
    they were.  For a document that passes the validators a PAUSED event
    stores status paused in the first document with the subscriptionId
    and changes no other field of it, with no provider call and the
    answer 200. *)
Theorem save_needs_the_required_fields E now :
  (forall uid sid tok t e,
     lacksRequiredField (verifyInsert now uid sid tok t e)
     /\ passesValidation (verifyInsert now uid sid tok t e) = false)
  /\ (forall uid w i s,
        findOne (activeOf uid) (subscriptions w) = Some (i, s) ->
        lacksRequiredField s ->
        cancelSubscription (Some uid) w
        = (inl (CustomError "Error cancelling subscription" 500), w))
  /\ (forall encoded d w i s,
        parseEnvelope E encoded = Some d ->
        notificationType d = "SUBSCRIPTION_EXPIRED"
        \/ notificationType d = "SUBSCRIPTION_CANCELED"
        \/ notificationType d = "SUBSCRIPTION_PAUSED" ->
        findOne (bySubscriptionId (wd_subscriptionId d)) (subscriptions w)
          = Some (i, s) ->
        lacksRequiredField s ->
        handleSubscriptionWebhook E now (Some encoded) w
        = (inr (mkResponse 500 (Text "Error processing webhook")),
           logged w [EvLog "Webhook error:"]))
  /\ (forall encoded d w i s,
        parseEnvelope E encoded = Some d ->
        notificationType d = "SUBSCRIPTION_PAUSED" ->
        findOne (bySubscriptionId (wd_subscriptionId d)) (subscriptions w)
          = Some (i, s) ->
        passesValidation s = true ->
        let s' := set_status paused s in
        handleSubscriptionWebhook E now (Some encoded) w
        = (inr (mkResponse 200 (Text "OK")),
           stored w (save i s' (subscriptions w)))
        /\ nth_error (save i s' (subscriptions w)) i = Some s'
        /\ (forall j, j <> i ->
              nth_error (save i s' (subscriptions w)) j
              = nth_error (subscriptions w) j)
        /\ status s' = paused
        /\ (expiryDate s', autoRenewing s') = (expiryDate s, autoRenewing s)
        /\ unassignedByWebhook s' = unassignedByWebhook s).
Proof.
  split; [|split; [|split]].
  - intros uid sid tok t e.
    assert (L : lacksRequiredField (verifyInsert now uid sid tok t e))
      by (left; reflexivity).
    split; [exact L | apply passesValidation_needs_fields; exact L].
  - intros uid w i s F L.
    rewrite cancelSubscription_run, F.
    rewrite passesValidation_needs_fields by exact L. reflexivity.
  - intros encoded d w i s P T F L.
    apply passesValidation_needs_fields in L.
    destruct T as [T|[T|T]].
    + rewrite handleSubscriptionWebhook_run with (d := d) by exact P.
      unfold dispatchNotification.
      rewrite T; cbn [String.eqb Ascii.eqb Bool.eqb orb].
      rewrite handleSubscriptionExpiry_run, F, Subscription_save_run.
      rewrite passesValidation_set_autoRenewing, passesValidation_set_status, L.
      reflexivity.
    + rewrite handleSubscriptionWebhook_run with (d := d) by exact P.
      unfold dispatchNotification.
      rewrite T; cbn [String.eqb Ascii.eqb Bool.eqb orb].
      rewrite handleSubscriptionExpiry_run, F, Subscription_save_run.
      rewrite passesValidation_set_autoRenewing, passesValidation_set_status, L.
      reflexivity.
    + rewrite paused_event_run with (1 := P) (2 := T) (3 := F).
      rewrite L. reflexivity.
  - intros encoded d w i s P T F V s'.
    split.
    { rewrite paused_event_run with (1 := P) (2 := T) (3 := F).
      rewrite V. reflexivity. }
    apply findOne_nth in F. destruct F as [F _].
    split; [apply save_nth_same with (x := s); exact F|].
    split; [intros j J; apply save_nth_other; exact J|].
    repeat split.
Qed.

Lemma save_needs_the_required_fields_witness :
  let E := Sample.env (Sample.paid 5000) in
  let w1 := snd (verifyAndSaveSubscription E 1000 Sample.request
                   (Sample.world [])) in
  cancelSubscription (Some "alice") w1
  = (inl (CustomError "Error cancelling subscription" 500), w1).
Proof.
  intros E w1.
  exact (proj1 (proj2 (save_needs_the_required_fields E 0))
           "alice" w1 0%nat
           (verifyInsert 1000 "alice" "gold" "tok-1" basic (Some 5000))
           eq_refl (or_introl eq_refl)).
Defined.

(** X30: the unique indexes refuse a second subscriber.  The document
    that verify inserts has no orderId, and the index on orderId is unique
    and not sparse; so when the caller has no document for the
    subscriptionId yet and some stored document has no orderId, or holds
    the purchase token, a verify request that the provider confirms ends
    in 500 'Error processing subscription': nothing is stored and the
    purchase is not acknowledged, the only provider call is the
    verification. *)
Theorem insert_is_refused_beside_a_document_without_orderId
  E now uid pkg sid tok w p e x :
  subscriptionsGet E pkg sid tok = ApiResolves (Some p) ->
  play_paymentState p = Some 1 ->
  play_expiryTimeMillis p = Some e ->
  now < e ->
  findOne (verifyFilter uid sid) (subscriptions w) = None ->
  In x (subscriptions w) ->
  orderId x = None \/ purchaseToken x = tok ->
  verifyAndSaveSubscription E now
    (mkVerifyRequest (Some uid) (mkVerifyBody pkg sid tok)) w
  = (inl (CustomError "Error processing subscription" 500),
     logged w [EvVerify pkg sid tok])
  /\ forall n uid0 sid0 tok0 t0 e0,
       orderId (verifyInsert n uid0 sid0 tok0 t0 e0) = None.
Proof.
  intros G Pay Exp Lt F I X. split; [|reflexivity].
  rewrite verifyAndSaveSubscription_run, verifySubscription_run, G.
  unfold verificationOf. rewrite Pay, Exp.
  replace (now <? e) with true by (symmetry; apply Z.ltb_lt; exact Lt).
  cbn [Z.eqb Pos.eqb andb isValid vr_expiryDate subscriptions logged].
  assert (U : exists error,
             upsertError uid sid tok (newDate e) (subscriptions w)
             = Some error).
  { unfold upsertError. destruct (newDate e); [|eauto]. rewrite F.
    assert (Ex : existsb (fun y => (purchaseToken y =? tok)%string
                                   || negb (present (orderId y)))
                   (subscriptions w) = true).
    { apply existsb_exists. exists x. split; [exact I|].
      destruct X as [X|X]; rewrite X;
        [apply orb_true_r | rewrite String.eqb_refl; reflexivity]. }
    rewrite Ex. eauto. }
  destruct U as [error U]. rewrite U. reflexivity.
Qed.

Lemma insert_is_refused_beside_a_document_without_orderId_witness :
  let E := Sample.env (Sample.paid 5000) in
  let w1 := snd (verifyAndSaveSubscription E 1000 Sample.request
                   (Sample.world [])) in
  map keyOf (subscriptions w1) = [("alice", "gold")]
  /\ verifyAndSaveSubscription E 2000
       (mkVerifyRequest (Some "bob") (mkVerifyBody "com.kanvas" "silver" "tok-2"))
       w1
     = (inl (CustomError "Error processing subscription" 500),
        logged w1 [EvVerify "com.kanvas" "silver" "tok-2"]).
Proof.
  intros E w1. split; [reflexivity|].
  exact (proj1 (@insert_is_refused_beside_a_document_without_orderId
                  E 2000 "bob" "com.kanvas" "silver" "tok-2" w1
                  (mkPlay (Some 1) (Some 5000)) 5000
                  (verifyInsert 1000 "alice" "gold" "tok-1" basic (Some 5000))
                  eq_refl eq_refl eq_refl eq_refl eq_refl
                  (or_introl eq_refl) (or_introl eq_refl))).
Defined.
